(** * marketing-agent: files to LLM providers

    A shallow embedding of the Python package [marketing_agent]
    ([config.py], [llm_client.py], [file_reader.py], [agent.py]) and the
    properties of its provider abstraction, client and agent.

    Conventions of the embedding.
    - Python text is a [string]; one [ascii] stands for one code point, so
      the model covers text whose code points are below 256.
    - Python values that come from JSON (and the payloads that go out as
      JSON) are [json] values; [JNull] is [None], a [JObj] is a [dict] in
      insertion order.
    - A Python float ([temperature], a clock reading, a processing time)
      is the rational [Q] it denotes.  Float arithmetic that rounds is the
      interpreter's: [sum] over floats and the division of a float are
      fields of [Env].  The difference of two clock readings is taken
      exact, as it is in binary64 for two readings within a factor of two
      of each other.
    - An exception is a class and its [str()] text.  Every class used here
      derives from [Exception]; the texts of the interpreter's own
      exceptions are those of CPython 3.11 to 3.13.
    - Code with effects (HTTP, file system, clock) runs in a state and
      exception monad over an abstract world; the effects themselves are
      the fields of [Env].  Logging is not modelled.
    - A generator is run to its end: the list of the fragments it yields
      and how it ended. *)

From Stdlib Require Import String Ascii List ZArith QArith Bool Lia.
From Stdlib Require Import DecimalString.
Import ListNotations.
Close Scope Q_scope.
Local Open Scope string_scope.
Local Open Scope list_scope.

(* ================================================================== *)
(** ** Python text *)

Module Py.

(** [str.isspace] on one code point below 256 (CPython's
    [_PyUnicode_IsWhitespace]). *)
Definition isspace (c : ascii) : bool :=
  let n := nat_of_ascii c in
  (((9 <=? n) && (n <=? 13)) || ((28 <=? n) && (n <=? 32))
   || (n =? 133) || (n =? 160))%nat.

(** Truth value of a [str]. *)
Definition truthy (s : string) : bool :=
  match s with EmptyString => false | _ => true end.

(** Truth value of an [Optional[str]]. *)
Definition truthy_opt (o : option string) : bool :=
  match o with None => false | Some s => truthy s end.

(** [s.startswith(p)] *)
Definition startswith (p s : string) : bool := String.prefix p s.

(** [s[n:]] *)
Fixpoint drop (n : nat) (s : string) : string :=
  match n, s with
  | O, _ => s
  | S _, EmptyString => EmptyString
  | S n', String _ s' => drop n' s'
  end.

(** [s.lstrip()] *)
Fixpoint lstrip (s : string) : string :=
  match s with
  | EmptyString => EmptyString
  | String c s' => if isspace c then lstrip s' else s
  end.

(** [s.rstrip()] *)
Fixpoint rstrip (s : string) : string :=
  match s with
  | EmptyString => EmptyString
  | String c s' =>
      match rstrip s' with
      | EmptyString => if isspace c then EmptyString else String c EmptyString
      | r => String c r
      end
  end.

(** [s.strip()] *)
Definition strip (s : string) : string := rstrip (lstrip s).

(** [s.rstrip(c)] for a one-character argument. *)
Fixpoint rstrip_char (x : ascii) (s : string) : string :=
  match s with
  | EmptyString => EmptyString
  | String c s' =>
      match rstrip_char x s' with
      | EmptyString => if Ascii.eqb c x then EmptyString else String c EmptyString
      | r => String c r
      end
  end.

(** [s.split()]: the maximal runs of non-whitespace, in order.  [cur] is
    the run being read. *)
Fixpoint split_from (cur : string) (s : string) : list string :=
  match s with
  | EmptyString => if truthy cur then [cur] else []
  | String c s' =>
      if isspace c
      then (if truthy cur then cur :: split_from EmptyString s'
            else split_from EmptyString s')
      else split_from (cur ++ String c EmptyString) s'
  end.

Definition split (s : string) : list string := split_from EmptyString s.

(** No character of [s] is whitespace. *)
Fixpoint no_space (s : string) : bool :=
  match s with
  | EmptyString => true
  | String c s' => negb (isspace c) && no_space s'
  end.

(** [s] without its whitespace characters. *)
Fixpoint remove_spaces (s : string) : string :=
  match s with
  | EmptyString => EmptyString
  | String c s' => if isspace c then remove_spaces s' else String c (remove_spaces s')
  end.

(** [sep.join(l)] *)
Definition join (sep : string) (l : list string) : string := String.concat sep l.

(** [needle in s] on text. *)
Fixpoint contains (needle s : string) : bool :=
  String.prefix needle s ||
  match s with
  | EmptyString => false
  | String _ s' => contains needle s'
  end.

(** The text of [f"{x}"] for an [Optional[str]]. *)
Definition format_opt (o : option string) : string :=
  match o with None => "None" | Some s => s end.

(** [repr] of a key, as [KeyError] prints it (keys without quotes or
    backslashes). *)
Definition repr (s : string) : string := "'" ++ s ++ "'".

End Py.

(* ================================================================== *)
(** ** Exceptions, results, effects *)

(** Exception classes; all derive from [Exception]. *)
Inductive exn_class : Set :=
| RequestException | JSONDecodeError | KeyError | IndexError | TypeError
| AttributeError | ValueError | OSError | UnicodeDecodeError | RecursionError.

Record exn : Set := Exn { exn_cls : exn_class; exn_str : string }.

Definition exn_class_eqb (a b : exn_class) : bool :=
  match a, b with
  | RequestException, RequestException | JSONDecodeError, JSONDecodeError
  | KeyError, KeyError | IndexError, IndexError | TypeError, TypeError
  | AttributeError, AttributeError | ValueError, ValueError
  | OSError, OSError | UnicodeDecodeError, UnicodeDecodeError
  | RecursionError, RecursionError => true
  | _, _ => false
  end.

(** [issubclass(a, b)]: [requests]' [RequestException] is an [IOError],
    that is an [OSError]; the two decode errors are [ValueError]s. *)
Definition issubclass (a b : exn_class) : bool :=
  exn_class_eqb a b
  || match a, b with
     | RequestException, OSError => true
     | JSONDecodeError, ValueError => true
     | UnicodeDecodeError, ValueError => true
     | _, _ => false
     end.

(** [isinstance(e, c)], the test of an [except c] clause. *)
Definition isinstance (e : exn) (c : exn_class) : bool :=
  issubclass (exn_cls e) c.

(** The result of code that returns or raises. *)
Inductive Result (A : Type) : Type :=
| Ok (a : A)
| Raise (e : exn).
Arguments Ok {A} a.
Arguments Raise {A} e.

Definition rbind {A B} (r : Result A) (k : A -> Result B) : Result B :=
  match r with Ok a => k a | Raise e => Raise e end.

(** [[f(x) for x in l]] where [f] may raise. *)
Fixpoint rmap {A B} (f : A -> Result B) (l : list A) : Result (list B) :=
  match l with
  | [] => Ok []
  | x :: l' => rbind (f x) (fun y => rbind (rmap f l') (fun ys => Ok (y :: ys)))
  end.

(** State and exception monad over a world [W]. *)
Definition M (W A : Type) : Type := W -> Result A * W.

Definition ret {W A} (a : A) : M W A := fun w => (Ok a, w).
Definition raise {W A} (e : exn) : M W A := fun w => (Raise e, w).
Definition bind {W A B} (m : M W A) (k : A -> M W B) : M W B :=
  fun w => match m w with
           | (Ok a, w') => k a w'
           | (Raise e, w') => (Raise e, w')
           end.
Definition lift {W A} (r : Result A) : M W A := fun w => (r, w).

(** [try: m  except Exception as e: h e] *)
Definition try_except {W A} (m : M W A) (h : exn -> M W A) : M W A :=
  fun w => match m w with
           | (Ok a, w') => (Ok a, w')
           | (Raise e, w') => h e w'
           end.

(** How a generator ended. *)
Inductive gen_end : Set :=
| Finished
| Raised (e : exn).

(** A generator run to its end. *)
Definition Gen (W A : Type) : Type := W -> (list A * gen_end) * W.

(** [yield x] followed by the rest of a generator body. *)
Definition yield_then {A} (x : A) (rest : list A * gen_end) : list A * gen_end :=
  (x :: fst rest, snd rest).

(** A generator body wrapped in [try: ... except Exception as e: yield h e]:
    what was yielded before the exception stays, the handler's fragment
    follows, and the generator returns. *)
Definition gen_try_except {W A} (g : Gen W A) (h : exn -> A) : Gen W A :=
  fun w => match g w with
           | ((xs, Finished), w') => ((xs, Finished), w')
           | ((xs, Raised e), w') => ((xs ++ [h e], Finished), w')
           end.

Declare Scope monad_scope.
Delimit Scope monad_scope with monad.
Notation "x <- m ;; k" := (bind m (fun x => k))
  (at level 61, m at next level, right associativity) : monad_scope.
Notation "m ;;; k" := (bind m (fun _ => k))
  (at level 61, right associativity) : monad_scope.
Notation "x <~ r ;; k" := (rbind r (fun x => k))
  (at level 61, r at next level, right associativity) : monad_scope.
Local Open Scope monad_scope.

(* ================================================================== *)
(** ** JSON values as Python objects *)

#[warnings="-register-all"]
Inductive json : Type :=
| JNull
| JBool (b : bool)
| JInt (z : Z)
| JFloat (q : Q)
| JStr (s : string)
| JArr (l : list json)
| JObj (kvs : list (string * json)).

Module Dict.

(** [d[k]] as an option: the binding of [k]. *)
Fixpoint lookup (k : string) (d : list (string * json)) : option json :=
  match d with
  | [] => None
  | (k', v) :: d' => if String.eqb k k' then Some v else lookup k d'
  end.

(** [k in d] *)
Definition mem (k : string) (d : list (string * json)) : bool :=
  match lookup k d with Some _ => true | None => false end.

(** [d[k] = v]: a present key keeps its place, a new key goes last. *)
Fixpoint set (k : string) (v : json) (d : list (string * json))
  : list (string * json) :=
  match d with
  | [] => [(k, v)]
  | (k', v') :: d' =>
      if String.eqb k k' then (k, v) :: d' else (k', v') :: set k v d'
  end.

(** [list(d.keys())] *)
Definition keys (d : list (string * json)) : list string := map fst d.

End Dict.

(** [type(j).__name__] *)
Definition type_name (j : json) : string :=
  match j with
  | JNull => "NoneType"
  | JBool _ => "bool"
  | JInt _ => "int"
  | JFloat _ => "float"
  | JStr _ => "str"
  | JArr _ => "list"
  | JObj _ => "dict"
  end.

Definition is_str (k : string) (j : json) : bool :=
  match j with JStr s => String.eqb s k | _ => false end.

(** [bool(j)] *)
Definition py_truthy (j : json) : bool :=
  match j with
  | JNull => false
  | JBool b => b
  | JInt z => negb (Z.eqb z 0)
  | JFloat q => negb (Qeq_bool q 0)
  | JStr s => Py.truthy s
  | JArr l => match l with [] => false | _ => true end
  | JObj d => match d with [] => false | _ => true end
  end.

(** [j[k]] for a text key [k]. *)
Definition py_getitem (j : json) (k : string) : Result json :=
  match j with
  | JObj d =>
      match Dict.lookup k d with
      | Some v => Ok v
      | None => Raise (Exn KeyError (Py.repr k))
      end
  | JArr _ => Raise (Exn TypeError "list indices must be integers or slices, not str")
  | JStr _ => Raise (Exn TypeError "string indices must be integers, not 'str'")
  | _ => Raise (Exn TypeError ("'" ++ type_name j ++ "' object is not subscriptable"))
  end.

(** [j[0]] *)
Definition py_getitem0 (j : json) : Result json :=
  match j with
  | JArr (x :: _) => Ok x
  | JArr [] => Raise (Exn IndexError "list index out of range")
  | JStr (String c _) => Ok (JStr (String c EmptyString))
  | JStr EmptyString => Raise (Exn IndexError "string index out of range")
  | JObj _ => Raise (Exn KeyError "0")
  | _ => Raise (Exn TypeError ("'" ++ type_name j ++ "' object is not subscriptable"))
  end.

(** [j.get(k, default)] *)
Definition py_get (j : json) (k : string) (default : json) : Result json :=
  match j with
  | JObj d => Ok (match Dict.lookup k d with Some v => v | None => default end)
  | _ => Raise (Exn AttributeError
                  ("'" ++ type_name j ++ "' object has no attribute 'get'"))
  end.

(** [k in j] for a text [k]. *)
Definition py_in (k : string) (j : json) : Result bool :=
  match j with
  | JObj d => Ok (Dict.mem k d)
  | JArr l => Ok (existsb (is_str k) l)
  | JStr s => Ok (Py.contains k s)
  | _ => Raise (Exn TypeError
                  ("argument of type '" ++ type_name j ++ "' is not iterable"))
  end.

(** [len(j)] *)
Definition py_len (j : json) : Result nat :=
  match j with
  | JArr l => Ok (List.length l)
  | JObj d => Ok (List.length d)
  | JStr s => Ok (String.length s)
  | _ => Raise (Exn TypeError
                  ("object of type '" ++ type_name j ++ "' has no len()"))
  end.

(** [j.split()] *)
Definition py_split (j : json) : Result (list string) :=
  match j with
  | JStr s => Ok (Py.split s)
  | _ => Raise (Exn AttributeError
                  ("'" ++ type_name j ++ "' object has no attribute 'split'"))
  end.

(** The numbers [sum] adds: an [int] (a [bool] counts as one) or a
    [float]. *)
Inductive number : Type :=
| NInt (z : Z)
| NFloat (q : Q).

Definition py_number (j : json) : option number :=
  match j with
  | JInt z => Some (NInt z)
  | JBool b => Some (NInt (if b then 1%Z else 0%Z))
  | JFloat q => Some (NFloat q)
  | _ => None
  end.

(** Whether a running total of [sum] is still an [int]: it starts as the
    integer 0 and becomes a [float] with the first [float] added. *)
Definition all_ints (seen : list number) : bool :=
  forallb (fun n => match n with NInt _ => true | NFloat _ => false end) seen.

(** The total of the integers of [seen]. *)
Definition int_sum (seen : list number) : Z :=
  fold_right (fun n acc => match n with
                           | NInt z => (z + acc)%Z
                           | NFloat _ => acc
                           end) 0%Z seen.

(** One addition of [sum]: the running total of the numbers [seen] plus
    the next item [v], which raises when [v] is no number. *)
Definition py_sum_step (seen : list number) (v : json)
  : Result (list number) :=
  match py_number v with
  | Some n => Ok (seen ++ [n])
  | None =>
      Raise (Exn TypeError
               ("unsupported operand type(s) for +: '"
                ++ (if all_ints seen then "int" else "float")
                ++ "' and '" ++ type_name v ++ "'"))
  end.

(** What [sum] returns once the numbers [seen] are added: an exact [int]
    when all of them are integers, and otherwise the [float] the
    interpreter's summation [float_sum] gives (rounded additions from left
    to right before Python 3.12, a compensated summation from 3.12 on). *)
Definition py_sum_value (float_sum : list number -> Q) (seen : list number)
  : json :=
  if all_ints seen then JInt (int_sum seen) else JFloat (float_sum seen).

(** [sum(xs)] over floats: the integer 0 when there is none. *)
Definition py_sum_floats (float_sum : list number -> Q) (xs : list Q) : Q :=
  match xs with
  | [] => 0%Q
  | _ => float_sum (map NFloat xs)
  end.

(* ================================================================== *)
(** ** A reference JSON decoder

    [json.loads] belongs to Python's standard library, so the provider code
    below takes the decoder from its environment ([json_loads] of [Env]).
    [JsonDecoder.loads] is a decoder to instantiate it with: the JSON grammar
    of RFC 8259 read by recursive descent; a repeated key keeps its last
    value, as in a [dict].  It rejects [\u] escapes of code points from 256
    on and the literals [NaN] and [Infinity], which [json.loads] accepts
    and which have no value in this model.  [JsonDecoder.json_loads] wraps
    it as [json.loads] raises: a text that is no JSON document is a
    [JSONDecodeError], whose message no code here reads. *)

Module JsonDecoder.

Definition dquote : ascii := ascii_of_nat 34.

(** Text with every apostrophe turned into a double quote, to write JSON
    text in string literals. *)
Fixpoint dq (s : string) : string :=
  match s with
  | EmptyString => EmptyString
  | String c s' => String (if Ascii.eqb c "'"%char then dquote else c) (dq s')
  end.

Definition is_ws (c : ascii) : bool :=
  let n := nat_of_ascii c in
  ((n =? 32) || (n =? 9) || (n =? 10) || (n =? 13))%nat.

Fixpoint skip_ws (s : string) : string :=
  match s with
  | String c s' => if is_ws c then skip_ws s' else s
  | EmptyString => EmptyString
  end.

Definition digit (c : ascii) : option Z :=
  let n := nat_of_ascii c in
  if ((48 <=? n) && (n <=? 57))%nat then Some (Z.of_nat (n - 48)) else None.

Definition hex_digit (c : ascii) : option nat :=
  let n := nat_of_ascii c in
  if ((48 <=? n) && (n <=? 57))%nat then Some (n - 48)%nat
  else if ((97 <=? n) && (n <=? 102))%nat then Some (n - 87)%nat
  else if ((65 <=? n) && (n <=? 70))%nat then Some (n - 55)%nat
  else None.

(** The character an escape letter stands for. *)
Definition unescape (c : ascii) : option ascii :=
  if Ascii.eqb c dquote then Some dquote
  else if Ascii.eqb c "\"%char then Some "\"%char
  else if Ascii.eqb c "/"%char then Some "/"%char
  else if Ascii.eqb c "b"%char then Some (ascii_of_nat 8)
  else if Ascii.eqb c "f"%char then Some (ascii_of_nat 12)
  else if Ascii.eqb c "n"%char then Some (ascii_of_nat 10)
  else if Ascii.eqb c "r"%char then Some (ascii_of_nat 13)
  else if Ascii.eqb c "t"%char then Some (ascii_of_nat 9)
  else None.

Definition cons_text (c : ascii) (r : option (string * string))
  : option (string * string) :=
  match r with
  | Some (t, rest) => Some (String c t, rest)
  | None => None
  end.

(** The body of a string literal, after its opening quote: the text and
    what follows the closing quote. *)
Fixpoint text (s : string) : option (string * string) :=
  match s with
  | EmptyString => None
  | String c s' =>
      if Ascii.eqb c dquote then Some (EmptyString, s')
      else if Ascii.eqb c "\"%char then
        match s' with
        | String "u" (String a (String b (String x (String y s5)))) =>
            match hex_digit a, hex_digit b, hex_digit x, hex_digit y with
            | Some 0%nat, Some 0%nat, Some h, Some l =>
                cons_text (ascii_of_nat (16 * h + l)) (text s5)
            | _, _, _, _ => None
            end
        | String e s'' =>
            match unescape e with
            | Some ch => cons_text ch (text s'')
            | None => None
            end
        | EmptyString => None
        end
      else if (nat_of_ascii c <? 32)%nat then None
      else cons_text c (text s')
  end.

(** A run of digits: its value after [acc], how many digits, the rest. *)
Fixpoint digits (acc : Z) (n : nat) (s : string) : Z * nat * string :=
  match s with
  | String c s' =>
      match digit c with
      | Some d => digits (10 * acc + d) (S n) s'
      | None => (acc, n, s)
      end
  | EmptyString => (acc, n, s)
  end.

(** The integer part: [0] alone, or digits not starting with [0]. *)
Definition int_part (s : string) : option (Z * string) :=
  match s with
  | String "0" s' => Some (0%Z, s')
  | _ => match digits 0 0 s with
         | (_, O, _) => None
         | (z, _, rest) => Some (z, rest)
         end
  end.

(** The optional fraction: the digits after the point and their number. *)
Definition frac_part (s : string) : option (Z * nat * string) :=
  match s with
  | String "." s' =>
      match digits 0 0 s' with
      | (_, O, _) => None
      | r => Some r
      end
  | _ => None
  end.

(** The optional exponent. *)
Definition exp_part (s : string) : option (Z * string) :=
  let unsigned (sign : Z) (t : string) :=
    match digits 0 0 t with
    | (_, O, _) => None
    | (z, _, rest) => Some ((sign * z)%Z, rest)
    end in
  match s with
  | String c s' =>
      if Ascii.eqb c "e"%char || Ascii.eqb c "E"%char then
        match s' with
        | String "+" t => unsigned 1%Z t
        | String "-" t => unsigned (-1)%Z t
        | _ => unsigned 1%Z s'
        end
      else None
  | EmptyString => None
  end.

(** A number: an [int] when it has neither fraction nor exponent. *)
Definition number (s : string) : option (json * string) :=
  let (sign, s0) := match s with
                    | String "-" t => ((-1)%Z, t)
                    | _ => (1%Z, s)
                    end in
  match int_part s0 with
  | None => None
  | Some (i, s1) =>
      let '(f, nf, s2, has_f) :=
        match frac_part s1 with
        | Some (f, nf, r) => (f, nf, r, true)
        | None => (0%Z, O, s1, false)
        end in
      let '(e, s3, has_e) :=
        match exp_part s2 with
        | Some (e, r) => (e, r, true)
        | None => (0%Z, s2, false)
        end in
      if has_f || has_e then
        let mant := (sign * (i * 10 ^ Z.of_nat nf + f))%Z in
        Some (JFloat (Qred (Qmult (inject_Z mant)
                                  (Qpower (inject_Z 10) (e - Z.of_nat nf)))),
              s3)
      else Some (JInt (sign * i), s3)
  end.

(** A fixed word at the head of the text. *)
Definition word (w : string) (v : json) (s : string) : option (json * string) :=
  if String.prefix w s then Some (v, Py.drop (String.length w) s) else None.

Fixpoint value (fuel : nat) (s : string) : option (json * string) :=
  match fuel with
  | O => None
  | S f =>
      match s with
      | String "{" r =>
          match skip_ws r with
          | String "}" r' => Some (JObj [], r')
          | r' => members f [] r'
          end
      | String "[" r =>
          match skip_ws r with
          | String "]" r' => Some (JArr [], r')
          | r' => elements f [] r'
          end
      | String "n" _ => word "null" JNull s
      | String "t" _ => word "true" (JBool true) s
      | String "f" _ => word "false" (JBool false) s
      | String c r =>
          if Ascii.eqb c dquote then
            match text r with
            | Some (t, r') => Some (JStr t, r')
            | None => None
            end
          else number s
      | EmptyString => None
      end
  end

with elements (fuel : nat) (acc : list json) (s : string)
  : option (json * string) :=
  match fuel with
  | O => None
  | S f =>
      match value f s with
      | None => None
      | Some (v, r) =>
          match skip_ws r with
          | String "," r' => elements f (acc ++ [v]) (skip_ws r')
          | String "]" r' => Some (JArr (acc ++ [v]), r')
          | _ => None
          end
      end
  end

with members (fuel : nat) (acc : list (string * json)) (s : string)
  : option (json * string) :=
  match fuel with
  | O => None
  | S f =>
      match s with
      | String c r =>
          if Ascii.eqb c dquote then
            match text r with
            | None => None
            | Some (k, r1) =>
                match skip_ws r1 with
                | String ":" r2 =>
                    match value f (skip_ws r2) with
                    | None => None
                    | Some (v, r3) =>
                        match skip_ws r3 with
                        | String "," r4 => members f (Dict.set k v acc) (skip_ws r4)
                        | String "}" r4 => Some (JObj (Dict.set k v acc), r4)
                        | _ => None
                        end
                    end
                | _ => None
                end
            end
          else None
      | EmptyString => None
      end
  end.

(** [json.loads(s)]; [None] stands for [JSONDecodeError]. *)
Definition loads (s : string) : option json :=
  match value (2 * String.length s + 2) (skip_ws s) with
  | Some (j, rest) =>
      match skip_ws rest with
      | EmptyString => Some j
      | _ => None
      end
  | None => None
  end.

(** [json.loads(s)] with the reference decoder. *)
Definition json_loads (s : string) : Result json :=
  match loads s with
  | Some j => Ok j
  | None => Raise (Exn JSONDecodeError "Expecting value")
  end.

End JsonDecoder.

(* ================================================================== *)
(** ** A reference UTF-8 decoder

    [bytes.decode('utf-8')] is Python's too ([bytes_decode] of [Env]).  A
    byte string is a [string], one [ascii] for one byte.
    [Utf8Decoder.decode] is a decoder to instantiate it with, for the text
    of this model: ASCII bytes and the two-byte sequences of the code
    points 128 to 255.  A lead byte of a code point from 256 on is refused,
    where Python decodes; on every other input the answer is Python's, the
    text or the message of the [UnicodeDecodeError]. *)

Module Utf8Decoder.

Definition hex_digit (n : nat) : ascii :=
  nth n ["0"; "1"; "2"; "3"; "4"; "5"; "6"; "7"; "8"; "9";
         "a"; "b"; "c"; "d"; "e"; "f"]%char "0"%char.

(** [f"0x{b:02x}"] *)
Definition hex_byte (b : ascii) : string :=
  let n := nat_of_ascii b in
  "0x" ++ String (hex_digit (n / 16)) (String (hex_digit (n mod 16)) EmptyString).

(** The text of a [UnicodeDecodeError] of the codec. *)
Definition error (b : ascii) (position : nat) (reason : string) : string :=
  "'utf-8' codec can't decode byte " ++ hex_byte b ++ " in position "
  ++ NilEmpty.string_of_uint (Nat.to_uint position) ++ ": " ++ reason.

Definition prepend (c : ascii) (r : string + string) : string + string :=
  match r with
  | inl text => inl (String c text)
  | inr message => inr message
  end.

Fixpoint decode_from (position : nat) (b : string) : string + string :=
  match b with
  | EmptyString => inl EmptyString
  | String c rest =>
      let n := nat_of_ascii c in
      if (n <? 128)%nat then prepend c (decode_from (S position) rest)
      else if ((n =? 194) || (n =? 195))%nat then
        match rest with
        | EmptyString => inr (error c position "unexpected end of data")
        | String c2 rest2 =>
            let m := nat_of_ascii c2 in
            if ((128 <=? m) && (m <? 192))%nat
            then prepend (ascii_of_nat ((n - 192) * 64 + (m - 128)))
                         (decode_from (S (S position)) rest2)
            else inr (error c position "invalid continuation byte")
        end
      else inr (error c position "invalid start byte")
  end.

(** [b.decode('utf-8')]: the text, or the message of the
    [UnicodeDecodeError]. *)
Definition decode (b : string) : string + string := decode_from 0 b.

End Utf8Decoder.

(* ================================================================== *)
(** ** config.py *)

Module Config.

Definition supported_providers : list string := ["openai"; "anthropic"; "custom"].

Module LLMConfig.
Record t : Type := Build {
  provider : string;
  api_key : option string;
  model : string;
  base_url : option string;
  max_tokens : Z;
  temperature : Q
}.

(** [LLMConfig.validate_provider] *)
Definition validate_provider (v : string) : Result string :=
  if negb (existsb (String.eqb v) supported_providers)
  then Raise (Exn ValueError
                "Provider must be one of: ['openai', 'anthropic', 'custom']")
  else Ok v.

(** [LLMConfig.validate_temperature] *)
Definition validate_temperature (v : Q) : Result Q :=
  if negb (Qle_bool 0 v && Qle_bool v 2)
  then Raise (Exn ValueError "Temperature must be between 0 and 2")
  else Ok v.
End LLMConfig.

Module FileConfig.
Record t : Type := Build {
  input_directory : string;
  file_extensions : list string;
  recursive : bool;
  max_file_size : Z;
  encoding : string
}.
End FileConfig.

Record t : Type := Build {
  llm : LLMConfig.t;
  files : FileConfig.t
}.

(** [Config.validate_api_key] *)
Definition validate_api_key (self : t) : Result bool :=
  if negb (Py.truthy_opt (LLMConfig.api_key (llm self)))
  then Raise (Exn ValueError
                "LLM API key is required. Set LLM_API_KEY environment variable.")
  else Ok true.

End Config.

(* ================================================================== *)
(** ** The environment *)

Module Request.
(** The arguments of one [requests.post] call.  The value of a header is
    a text or [None]. *)
Record t : Type := Build {
  url : string;
  headers : list (string * option string);
  json_body : json;
  timeout : Z;
  stream : bool
}.
End Request.

Module FileContent.
(** [file_reader.FileContent] *)
Record t : Type := Build {
  file_path : string;
  content : string;
  file_size : Z;
  encoding : string
}.
End FileContent.

(** What the code calls outside itself.
    - [bytes_decode]: [line.decode('utf-8')]: the text, or the message of
      the [UnicodeDecodeError].
    - [json_loads]: [json.loads]: the value, or what it raises, a
      [JSONDecodeError] for a text that is no JSON document and, for some
      that are, another exception (a [ValueError] for an integer over the
      digit limit, a [RecursionError] for a nesting too deep).
    - [requests_post]: [requests.post], [raise_for_status] and
      [response.json()] of a blocking call: the decoded body, or the
      exception of the transport.
    - [requests_post_lines]: the same call with [stream=True] and
      [raise_for_status]; then the lines [iter_lines()] gives, as bytes, and
      how the iteration ends once they are read: the transport may fail
      while the body arrives.  The loop asks for the lines one by one, so
      what follows the line at which it stops is never asked for.
    - [read_file]: [FileReader.read_file], whose body is file-system calls:
      a [FileContent], [None] when reading failed, or an exception leaving
      its encoding-fallback handler.
    - [scan_directory]: [FileReader.scan_directory].
    - [stat_size]: [file_path.stat().st_size].
    - [time_time]: [time.time()].
    - [float_sum]: the [float] that [sum] gives for numbers that are not
      all integers (and all within the range of a [float]).
    - [float_div]: [x / n] for a [float] [x] and an [int] [n] that is not
      0. *)
Record Env (W : Type) : Type := {
  bytes_decode : string -> string + string;
  json_loads : string -> Result json;
  requests_post : Request.t -> M W json;
  requests_post_lines : Request.t -> M W (list string * gen_end);
  read_file : string -> M W (option FileContent.t);
  scan_directory : M W (list string);
  stat_size : string -> M W Z;
  time_time : W -> Q * W;
  float_sum : list number -> Q;
  float_div : Q -> Z -> Q
}.
Arguments bytes_decode {W} _ _.
Arguments json_loads {W} _ _.
Arguments requests_post {W} _ _ _.
Arguments requests_post_lines {W} _ _ _.
Arguments read_file {W} _ _ _.
Arguments scan_directory {W} _ _.
Arguments stat_size {W} _ _ _.
Arguments time_time {W} _ _.
Arguments float_sum {W} _ _.
Arguments float_div {W} _ _ _.

(* ================================================================== *)
(** ** llm_client.py *)

Module LlmClient.

Module Message.
(** One turn of a conversation, [{"role": ..., "content": ...}]. *)
Record t : Type := Build {
  role : string;
  content : string
}.

Definition to_json (m : t) : json :=
  JObj [("role", JStr (role m)); ("content", JStr (content m))].
End Message.

Module LLMResponse.
(** [content] is what the provider's body holds at the content path;
    [usage] and [finish_reason] are copied from the body, [JNull] when
    absent. *)
Record t : Type := Build {
  content : json;
  model : string;
  usage : json;
  finish_reason : json;
  provider : string
}.

Definition to_dict (self : t) : json :=
  JObj [("content", content self);
        ("model", JStr (model self));
        ("usage", usage self);
        ("finish_reason", finish_reason self);
        ("provider", JStr (provider self))].
End LLMResponse.

(** The keyword arguments the providers read. *)
Record Options : Type := {
  opt_max_tokens : option Z;
  opt_temperature : option Q
}.

Definition no_options : Options :=
  {| opt_max_tokens := None; opt_temperature := None |}.

(** [kwargs.get("max_tokens", 1000)] *)
Definition get_max_tokens (kwargs : Options) : json :=
  JInt (match opt_max_tokens kwargs with Some n => n | None => 1000%Z end).

(** [kwargs.get("temperature", 0.7)] *)
Definition get_temperature (kwargs : Options) : json :=
  JFloat (match opt_temperature kwargs with Some t => t | None => (7 # 10)%Q end).

(** The line feed of a Python ["\n"]. *)
Definition nl : string := String (ascii_of_nat 10) EmptyString.

(** The [except] clauses of the three [generate_response]: each logs and
    raises the exception again. *)
Definition log_and_reraise {W A} (m : M W A) : M W A :=
  try_except m (fun e =>
    if isinstance e RequestException then raise e
    else if isinstance e KeyError then raise e
    else raise e).

(** The same clause around the body of a generator. *)
Definition gen_log_and_reraise {W A} (g : Gen W A) : Gen W A :=
  fun w =>
    match g w with
    | ((xs, Raised e), w') =>
        if isinstance e RequestException then ((xs, Raised e), w')
        else ((xs, Raised e), w')
    | r => r
    end.

(** The body of the [try] after [data = response.json()] in the
    OpenAI-style and Custom [generate_response], which differ in the
    provider tag only. *)
Definition chat_completion_response (data : json) (model provider : string)
  : Result LLMResponse.t :=
  choices <~ py_getitem data "choices" ;;
  choice <~ py_getitem0 choices ;;
  message <~ py_getitem choice "message" ;;
  content <~ py_getitem message "content" ;;
  usage <~ py_get data "usage" JNull ;;
  finish_reason <~ py_get choice "finish_reason" JNull ;;
  Ok (LLMResponse.Build content model usage finish_reason provider).

(** The body of the Anthropic-style and Custom [stream_response]:
    [response = self.generate_response(...)],
    [words = response.content.split()], then [yield word + " "] for each
    word. *)
Definition words_stream {W} (generate : M W LLMResponse.t) : Gen W json :=
  fun w =>
    match generate w with
    | (Raise e, w') => (([], Raised e), w')
    | (Ok response, w') =>
        match py_split (LLMResponse.content response) with
        | Raise e => (([], Raised e), w')
        | Ok words =>
            ((map (fun word => JStr (word ++ " ")) words, Finished), w')
        end
    end.

(** *** OpenAIProvider *)

Module OpenAIProvider.

Record t : Type := Build {
  api_key : option string;
  model : string;
  kwargs : Options;
  base_url : string;
  headers : list (string * option string)
}.

Definition __init__ (api_key : option string) (model : string)
    (base_url : option string) (kwargs : Options) : t :=
  Build api_key model kwargs
        (match base_url with
         | Some u => if Py.truthy u then u else "https://api.openai.com/v1"
         | None => "https://api.openai.com/v1"
         end)
        [("Authorization", Some ("Bearer " ++ Py.format_opt api_key)%string);
         ("Content-Type", Some "application/json")].

Definition payload (self : t) (messages : list Message.t) (kwargs : Options)
    (stream : bool) : json :=
  JObj [("model", JStr (model self));
        ("messages", JArr (map Message.to_json messages));
        ("max_tokens", get_max_tokens kwargs);
        ("temperature", get_temperature kwargs);
        ("stream", JBool stream)].

(** The [requests.post] call; [stream] is false in [generate_response],
    true in [stream_response]. *)
Definition request (self : t) (messages : list Message.t) (kwargs : Options)
    (stream : bool) : Request.t :=
  let url := (base_url self ++ "/chat/completions")%string in
  Request.Build url (headers self) (payload self messages kwargs stream) 30 stream.

Definition generate_response {W} (env : Env W) (self : t)
    (messages : list Message.t) (kwargs : Options) : M W LLMResponse.t :=
  log_and_reraise
    (data <- requests_post env (request self messages kwargs false) ;;
     lift (chat_completion_response data (model self) "openai")).

(** What one decoded SSE payload makes the loop body do: yield a fragment,
    yield nothing, or raise. *)
Definition sse_fragment (json_data : json) : Result (option json) :=
  has_choices <~ py_in "choices" json_data ;;
  nonempty <~ (if has_choices
               then (choices <~ py_getitem json_data "choices" ;;
                     n <~ py_len choices ;;
                     Ok (0 <? n)%nat)
               else Ok false) ;;
  if nonempty then
    choices <~ py_getitem json_data "choices" ;;
    choice <~ py_getitem0 choices ;;
    delta <~ py_get choice "delta" (JObj []) ;;
    has_content <~ py_in "content" delta ;;
    if has_content
    then (c <~ py_getitem delta "content" ;; Ok (Some c))
    else Ok None
  else Ok None.

(** The body of the inner [try]: [json.loads(data)], then the probe. *)
Definition sse_payload (loads : string -> Result json) (data : string)
  : Result (option json) :=
  json_data <~ loads data ;;
  sse_fragment json_data.

(** The [for line in response.iter_lines()] loop over the lines the
    transport gives, which ends as the iteration does ([iter_end]) when no
    line stops it before. *)
Fixpoint stream_lines (decode : string -> string + string)
    (loads : string -> Result json) (lines : list string)
    (iter_end : gen_end) : list json * gen_end :=
  match lines with
  | [] => ([], iter_end)
  | line :: rest =>
      if Py.truthy line then
        match decode line with
        | inr message => ([], Raised (Exn UnicodeDecodeError message))
        | inl line =>
            if Py.startswith "data: " line then
              let data := Py.drop 6 line in
              if String.eqb (Py.strip data) "[DONE]" then ([], Finished)
              else
                match sse_payload loads data with
                | Raise e =>
                    if isinstance e JSONDecodeError
                    then stream_lines decode loads rest iter_end
                    else ([], Raised e)
                | Ok (Some c) =>
                    yield_then c (stream_lines decode loads rest iter_end)
                | Ok None => stream_lines decode loads rest iter_end
                end
            else stream_lines decode loads rest iter_end
        end
      else stream_lines decode loads rest iter_end
  end.

Definition stream_response {W} (env : Env W) (self : t)
    (messages : list Message.t) (kwargs : Options) : Gen W json :=
  gen_log_and_reraise
    (fun w =>
       match requests_post_lines env (request self messages kwargs true) w with
       | (Raise e, w') => (([], Raised e), w')
       | (Ok (lines, iter_end), w') =>
           (stream_lines (bytes_decode env) (json_loads env) lines iter_end,
            w')
       end).

End OpenAIProvider.

(** *** AnthropicProvider *)

Module AnthropicProvider.

Record t : Type := Build {
  api_key : option string;
  model : string;
  kwargs : Options;
  headers : list (string * option string)
}.

Definition __init__ (api_key : option string) (model : string)
    (kwargs : Options) : t :=
  Build api_key model kwargs
        [("x-api-key", api_key);
         ("Content-Type", Some "application/json");
         ("anthropic-version", Some "2023-06-01")].

(** The [for msg in messages] loop over [system_message] and
    [user_messages]. *)
Fixpoint convert (messages : list Message.t)
    (system_message : string) (user_messages : list string)
  : string * list string :=
  match messages with
  | [] => (system_message, user_messages)
  | msg :: rest =>
      if String.eqb (Message.role msg) "system" then
        convert rest (Message.content msg) user_messages
      else if String.eqb (Message.role msg) "user" then
        convert rest system_message (user_messages ++ [Message.content msg])
      else if String.eqb (Message.role msg) "assistant" then
        convert rest system_message (user_messages ++ [Message.content msg])
      else convert rest system_message user_messages
  end.

Definition payload (self : t) (messages : list Message.t) (kwargs : Options)
  : json :=
  let '(system_message, user_messages) := convert messages "" [] in
  let user_content := Py.join (nl ++ nl) user_messages in
  let payload :=
    [("model", JStr (model self));
     ("max_tokens", get_max_tokens kwargs);
     ("temperature", get_temperature kwargs);
     ("messages", JArr [JObj [("role", JStr "user");
                              ("content", JStr user_content)]])] in
  JObj (if Py.truthy system_message
        then Dict.set "system" (JStr system_message) payload
        else payload).

Definition request (self : t) (messages : list Message.t) (kwargs : Options)
  : Request.t :=
  let url := "https://api.anthropic.com/v1/messages" in
  Request.Build url (headers self) (payload self messages kwargs) 30 false.

(** The body of the [try] after [data = response.json()]. *)
Definition response (data : json) (model : string) : Result LLMResponse.t :=
  blocks <~ py_getitem data "content" ;;
  block <~ py_getitem0 blocks ;;
  content <~ py_getitem block "text" ;;
  usage <~ py_get data "usage" JNull ;;
  finish_reason <~ py_get data "stop_reason" JNull ;;
  Ok (LLMResponse.Build content model usage finish_reason "anthropic").

Definition generate_response {W} (env : Env W) (self : t)
    (messages : list Message.t) (kwargs : Options) : M W LLMResponse.t :=
  log_and_reraise
    (data <- requests_post env (request self messages kwargs) ;;
     lift (response data (model self))).

Definition stream_response {W} (env : Env W) (self : t)
    (messages : list Message.t) (kwargs : Options) : Gen W json :=
  words_stream (generate_response env self messages kwargs).

End AnthropicProvider.

(** *** CustomProvider *)

Module CustomProvider.

Record t : Type := Build {
  api_key : option string;
  model : string;
  kwargs : Options;
  base_url : string;
  headers : list (string * option string)
}.

Definition __init__ (api_key : option string) (model : string)
    (base_url : string) (kwargs : Options) : t :=
  Build api_key model kwargs
        (Py.rstrip_char "/" base_url)
        [("Authorization", Some ("Bearer " ++ Py.format_opt api_key)%string);
         ("Content-Type", Some "application/json")].

Definition payload (self : t) (messages : list Message.t) (kwargs : Options)
  : json :=
  JObj [("model", JStr (model self));
        ("messages", JArr (map Message.to_json messages));
        ("max_tokens", get_max_tokens kwargs);
        ("temperature", get_temperature kwargs)].

Definition request (self : t) (messages : list Message.t) (kwargs : Options)
  : Request.t :=
  let url := (base_url self ++ "/chat/completions")%string in
  Request.Build url (headers self) (payload self messages kwargs) 30 false.

Definition generate_response {W} (env : Env W) (self : t)
    (messages : list Message.t) (kwargs : Options) : M W LLMResponse.t :=
  log_and_reraise
    (data <- requests_post env (request self messages kwargs) ;;
     lift (chat_completion_response data (model self) "custom")).

Definition stream_response {W} (env : Env W) (self : t)
    (messages : list Message.t) (kwargs : Options) : Gen W json :=
  words_stream (generate_response env self messages kwargs).

End CustomProvider.

(** *** LLMProvider: the three variants behind one interface *)

Inductive LLMProvider : Type :=
| OpenAI (p : OpenAIProvider.t)
| Anthropic (p : AnthropicProvider.t)
| Custom (p : CustomProvider.t).

(** [provider.generate_response(messages, **kwargs)] *)
Definition provider_generate_response {W} (env : Env W) (self : LLMProvider)
    (messages : list Message.t) (kwargs : Options) : M W LLMResponse.t :=
  match self with
  | OpenAI p => OpenAIProvider.generate_response env p messages kwargs
  | Anthropic p => AnthropicProvider.generate_response env p messages kwargs
  | Custom p => CustomProvider.generate_response env p messages kwargs
  end.

(** [provider.stream_response(messages, **kwargs)] *)
Definition provider_stream_response {W} (env : Env W) (self : LLMProvider)
    (messages : list Message.t) (kwargs : Options) : Gen W json :=
  match self with
  | OpenAI p => OpenAIProvider.stream_response env p messages kwargs
  | Anthropic p => AnthropicProvider.stream_response env p messages kwargs
  | Custom p => CustomProvider.stream_response env p messages kwargs
  end.

(** The provider tag each variant writes into its responses. *)
Definition provider_tag (self : LLMProvider) : string :=
  match self with
  | OpenAI _ => "openai"
  | Anthropic _ => "anthropic"
  | Custom _ => "custom"
  end.

Definition system_prompt : string :=
  "You are a helpful AI assistant that analyzes and responds to text content provided by the user.".

(** The [messages] list both [LLMClient.process_file_content] and
    [AIAgent.stream_file_processing] build. *)
Definition file_messages (file_content : string) (user_prompt : option string)
  : list Message.t :=
  let messages :=
    [Message.Build "system" system_prompt;
     Message.Build "user"
       ("Please analyze the following text content:" ++ nl ++ nl ++ file_content)] in
  match user_prompt with
  | Some prompt =>
      if Py.truthy prompt
      then messages ++ [Message.Build "user" prompt]
      else messages
  | None => messages
  end.

(** *** LLMClient *)

Module LLMClient.

Record t : Type := Build {
  config : Config.t;
  provider : LLMProvider
}.

Definition _create_provider (config : Config.t) : Result LLMProvider :=
  let provider_config := Config.llm config in
  let kwargs :=
    {| opt_max_tokens := Some (Config.LLMConfig.max_tokens provider_config);
       opt_temperature := Some (Config.LLMConfig.temperature provider_config) |} in
  let name := Config.LLMConfig.provider provider_config in
  if String.eqb name "openai" then
    Ok (OpenAI (OpenAIProvider.__init__
                  (Config.LLMConfig.api_key provider_config)
                  (Config.LLMConfig.model provider_config)
                  (Config.LLMConfig.base_url provider_config)
                  kwargs))
  else if String.eqb name "anthropic" then
    Ok (Anthropic (AnthropicProvider.__init__
                     (Config.LLMConfig.api_key provider_config)
                     (Config.LLMConfig.model provider_config)
                     kwargs))
  else if String.eqb name "custom" then
    match Config.LLMConfig.base_url provider_config with
    | Some base_url =>
        if negb (Py.truthy base_url)
        then Raise (Exn ValueError "base_url is required for custom provider")
        else Ok (Custom (CustomProvider.__init__
                           (Config.LLMConfig.api_key provider_config)
                           (Config.LLMConfig.model provider_config)
                           base_url
                           kwargs))
    | None => Raise (Exn ValueError "base_url is required for custom provider")
    end
  else Raise (Exn ValueError ("Unsupported provider: " ++ name)).

Definition __init__ (config : Config.t) : Result t :=
  provider <~ _create_provider config ;;
  Ok (Build config provider).

Definition generate_response {W} (env : Env W) (self : t)
    (messages : list Message.t) (kwargs : Options) : M W LLMResponse.t :=
  provider_generate_response env (provider self) messages kwargs.

Definition stream_response {W} (env : Env W) (self : t)
    (messages : list Message.t) (kwargs : Options) : Gen W json :=
  provider_stream_response env (provider self) messages kwargs.

Definition process_file_content {W} (env : Env W) (self : t)
    (file_content : string) (user_prompt : option string)
  : M W LLMResponse.t :=
  generate_response env self (file_messages file_content user_prompt) no_options.

End LLMClient.

End LlmClient.

(* ================================================================== *)
(** ** file_reader.py *)

Module FileReader.

(** The entries of [get_files_summary] that are counted from the files.
    (The others repeat the reader's settings and a rounded size in
    megabytes.) *)
Record files_summary : Type := {
  total_files : nat;
  successful_reads : nat;
  total_size_bytes : Z
}.

(** The loop of [get_files_summary]; its [try] passes on [OSError]. *)
Fixpoint summary_loop {W} (env : Env W) (files : list string)
    (total_size : Z) (successful_reads : nat) : M W (Z * nat) :=
  match files with
  | [] => ret (total_size, successful_reads)
  | file_path :: rest =>
      fun w =>
        match stat_size env file_path w with
        | (Raise e, w1) =>
            if isinstance e OSError
            then summary_loop env rest total_size successful_reads w1
            else (Raise e, w1)
        | (Ok file_size, w1) =>
            let total_size := (total_size + file_size)%Z in
            match read_file env file_path w1 with
            | (Raise e, w2) =>
                if isinstance e OSError
                then summary_loop env rest total_size successful_reads w2
                else (Raise e, w2)
            | (Ok (Some _), w2) =>
                summary_loop env rest total_size (S successful_reads) w2
            | (Ok None, w2) =>
                summary_loop env rest total_size successful_reads w2
            end
        end
  end.

(** [FileReader.get_files_summary] *)
Definition get_files_summary {W} (env : Env W) : M W files_summary :=
  files <- scan_directory env ;;
  counts <- summary_loop env files 0%Z 0%nat ;;
  ret {| total_files := List.length files;
         successful_reads := snd counts;
         total_size_bytes := fst counts |}.

End FileReader.

(* ================================================================== *)
(** ** agent.py *)

Module Agent.

Import LlmClient.

Module ProcessingResult.
Record t : Type := Build {
  file_path : string;
  file_content : FileContent.t;
  llm_response : option LLMResponse.t;
  processing_time : Q;
  success : bool;
  error_message : option string
}.

(** What [None.to_dict()] raises. *)
Definition no_response_error : exn :=
  Exn AttributeError "'NoneType' object has no attribute 'to_dict'".

(** [ProcessingResult.to_dict]: the entries are built in order, and
    [self.llm_response.to_dict()] is an attribute access on [None] when
    there is no response. *)
Definition to_dict (self : t) : Result json :=
  let file_path_ := JStr (file_path self) in
  let file_size_ := JInt (FileContent.file_size (file_content self)) in
  let encoding_ := JStr (FileContent.encoding (file_content self)) in
  llm_response_ <~ match llm_response self with
                   | Some r => Ok (LLMResponse.to_dict r)
                   | None => Raise no_response_error
                   end ;;
  Ok (JObj [("file_path", file_path_);
            ("file_size", file_size_);
            ("encoding", encoding_);
            ("llm_response", llm_response_);
            ("processing_time", JFloat (processing_time self));
            ("success", JBool (success self));
            ("error_message",
             match error_message self with
             | Some m => JStr m
             | None => JNull
             end)]).
End ProcessingResult.

(** [time.time()] as a step of the monad. *)
Definition now {W} (env : Env W) : M W Q :=
  fun w => let (t, w') := time_time env w in (Ok t, w').

(** The placeholder [FileContent(file_path, "", 0, "utf-8")]. *)
Definition empty_content (file_path : string) : FileContent.t :=
  FileContent.Build file_path "" 0 "utf-8".

Module Summary.
(** The mapping [batch_process_with_summary] returns. *)
Record t : Type := Build {
  total_files : nat;
  successful : nat;
  failed : nat;
  total_processing_time : Q;
  average_processing_time : Q;
  total_tokens : json;
  results : list json;
  errors : list string
}.
End Summary.

Module AIAgent.

(** The agent after [__init__]; its [file_reader] is the environment's. *)
Record t : Type := Build {
  config : Config.t;
  llm_client : LLMClient.t
}.

(** [AIAgent.__init__] with a given configuration. *)
Definition __init__ (config : Config.t) : Result t :=
  _ <~ Config.validate_api_key config ;;
  llm_client <~ LLMClient.__init__ config ;;
  Ok (Build config llm_client).

Definition process_single_file {W} (env : Env W) (self : t)
    (file_path : string) (user_prompt : option string)
  : M W ProcessingResult.t :=
  start_time <- now env ;;
  try_except
    (file_content <- read_file env file_path ;;
     match file_content with
     | None =>
         t <- now env ;;
         ret (ProcessingResult.Build file_path (empty_content file_path) None
                (t - start_time)%Q false (Some "Failed to read file"))
     | Some file_content =>
         llm_response <- LLMClient.process_file_content env (llm_client self)
                           (FileContent.content file_content) user_prompt ;;
         t <- now env ;;
         let processing_time := (t - start_time)%Q in
         ret (ProcessingResult.Build file_path file_content (Some llm_response)
                processing_time true None)
     end)
    (fun e =>
       t <- now env ;;
       let processing_time := (t - start_time)%Q in
       let error_msg :=
         ("Error processing " ++ file_path ++ ": " ++ exn_str e)%string in
       ret (ProcessingResult.Build file_path (empty_content file_path) None
              processing_time false (Some error_msg))).

(** The loop of [process_all_files] over [read_all_files()]: a file that
    cannot be read is passed over, a file that can is processed. *)
Fixpoint process_each {W} (env : Env W) (self : t)
    (files : list string) (user_prompt : option string)
  : M W (list ProcessingResult.t) :=
  match files with
  | [] => ret []
  | file_path :: rest =>
      file_content <- read_file env file_path ;;
      match file_content with
      | Some file_content =>
          result <- process_single_file env self
                      (FileContent.file_path file_content) user_prompt ;;
          results <- process_each env self rest user_prompt ;;
          ret (result :: results)
      | None => process_each env self rest user_prompt
      end
  end.

(** [list(self.process_all_files(user_prompt))] *)
Definition process_all_files {W} (env : Env W) (self : t)
    (user_prompt : option string) : M W (list ProcessingResult.t) :=
  files_summary <- FileReader.get_files_summary env ;;
  files <- scan_directory env ;;
  process_each env self files user_prompt.

Fixpoint process_files_with_prompt {W} (env : Env W) (self : t)
    (files : list string) (prompt : string) : M W (list ProcessingResult.t) :=
  match files with
  | [] => ret []
  | file_path :: rest =>
      result <- process_single_file env self file_path (Some prompt) ;;
      results <- process_files_with_prompt env self rest prompt ;;
      ret (result :: results)
  end.

Definition stream_file_processing {W} (env : Env W) (self : t)
    (file_path : string) (user_prompt : option string) : Gen W json :=
  gen_try_except
    (fun w =>
       match read_file env file_path w with
       | (Raise e, w1) => (([], Raised e), w1)
       | (Ok None, w1) => (([JStr "Error: Failed to read file"], Finished), w1)
       | (Ok (Some file_content), w1) =>
           let messages :=
             file_messages (FileContent.content file_content) user_prompt in
           LLMClient.stream_response env (llm_client self) messages no_options w1
       end)
    (fun e => JStr ("Error: " ++ exn_str e)).

(** The additions of
    [sum(r.llm_response.usage.get('total_tokens', 0) for r in ... if ...)]:
    the items are taken one by one, each read and then added to the
    numbers [seen] so far. *)
Fixpoint sum_total_tokens (seen : list number) (rs : list ProcessingResult.t)
  : Result (list number) :=
  match rs with
  | [] => Ok seen
  | r :: rest =>
      match ProcessingResult.llm_response r with
      | Some response =>
          if py_truthy (LLMResponse.usage response) then
            v <~ py_get (LLMResponse.usage response) "total_tokens" (JInt 0) ;;
            seen' <~ py_sum_step seen v ;;
            sum_total_tokens seen' rest
          else sum_total_tokens seen rest
      | None => sum_total_tokens seen rest
      end
  end.

(** The part of [batch_process_with_summary] after the results are in. *)
Definition summarize {W} (env : Env W) (results : list ProcessingResult.t)
  : Result Summary.t :=
  let successful_results := filter ProcessingResult.success results in
  let failed_results :=
    filter (fun r => negb (ProcessingResult.success r)) results in
  let total_processing_time :=
    py_sum_floats (float_sum env)
                  (map ProcessingResult.processing_time results) in
  tokens <~ sum_total_tokens [] successful_results ;;
  let total_tokens := py_sum_value (float_sum env) tokens in
  results_ <~ rmap ProcessingResult.to_dict results ;;
  Ok (Summary.Build
        (List.length results)
        (List.length successful_results)
        (List.length failed_results)
        total_processing_time
        (match results with
         | [] => 0%Q
         | _ => float_div env total_processing_time
                          (Z.of_nat (List.length results))
         end)
        total_tokens
        results_
        (flat_map (fun r => match ProcessingResult.error_message r with
                            | Some m => if Py.truthy m then [m] else []
                            | None => []
                            end) failed_results)).

Definition batch_process_with_summary {W} (env : Env W) (self : t)
    (user_prompt : option string) : M W Summary.t :=
  results <- process_all_files env self user_prompt ;;
  lift (summarize env results).

End AIAgent.

End Agent.


(* ================================================================== *)
(** ** file_reader.py over the file system

    The agent above takes [read_file] and [scan_directory] from its
    environment.  This part embeds the methods of [FileReader] themselves,
    over the calls they make: [Path.exists], [Path.is_dir], [Path.glob],
    [Path.is_file], [Path.stat] and [open(...).read()].  [Path.stat] either
    gives a size or raises [OSError]; [open(...).read()] may raise any
    exception, [UnicodeDecodeError] among them.  [Path.exists],
    [Path.is_dir], [Path.is_file] and [Path.glob] are taken to answer
    without raising, and [glob]'s paths are taken as a list before the loop
    runs over them.  [Path.suffix] is [pathlib]'s and is a field of the file
    system too. *)

Module PyCase.

(** [c.lower()] for one code point below 256: the ASCII capitals and the
    Latin-1 capitals (192 to 222, the multiplication sign 215 aside). *)
Definition lower_char (c : ascii) : ascii :=
  let n := nat_of_ascii c in
  if (((65 <=? n) && (n <=? 90))
      || ((192 <=? n) && (n <=? 222) && negb (n =? 215)))%nat
  then ascii_of_nat (n + 32)
  else c.

(** [s.lower()] *)
Fixpoint lower (s : string) : string :=
  match s with
  | EmptyString => EmptyString
  | String c s' => String (lower_char c) (lower s')
  end.

End PyCase.

Module FileSystem.

Record t (W : Type) : Type := {
  path_exists : string -> W -> bool * W;
  is_dir : string -> W -> bool * W;
  glob : string -> string -> W -> list string * W;
  is_file : string -> W -> bool * W;
  stat_size : string -> W -> (Z + string) * W;
  open_read : string -> string -> M W string;
  suffix : string -> string
}.
Arguments path_exists {W} _ _ _.
Arguments is_dir {W} _ _ _.
Arguments glob {W} _ _ _ _.
Arguments is_file {W} _ _ _.
Arguments stat_size {W} _ _ _.
Arguments open_read {W} _ _ _ _.
Arguments suffix {W} _ _.

End FileSystem.

Module FileReaderImpl.

(** A [FileReader] after [__init__]. *)
Record t : Type := Build {
  input_directory : string;
  file_extensions : list string;
  recursive : bool;
  max_file_size : Z;
  encoding : string
}.

(** [ext if ext.startswith('.') else f'.{ext}'] *)
Definition dotted (ext : string) : string :=
  if Py.startswith "." ext then ext else ("." ++ ext)%string.

(** [FileReader.__init__]; [file_extensions] is [None] when not given. *)
Definition __init__ (input_directory : string)
    (file_extensions : option (list string)) (recursive : bool)
    (max_file_size : Z) (encoding : string) : t :=
  let file_extensions :=
    match file_extensions with
    | Some (ext :: rest) => ext :: rest
    | _ => [".txt"; ".md"]
    end in
  Build input_directory (map dotted file_extensions) recursive max_file_size
        encoding.

(** The test [file_path.suffix.lower() in self.file_extensions]. *)
Definition extension_matches {W} (fs : FileSystem.t W) (self : t)
    (file_path : string) : bool :=
  existsb (String.eqb (PyCase.lower (FileSystem.suffix fs file_path)))
          (file_extensions self).

(** The loop of [scan_directory] over the paths of [glob]. *)
Fixpoint scan_loop {W} (fs : FileSystem.t W) (self : t)
    (candidates : list string) (files : list string) : W -> list string * W :=
  match candidates with
  | [] => fun w => (files, w)
  | file_path :: rest =>
      fun w =>
        let (is_file, w1) := FileSystem.is_file fs file_path w in
        if is_file && extension_matches fs self file_path then
          match FileSystem.stat_size fs file_path w1 with
          | (inl file_size, w2) =>
              if (file_size <=? max_file_size self)%Z
              then scan_loop fs self rest (files ++ [file_path]) w2
              else scan_loop fs self rest files w2
          | (inr _, w2) => scan_loop fs self rest files w2
          end
        else scan_loop fs self rest files w1
  end.

(** [FileReader.scan_directory] *)
Definition scan_directory {W} (fs : FileSystem.t W) (self : t)
  : W -> list string * W :=
  fun w =>
    let (present, w1) := FileSystem.path_exists fs (input_directory self) w in
    if negb present then ([], w1)
    else
      let (dir, w2) := FileSystem.is_dir fs (input_directory self) w1 in
      if negb dir then ([], w2)
      else
        let pattern := if recursive self then "**/*" else "*" in
        let (candidates, w3) :=
          FileSystem.glob fs (input_directory self) pattern w2 in
        scan_loop fs self candidates [] w3.

Definition fallback_encodings : list string :=
  ["latin-1"; "cp1252"; "iso-8859-1"].

(** The [for encoding in [...]] loop of the [UnicodeDecodeError] handler:
    the first encoding that reads the file gives the result; another
    decode error goes on to the next; any other exception leaves
    [read_file]. *)
Fixpoint read_fallback {W} (fs : FileSystem.t W) (file_path : string)
    (file_size : Z) (encodings : list string) : M W (option FileContent.t) :=
  match encodings with
  | [] => ret None
  | encoding :: rest =>
      fun w =>
        match FileSystem.open_read fs file_path encoding w with
        | (Ok content, w') =>
            (Ok (Some (FileContent.Build file_path content file_size encoding)),
             w')
        | (Raise e, w') =>
            if isinstance e UnicodeDecodeError
            then read_fallback fs file_path file_size rest w'
            else (Raise e, w')
        end
  end.

(** [FileReader.read_file] *)
Definition read_file {W} (fs : FileSystem.t W) (self : t) (file_path : string)
  : M W (option FileContent.t) :=
  fun w =>
    match FileSystem.stat_size fs file_path w with
    | (inr _, w1) => (Ok None, w1)
    | (inl file_size, w1) =>
        if (file_size >? max_file_size self)%Z then (Ok None, w1)
        else
          match FileSystem.open_read fs file_path (encoding self) w1 with
          | (Ok content, w2) =>
              (Ok (Some (FileContent.Build file_path content file_size
                           (encoding self))), w2)
          | (Raise e, w2) =>
              if isinstance e UnicodeDecodeError
              then read_fallback fs file_path file_size fallback_encodings w2
              else (Ok None, w2)
          end
    end.

(** The loop of [read_all_files]: the files that could be read, in
    order. *)
Fixpoint read_each {W} (fs : FileSystem.t W) (self : t) (files : list string)
  : M W (list FileContent.t) :=
  match files with
  | [] => ret []
  | file_path :: rest =>
      file_content <- read_file fs self file_path ;;
      contents <- read_each fs self rest ;;
      ret (match file_content with
           | Some c => c :: contents
           | None => contents
           end)
  end.

(** [list(self.read_all_files())] *)
Definition read_all_files {W} (fs : FileSystem.t W) (self : t)
  : M W (list FileContent.t) :=
  fun w =>
    let (files, w1) := scan_directory fs self w in
    read_each fs self files w1.

(** The environment of an agent whose reader is this [FileReader] on the
    file system [fs]; the other fields are given. *)
Definition env {W} (fs : FileSystem.t W) (self : t)
    (decode : string -> string + string)
    (loads : string -> Result json)
    (post : Request.t -> M W json)
    (post_lines : Request.t -> M W (list string * gen_end))
    (clock : W -> Q * W)
    (fsum : list number -> Q) (fdiv : Q -> Z -> Q) : Env W :=
  Build_Env W decode loads post post_lines
    (read_file fs self)
    (fun w => let (files, w') := scan_directory fs self w in (Ok files, w'))
    (fun file_path w =>
       match FileSystem.stat_size fs file_path w with
       | (inl file_size, w') => (Ok file_size, w')
       | (inr text, w') => (Raise (Exn OSError text), w')
       end)
    clock fsum fdiv.

End FileReaderImpl.
(* ================================================================== *)
(** ** What the specification talks about

    Definitions that follow the specification's words, to compare the code
    with: paths into a JSON body, the fragments a sequence of SSE lines
    stands for, the turns of a conversation. *)

Module Spec.

Import LlmClient.

(** Member [k] of a JSON object. *)
Definition json_field (k : string) (j : json) : option json :=
  match j with
  | JObj d => Dict.lookup k d
  | _ => None
  end.

(** First element of a JSON array. *)
Definition json_first (j : json) : option json :=
  match j with
  | JArr (x :: _) => Some x
  | _ => None
  end.

Definition and_then {A B} (o : option A) (f : A -> option B) : option B :=
  match o with Some a => f a | None => None end.

(** [choices[0].message.content] *)
Definition chat_content_path (data : json) : option json :=
  and_then (json_field "choices" data) (fun choices =>
  and_then (json_first choices) (fun choice =>
  and_then (json_field "message" choice) (fun message =>
  json_field "content" message))).

(** [content[0].text] *)
Definition anthropic_content_path (data : json) : option json :=
  and_then (json_field "content" data) (fun blocks =>
  and_then (json_first blocks) (fun block =>
  json_field "text" block)).

(** The content path each variant expects in a response body. *)
Definition content_path (p : LLMProvider) (data : json) : option json :=
  match p with
  | OpenAI _ => chat_content_path data
  | Anthropic _ => anthropic_content_path data
  | Custom _ => chat_content_path data
  end.

(** The request each variant's [generate_response] sends. *)
Definition generate_request (p : LLMProvider) (messages : list Message.t)
    (kwargs : Options) : Request.t :=
  match p with
  | OpenAI self => OpenAIProvider.request self messages kwargs false
  | Anthropic self => AnthropicProvider.request self messages kwargs
  | Custom self => CustomProvider.request self messages kwargs
  end.

(** The malformed-response condition: the exceptions Python raises when a
    body lacks a key ([KeyError]), has an empty list where an element is
    expected ([IndexError]) or holds a value of another type at a step of
    the path ([TypeError]). *)
Definition malformed_response (e : exn) : Prop :=
  exn_cls e = KeyError \/ exn_cls e = IndexError \/ exn_cls e = TypeError.

(** [choices[0].delta.content] of a streamed chunk. *)
Definition delta_content (j : json) : option json :=
  and_then (json_field "choices" j) (fun choices =>
  and_then (json_first choices) (fun choice =>
  and_then (json_field "delta" choice) (fun delta =>
  json_field "content" delta))).

(** The text of a line of the stream: the loop passes over an empty line,
    and a line that is not UTF-8 has no text. *)
Definition line_text (decode : string -> string + string) (line : string)
  : option string :=
  if Py.truthy line then
    match decode line with
    | inl text => Some text
    | inr _ => None
    end
  else None.

(** The payload of an SSE line: what follows the prefix [data: ] of its
    text. *)
Definition data_payload (text : string) : option string :=
  if String.prefix "data: " text then Some (Py.drop 6 text) else None.

Definition line_payload (decode : string -> string + string) (line : string)
  : option string :=
  and_then (line_text decode line) data_payload.

(** The terminator: a [data: ] line whose payload is [[DONE]], spaces
    around it aside. *)
Definition is_terminator (decode : string -> string + string)
    (line : string) : bool :=
  match line_payload decode line with
  | Some p => String.eqb (Py.strip p) "[DONE]"
  | None => false
  end.

(** The lines ahead of the first terminator. *)
Fixpoint before_terminator (decode : string -> string + string)
    (lines : list string) : list string :=
  match lines with
  | [] => []
  | line :: rest =>
      if is_terminator decode line then []
      else line :: before_terminator decode rest
  end.

(** The sequence holds a terminator. *)
Definition terminated (decode : string -> string + string)
    (lines : list string) : bool :=
  existsb (is_terminator decode) lines.

(** The value of a payload that is valid JSON. *)
Definition json_value (loads : string -> Result json) (p : string)
  : option json :=
  match loads p with
  | Ok j => Some j
  | Raise _ => None
  end.

(** The fragment a line stands for: the [choices[0].delta.content] of its
    payload, when that payload is JSON and has one. *)
Definition line_fragment (decode : string -> string + string)
    (loads : string -> Result json) (line : string) : list json :=
  match and_then (and_then (line_payload decode line) (json_value loads))
                 delta_content with
  | Some c => [c]
  | None => []
  end.

(** The fragments a sequence of lines stands for. *)
Definition expected_fragments (decode : string -> string + string)
    (loads : string -> Result json) (lines : list string) : list json :=
  flat_map (line_fragment decode loads) (before_terminator decode lines).

(** A number, a boolean or [null]: a value that has no [in] and no
    [len]. *)
Definition scalar (j : json) : bool :=
  match j with
  | JObj _ | JArr _ | JStr _ => false
  | _ => true
  end.

(** A text that contains [k], or an array that has the text [k] among its
    elements: [k in j] is true, and [j[k]] has no meaning. *)
Definition holds_text (k : string) (j : json) : bool :=
  match j with
  | JStr s => Py.contains k s
  | JArr l => existsb (is_str k) l
  | _ => false
  end.

(** The first element of [choices] cannot be probed for a delta content:
    it is no object, or its [delta] is a scalar or holds the text
    [content]. *)
Definition unprobeable_choice (choice : json) : bool :=
  match choice with
  | JObj c =>
      match Dict.lookup "delta" c with
      | Some delta => scalar delta || holds_text "content" delta
      | None => false
      end
  | _ => true
  end.

(** A JSON payload on which the probe for [choices[0].delta.content]
    raises:
    - a scalar, a text that contains [choices] or an array that has the
      text [choices] among its elements;
    - an object whose [choices] is a scalar, a non-empty text, a non-empty
      object, or an array whose first element cannot be probed. *)
Definition unprobeable (j : json) : bool :=
  match j with
  | JObj d =>
      match Dict.lookup "choices" d with
      | None => false
      | Some (JArr []) => false
      | Some (JArr (choice :: _)) => unprobeable_choice choice
      | Some (JStr s) => Py.truthy s
      | Some (JObj []) => false
      | Some (JObj (_ :: _)) => true
      | Some _ => true
      end
  | _ => scalar j || holds_text "choices" j
  end.

(** The exceptions probing a decoded SSE payload raises. *)
Definition probe_error (e : exn) : Prop :=
  exn_cls e = TypeError \/ exn_cls e = AttributeError \/ exn_cls e = KeyError.

(** The line makes the stream raise [e]: it is not empty and
    - its bytes are not UTF-8, and [e] is the [UnicodeDecodeError]; or
    - it has a payload, not the terminator's, on which [json.loads] raises
      [e], which is no [JSONDecodeError]; or
    - it has a payload, not the terminator's, that is JSON on which the
      probe raises, and [e] is a [TypeError], an [AttributeError] or a
      [KeyError]. *)
Definition line_raises (decode : string -> string + string)
    (loads : string -> Result json) (line : string) (e : exn) : Prop :=
  Py.truthy line = true
  /\ ((exists message,
          decode line = inr message /\ e = Exn UnicodeDecodeError message)
      \/ (exists p,
             line_payload decode line = Some p
             /\ is_terminator decode line = false
             /\ ((loads p = Raise e /\ isinstance e JSONDecodeError = false)
                 \/ (exists j, loads p = Ok j /\ unprobeable j = true
                                /\ probe_error e)))).

(** The same as a test: the line makes the stream raise. *)
Definition line_fails (decode : string -> string + string)
    (loads : string -> Result json) (line : string) : bool :=
  Py.truthy line
  && match decode line with
     | inr _ => true
     | inl text =>
         match data_payload text with
         | Some p =>
             negb (String.eqb (Py.strip p) "[DONE]")
             && match loads p with
                | Ok j => unprobeable j
                | Raise e => negb (isinstance e JSONDecodeError)
                end
         | None => false
         end
     end.

(** No line ahead of the terminator makes the stream raise. *)
Definition stream_safe (decode : string -> string + string)
    (loads : string -> Result json) (lines : list string) : bool :=
  forallb (fun line => negb (line_fails decode loads line))
          (before_terminator decode lines).

(** How a stream that no line makes raise ends: at its terminator, and
    without one as the transport's iteration does. *)
Definition safe_end (decode : string -> string + string)
    (lines : list string) (iter_end : gen_end) : gen_end :=
  if terminated decode lines then Finished else iter_end.

(** The reading of "each line whose payload is JSON carrying
    [choices[0].delta.content] yields that fragment, malformed lines are
    skipped, the terminator ends the sequence" for one sequence of lines. *)
Definition stream_as_stated (decode : string -> string + string)
    (loads : string -> Result json) (lines : list string)
    (iter_end : gen_end) : Prop :=
  OpenAIProvider.stream_lines decode loads lines iter_end
  = (expected_fragments decode loads lines, Finished).

(** The contents of the user and assistant turns, in order. *)
Definition turn_contents (messages : list Message.t) : list string :=
  map Message.content
      (filter (fun m => String.eqb (Message.role m) "user"
                        || String.eqb (Message.role m) "assistant") messages).

(** The content of the last system-role message. *)
Fixpoint last_system (messages : list Message.t) : option string :=
  match messages with
  | [] => None
  | m :: rest =>
      match last_system rest with
      | Some s => Some s
      | None => if String.eqb (Message.role m) "system"
                then Some (Message.content m) else None
      end
  end.

(** The reading of "the content of the system-role message appears as a
    separate top-level [system] field" for one conversation. *)
Definition system_field_as_stated (messages : list Message.t) : Prop :=
  forall self kwargs s,
    last_system messages = Some s ->
    json_field "system" (AnthropicProvider.payload self messages kwargs)
    = Some (JStr s).

(** The variants whose [stream_response] is simulated from a blocking
    [generate_response]. *)
Definition simulated (p : LLMProvider) : bool :=
  match p with
  | OpenAI _ => false
  | Anthropic _ => true
  | Custom _ => true
  end.

(** A token re-emitted as a fragment: one trailing space appended. *)
Definition spaced (token : string) : json := JStr (token ++ " ").

(** The keys of a request's JSON body. *)
Definition body_keys (req : Request.t) : list string :=
  match Request.json_body req with
  | JObj kvs => Dict.keys kvs
  | _ => []
  end.

(** The normalisation each variant applies to a decoded body. *)
Definition provider_response (p : LLMProvider) (data : json)
  : Result LLMResponse.t :=
  match p with
  | OpenAI self =>
      chat_completion_response data (OpenAIProvider.model self) "openai"
  | Anthropic self =>
      AnthropicProvider.response data (AnthropicProvider.model self)
  | Custom self =>
      chat_completion_response data (CustomProvider.model self) "custom"
  end.

(** [m] makes exactly one POST, of [req], and goes on with [k] on the
    decoded body; a failure of the transport is raised as it is. *)
Definition posts {W A} (env : Env W) (m : M W A) (req : Request.t)
    (k : json -> Result A) : Prop :=
  forall w,
    m w = match requests_post env req w with
          | (Ok data, w') => (k data, w')
          | (Raise e, w') => (Raise e, w')
          end.

Import Agent.

(** Member [k] of a JSON object, [JNull] when there is none: what
    [data.get(k)] gives on a [dict]. *)
Definition field_or_null (k : string) (j : json) : json :=
  match json_field k j with
  | Some v => v
  | None => JNull
  end.

(** The model identifier a provider was built with. *)
Definition model_of (p : LLMProvider) : string :=
  match p with
  | OpenAI self => OpenAIProvider.model self
  | Anthropic self => AnthropicProvider.model self
  | Custom self => CustomProvider.model self
  end.

(** The keyword arguments a provider stored at construction. *)
Definition stored_kwargs (p : LLMProvider) : Options :=
  match p with
  | OpenAI self => OpenAIProvider.kwargs self
  | Anthropic self => AnthropicProvider.kwargs self
  | Custom self => CustomProvider.kwargs self
  end.

(** The headers a provider sends. *)
Definition headers_of (p : LLMProvider) : list (string * option string) :=
  match p with
  | OpenAI self => OpenAIProvider.headers self
  | Anthropic self => AnthropicProvider.headers self
  | Custom self => CustomProvider.headers self
  end.

(** Where each variant finds the finish reason of a body:
    [choices[0].finish_reason] for OpenAI-style and Custom, [stop_reason]
    for Anthropic-style. *)
Definition finish_reason_of (p : LLMProvider) (data : json) : json :=
  match p with
  | Anthropic _ => field_or_null "stop_reason" data
  | _ => match and_then (json_field "choices" data) json_first with
         | Some choice => field_or_null "finish_reason" choice
         | None => JNull
         end
  end.

(** The value a request carries under a header name, when it has that
    header. *)
Fixpoint header (name : string) (headers : list (string * option string))
  : option (option string) :=
  match headers with
  | [] => None
  | (k, v) :: rest => if String.eqb name k then Some v else header name rest
  end.

(** [s] ends with the character [c]. *)
Fixpoint ends_with (c : ascii) (s : string) : bool :=
  match s with
  | EmptyString => false
  | String x EmptyString => Ascii.eqb x c
  | String _ s' => ends_with c s'
  end.

(** [n] copies of the character [c]. *)
Fixpoint copies (n : nat) (c : ascii) : string :=
  match n with
  | O => EmptyString
  | S n' => String c (copies n' c)
  end.

(** The token count a response adds to [total_tokens]: the integer at
    [usage["total_tokens"]], 0 when the usage is absent, empty or has no
    such key. *)
Definition counted_tokens (response : LLMResponse.t) : Z :=
  match LLMResponse.usage response with
  | JObj d => match Dict.lookup "total_tokens" d with
              | Some (JInt n) => n
              | _ => 0%Z
              end
  | _ => 0%Z
  end.

(** A usage as the data model has it: absent, or a mapping whose
    [total_tokens], when present, is an integer. *)
Definition usage_counts (response : LLMResponse.t) : bool :=
  match LLMResponse.usage response with
  | JNull => true
  | JObj d => match Dict.lookup "total_tokens" d with
              | Some (JInt _) => true
              | Some _ => false
              | None => true
              end
  | _ => false
  end.

(** A result as [process_single_file] builds it on success, with a usage
    that counts. *)
Definition counted_success (r : ProcessingResult.t) : bool :=
  ProcessingResult.success r
  && match ProcessingResult.llm_response r with
     | Some response => usage_counts response
     | None => false
     end.

(** The tokens of a result. *)
Definition result_tokens (r : ProcessingResult.t) : Z :=
  match ProcessingResult.llm_response r with
  | Some response => counted_tokens response
  | None => 0%Z
  end.

(** The sum of the tokens of a list of results. *)
Definition total_of (rs : list ProcessingResult.t) : Z :=
  fold_right (fun r acc => (result_tokens r + acc)%Z) 0%Z rs.

(** An environment whose file system does not change under the agent:
    reading the path [p] gives [fs p] in every world and leaves the world
    as it is, and what is read under a path carries that path. *)
Definition reads_as {W} (env : Env W)
    (fs : string -> option FileContent.t) : Prop :=
  (forall p w, read_file env p w = (Ok (fs p), w))
  /\ (forall p c, fs p = Some c -> FileContent.file_path c = p).

(** [p] can be read. *)
Definition readable (fs : string -> option FileContent.t) (p : string) : bool :=
  match fs p with Some _ => true | None => false end.

(** A file system whose files and sizes do not change: [is_file] and
    [stat] answer from the tables [files] and [sizes] and leave the world
    as it is. *)
Definition unchanging {W} (fs : FileSystem.t W) (files : string -> bool)
    (sizes : string -> Z + string) : Prop :=
  (forall p w, FileSystem.is_file fs p w = (files p, w))
  /\ (forall p w, FileSystem.stat_size fs p w = (sizes p, w)).

(** The size of [p] is known and within the reader's limit. *)
Definition within_limit (self : FileReaderImpl.t)
    (sizes : string -> Z + string) (p : string) : bool :=
  match sizes p with
  | inl n => (n <=? FileReaderImpl.max_file_size self)%Z
  | inr _ => false
  end.

(** The paths a scan selects among the candidates of [glob]: the files
    with a matching extension and a size within the limit. *)
Definition selected {W} (fs : FileSystem.t W) (self : FileReaderImpl.t)
    (files : string -> bool) (sizes : string -> Z + string)
    (p : string) : bool :=
  files p && FileReaderImpl.extension_matches fs self p
  && within_limit self sizes p.

(** The pattern a reader hands to [glob]. *)
Definition glob_pattern (self : FileReaderImpl.t) : string :=
  if FileReaderImpl.recursive self then "**/*" else "*".

End Spec.

(* ================================================================== *)
(** ** Concrete environments *)

Module Examples.

Import LlmClient Agent.

(** The float summation and division of the examples: exact, as the
    interpreter's are on the times of the examples, which are whole
    seconds with a mean of whole or half seconds. *)
Definition exact_sum (ns : list number) : Q :=
  fold_left (fun acc n => match n with
                          | NInt z => (acc + inject_Z z)%Q
                          | NFloat q => (acc + q)%Q
                          end) ns 0%Q.

Definition exact_div (x : Q) (n : Z) : Q := (x / inject_Z n)%Q.

(** A streaming answer whose lines all arrive. *)
Definition arrives (lines : Result (list string))
  : Result (list string * gen_end) :=
  match lines with
  | Ok lines => Ok (lines, Finished)
  | Raise e => Raise e
  end.

(** An environment whose answers do not change: [post] and [post_lines]
    answer the requests, [fs] the reads, [dir] is the scan; the clock
    advances by one second at each reading.  The decoders are the
    reference decoders. *)
Definition static_env (post : Request.t -> Result json)
    (post_lines : Request.t -> Result (list string))
    (fs : string -> Result (option FileContent.t))
    (dir : list string) : Env nat :=
  {| bytes_decode := Utf8Decoder.decode;
     json_loads := JsonDecoder.json_loads;
     requests_post := fun req w => (post req, w);
     requests_post_lines := fun req w => (arrives (post_lines req), w);
     read_file := fun p w => (fs p, w);
     scan_directory := fun w => (Ok dir, w);
     stat_size := fun p w =>
       (match fs p with
        | Ok (Some fc) => Ok (FileContent.file_size fc)
        | _ => Raise (Exn OSError "No such file or directory")
        end, w);
     time_time := fun w => (inject_Z (Z.of_nat w), S w);
     float_sum := exact_sum;
     float_div := exact_div |}.

Definition config_for (provider : string) (base_url : option string) : Config.t :=
  Config.Build
    (Config.LLMConfig.Build provider (Some "sk-test") "model-1" base_url 1000
                            (7 # 10)%Q)
    (Config.FileConfig.Build "./input" [".txt"; ".md"] true 1048576 "utf-8").

Definition configured : Options :=
  {| opt_max_tokens := Some 1000%Z; opt_temperature := Some (7 # 10)%Q |}.

Definition openai_provider : OpenAIProvider.t :=
  OpenAIProvider.__init__ (Some "sk-test") "model-1" None configured.

Definition anthropic_provider : AnthropicProvider.t :=
  AnthropicProvider.__init__ (Some "sk-test") "model-1" configured.

Definition custom_provider : CustomProvider.t :=
  CustomProvider.__init__ (Some "sk-test") "model-1" "http://localhost:8000/v1/"
                          configured.

Definition openai_client : LLMClient.t :=
  LLMClient.Build (config_for "openai" None) (OpenAI openai_provider).

Definition openai_agent : AIAgent.t :=
  AIAgent.Build (config_for "openai" None) openai_client.

Definition custom_client : LLMClient.t :=
  LLMClient.Build (config_for "custom" (Some "http://localhost:8000/v1/"))
    (Custom custom_provider).

Definition note : FileContent.t :=
  FileContent.Build "input/note.txt" "Spring sale starts Monday." 26 "utf-8".

(** A file system with the one readable file [input/note.txt]. *)
Definition one_file (p : string) : Result (option FileContent.t) :=
  if String.eqb p "input/note.txt" then Ok (Some note) else Ok None.

(** A transport that is down. *)
Definition network_down {A} (_ : Request.t) : Result A :=
  Raise (Exn RequestException "Connection refused").

(** A transport that answers every request with [data]. *)
Definition answers (data : json) (_ : Request.t) : Result json := Ok data.

(** A streaming transport that answers every request with [lines]. *)
Definition sends (lines : list string) (_ : Request.t) : Result (list string) :=
  Ok lines.

(** A chat-completion body with content [text]. *)
Definition chat_body (text : string) : json :=
  JObj [("choices",
         JArr [JObj [("message", JObj [("role", JStr "assistant");
                                       ("content", JStr text)]);
                     ("finish_reason", JStr "stop")]]);
        ("usage", JObj [("total_tokens", JInt 12)])].

(** The two SSE lines of the specification's streaming example. *)
Definition hi_line : string :=
  JsonDecoder.dq "data: {'choices':[{'delta':{'content':'Hi'}}]}".

Definition done_line : string := "data: [DONE]".

(** The conversation of the specification's Anthropic example. *)
Definition sab : list Message.t :=
  [Message.Build "system" "S"; Message.Build "user" "A"; Message.Build "user" "B"].

(** A configuration without API key. *)
Definition keyless (provider : string) : Config.t :=
  Config.Build
    (Config.LLMConfig.Build provider None "model-1" None 1000 (7 # 10)%Q)
    (Config.FileConfig.Build "./input" [".txt"; ".md"] true 1048576 "utf-8").

(** A configuration that asks for 5 tokens at temperature 0. *)
Definition frugal (provider : string) (base_url : option string) : Config.t :=
  Config.Build
    (Config.LLMConfig.Build provider (Some "sk-test") "model-1" base_url 5 0%Q)
    (Config.FileConfig.Build "./input" [".txt"; ".md"] true 1048576 "utf-8").

(** The name of a path: what follows its last slash. *)
Fixpoint path_name (path : string) : string :=
  match path with
  | EmptyString => EmptyString
  | String c rest =>
      if Ascii.eqb c "/"%char then path_name rest
      else if Py.contains "/" rest then path_name rest
      else path
  end.

(** The suffix of a name, as [pathlib] of Python 3.12 has it: from the
    last dot on, when that dot is neither the first nor the last
    character.  [first] tells whether the scan is at the first
    character. *)
Fixpoint name_suffix (first : bool) (name : string) : string :=
  match name with
  | EmptyString => EmptyString
  | String c rest =>
      if Ascii.eqb c "."%char && negb (Py.contains "." rest)
      then (if first then EmptyString
            else match rest with
                 | EmptyString => EmptyString
                 | _ => name
                 end)
      else name_suffix false rest
  end.

Definition posix_suffix (path : string) : string :=
  name_suffix true (path_name path).

(** A file on a disk image: its path, its size, and its text when it
    decodes as UTF-8. *)
Record disk_file : Type := {
  df_path : string;
  df_size : Z;
  df_utf8 : option string;
  df_latin1 : string
}.

Fixpoint disk_find (disk : list disk_file) (path : string) : option disk_file :=
  match disk with
  | [] => None
  | f :: rest => if String.eqb (df_path f) path then Some f else disk_find rest path
  end.

(** A file system that does not change: the files of [disk], all below
    the directory [root]. *)
Definition disk_fs (root : string) (disk : list disk_file) : FileSystem.t unit :=
  {| FileSystem.path_exists := fun p w => (String.eqb p root, w);
     FileSystem.is_dir := fun p w => (String.eqb p root, w);
     FileSystem.glob := fun p _ w =>
       (if String.eqb p root then map df_path disk else [], w);
     FileSystem.is_file := fun p w =>
       (match disk_find disk p with Some _ => true | None => false end, w);
     FileSystem.stat_size := fun p w =>
       (match disk_find disk p with
        | Some f => inl (df_size f)
        | None => inr "No such file or directory"
        end, w);
     FileSystem.open_read := fun p encoding w =>
       (match disk_find disk p with
        | None => Raise (Exn OSError "No such file or directory")
        | Some f =>
            if String.eqb encoding "utf-8" then
              match df_utf8 f with
              | Some text => Ok text
              | None => Raise (Exn UnicodeDecodeError
                                 "'utf-8' codec can't decode byte")
              end
            else Ok (df_latin1 f)
        end, w);
     FileSystem.suffix := posix_suffix |}.

(** Four files: a note, a capital-suffix report, a Latin-1 letter and a
    file over the size limit of [small_reader]. *)
Definition sample_disk : list disk_file :=
  [ {| df_path := "input/note.txt"; df_size := 26;
       df_utf8 := Some "Spring sale starts Monday.";
       df_latin1 := "Spring sale starts Monday." |};
    {| df_path := "input/REPORT.MD"; df_size := 9;
       df_utf8 := Some "# Results";
       df_latin1 := "# Results" |};
    {| df_path := "input/letter.txt"; df_size := 4;
       df_utf8 := None;
       df_latin1 := String "c" (String "a" (String "f"
                      (String (ascii_of_nat 233) EmptyString))) |};
    {| df_path := "input/big.txt"; df_size := 5000;
       df_utf8 := Some "(five thousand bytes)";
       df_latin1 := "(five thousand bytes)" |};
    {| df_path := "input/logo.png"; df_size := 10;
       df_utf8 := None; df_latin1 := "PNG" |} ].

(** A reader of [input] with a limit of 1024 bytes. *)
Definition small_reader : FileReaderImpl.t :=
  FileReaderImpl.__init__ "input" (Some ["txt"; ".md"]) true 1024 "utf-8".

(** A success of the agent on the note, with a given usage and time. *)
Definition counted (usage : json) (seconds : Q) : ProcessingResult.t :=
  ProcessingResult.Build "input/note.txt" note
    (Some (LLMResponse.Build (JStr "ok") "model-1" usage (JStr "stop")
             "anthropic"))
    seconds true None.

(** Two successes: one with 12 tokens, one whose usage has no
    [total_tokens]. *)
Definition two_successes : list ProcessingResult.t :=
  [counted (JObj [("total_tokens", JInt 12)]) 1%Q;
   counted (JObj [("input_tokens", JInt 7); ("output_tokens", JInt 5)]) 2%Q].

(** [one_file] as a table of what can be read. *)
Definition one_file_table (p : string) : option FileContent.t :=
  if String.eqb p "input/note.txt" then Some note else None.

(** The tables of a disk image. *)
Definition disk_files (disk : list disk_file) (p : string) : bool :=
  match disk_find disk p with Some _ => true | None => false end.

Definition disk_sizes (disk : list disk_file) (p : string) : Z + string :=
  match disk_find disk p with
  | Some f => inl (df_size f)
  | None => inr "No such file or directory"
  end.

(** A reader that asks for the extension [.TXT]. *)
Definition capital_reader : FileReaderImpl.t :=
  FileReaderImpl.__init__ "input" (Some ["TXT"]) true 1024 "utf-8".

(** A file system with one file of 10 bytes that may not be opened. *)
Definition locked_fs : FileSystem.t unit :=
  {| FileSystem.path_exists := fun _ w => (true, w);
     FileSystem.is_dir := fun _ w => (true, w);
     FileSystem.glob := fun _ _ w => (["input/secret.txt"], w);
     FileSystem.is_file := fun _ w => (true, w);
     FileSystem.stat_size := fun _ w => (inl 10%Z, w);
     FileSystem.open_read := fun _ _ w =>
       (Raise (Exn OSError "Permission denied"), w);
     FileSystem.suffix := posix_suffix |}.

(** [static_env] with a streaming transport that gives [lines] and then
    fails with [e] while the body arrives. *)
Definition breaking_env (lines : list string) (e : exn) : Env nat :=
  let base := static_env network_down network_down one_file [] in
  {| bytes_decode := bytes_decode base;
     json_loads := json_loads base;
     requests_post := requests_post base;
     requests_post_lines := fun _ w => (Ok (lines, Raised e), w);
     read_file := read_file base;
     scan_directory := scan_directory base;
     stat_size := stat_size base;
     time_time := time_time base;
     float_sum := float_sum base;
     float_div := float_div base |}.
End Examples.

(* ================================================================== *)
(** ** Properties *)

Import LlmClient Agent.

(** *** Handlers that raise again *)

Lemma log_and_reraise_id {W A} (m : M W A) (w : W) :
  log_and_reraise m w = m w.
Proof.
  unfold log_and_reraise, try_except, raise.
  destruct (m w) as [[a | e] w']; [reflexivity |].
  destruct (isinstance e RequestException), (isinstance e KeyError);
    reflexivity.
Qed.

Lemma generate_response_posts {W} (env : Env W) (p : LLMProvider)
    (messages : list Message.t) (kwargs : Options) :
  Spec.posts env (provider_generate_response env p messages kwargs)
             (Spec.generate_request p messages kwargs)
             (Spec.provider_response p).
Proof.
  intro w.
  destruct p; simpl;
    unfold OpenAIProvider.generate_response,
           AnthropicProvider.generate_response,
           CustomProvider.generate_response;
    rewrite log_and_reraise_id; unfold bind, lift;
    match goal with
    | |- context [requests_post env ?r w] =>
        destruct (requests_post env r w) as [[data | e] w']; reflexivity
    end.
Qed.

(** *** Per-file isolation *)

(** C1. For every file path and optional user prompt, in every
    environment, [AIAgent.process_single_file] returns a [ProcessingResult] (it
    never raises); the result has [success = true] exactly when it holds an
    [llm_response]; and a result without a response carries a non-empty
    error message: ["Failed to read file"] when the read gave nothing,
    ["Error processing <path>: <exception text>"] when the read or the LLM
    call raised. *)
Theorem process_single_file_isolates_failures {W} (env : Env W)
    (self : AIAgent.t) (file_path : string) (user_prompt : option string)
    (w : W) :
  exists (r : ProcessingResult.t) (w' : W),
    AIAgent.process_single_file env self file_path user_prompt w = (Ok r, w')
    /\ ProcessingResult.file_path r = file_path
    /\ (ProcessingResult.success r = true
        <-> exists response, ProcessingResult.llm_response r = Some response)
    /\ (ProcessingResult.llm_response r = None ->
        exists m, ProcessingResult.error_message r = Some m
                  /\ m <> ""
                  /\ (m = "Failed to read file"
                      \/ exists e, m = ("Error processing " ++ file_path
                                        ++ ": " ++ exn_str e)%string)).
Proof.
  unfold AIAgent.process_single_file, bind, try_except, now, ret.
  destruct (time_time env w) as [start_time w0].
  destruct (read_file env file_path w0) as [[[fc |] | e] w1].
  - (* the file was read: the outcome is the LLM call's *)
    destruct (LLMClient.process_file_content env (AIAgent.llm_client self)
                (FileContent.content fc) user_prompt w1) as [[resp | e] w2].
    + destruct (time_time env w2) as [t w3].
      eexists; eexists; split; [reflexivity |]; simpl.
      repeat split; eauto; discriminate.
    + destruct (time_time env w2) as [t w3].
      eexists; eexists; split; [reflexivity |]; simpl.
      repeat split; try discriminate.
      * intros [response H]; discriminate.
      * intros _. eexists; split; [reflexivity |].
        split; [simpl; discriminate | right; exists e; reflexivity].
  - (* read_file returned None *)
    destruct (time_time env w1) as [t w2].
    eexists; eexists; split; [reflexivity |]; simpl.
    repeat split; try discriminate.
    + intros [response H]; discriminate.
    + intros _. eexists; split; [reflexivity |].
      split; [discriminate | left; reflexivity].
  - (* read_file raised *)
    destruct (time_time env w1) as [t w2].
    eexists; eexists; split; [reflexivity |]; simpl.
    repeat split; try discriminate.
    + intros [response H]; discriminate.
    + intros _. eexists; split; [reflexivity |].
      split; [simpl; discriminate | right; exists e; reflexivity].
Qed.

(** *** The batch summary *)

Lemma to_dict_without_response (r : ProcessingResult.t) :
  ProcessingResult.llm_response r = None ->
  ProcessingResult.to_dict r = Raise ProcessingResult.no_response_error.
Proof.
  intro H. unfold ProcessingResult.to_dict. rewrite H. reflexivity.
Qed.

Lemma to_dict_with_response (r : ProcessingResult.t) (resp : LLMResponse.t) :
  ProcessingResult.llm_response r = Some resp ->
  exists d, ProcessingResult.to_dict r = Ok d.
Proof.
  intro H. unfold ProcessingResult.to_dict. rewrite H. simpl. eauto.
Qed.

(** The list of dictionaries is built only when every result has a
    response; the first result without one raises. *)
Lemma results_to_dict_raises (rs : list ProcessingResult.t) :
  Exists (fun r => ProcessingResult.llm_response r = None) rs ->
  rmap ProcessingResult.to_dict rs = Raise ProcessingResult.no_response_error.
Proof.
  induction rs as [| r rs IH]; intro H.
  - inversion H.
  - simpl. destruct (ProcessingResult.llm_response r) as [resp |] eqn:Hr.
    + destruct (to_dict_with_response r resp Hr) as [d Hd]. rewrite Hd. simpl.
      inversion H as [? ? Hnone | ? ? Hrest]; subst; [congruence |].
      rewrite (IH Hrest). reflexivity.
    + rewrite (to_dict_without_response r Hr). reflexivity.
Qed.

(** Whatever the other results are, one result without a response keeps
    [AIAgent.summarize] from returning. *)
Lemma summarize_raises {W} (env : Env W) (rs : list ProcessingResult.t) :
  Exists (fun r => ProcessingResult.llm_response r = None) rs ->
  exists e, AIAgent.summarize env rs = Raise e.
Proof.
  intro H. unfold AIAgent.summarize.
  destruct (AIAgent.sum_total_tokens [] (filter ProcessingResult.success rs))
    as [tokens | e]; simpl.
  - rewrite (results_to_dict_raises rs H). simpl. eauto.
  - eauto.
Qed.

(** A result of [AIAgent.process_single_file] is a success exactly when it has a
    response. *)
Lemma process_single_file_success {W} (env : Env W) (self : AIAgent.t)
    (file_path : string) (user_prompt : option string) (w w' : W)
    (r : ProcessingResult.t) :
  AIAgent.process_single_file env self file_path user_prompt w = (Ok r, w') ->
  ProcessingResult.success r = false ->
  ProcessingResult.llm_response r = None.
Proof.
  unfold AIAgent.process_single_file, bind, try_except, now, ret.
  destruct (time_time env w) as [start_time w0].
  destruct (read_file env file_path w0) as [[[fc |] | e] w1].
  - destruct (LLMClient.process_file_content env (AIAgent.llm_client self)
                (FileContent.content fc) user_prompt w1) as [[resp | e] w2];
      destruct (time_time env w2) as [t w3];
      intros H Hs; inversion H; subst; simpl in *; congruence.
  - destruct (time_time env w1) as [t w2].
    intros H Hs; inversion H; subst; reflexivity.
  - destruct (time_time env w1) as [t w2].
    intros H Hs; inversion H; subst; reflexivity.
Qed.

Lemma process_each_failures {W} (env : Env W) (self : AIAgent.t)
    (user_prompt : option string) (files : list string) :
  forall (w w' : W) (rs : list ProcessingResult.t),
    AIAgent.process_each env self files user_prompt w = (Ok rs, w') ->
    Forall (fun r => ProcessingResult.success r = false ->
                     ProcessingResult.llm_response r = None) rs.
Proof.
  induction files as [| f files IH]; intros w w' rs; simpl.
  - unfold ret. intro H; inversion H; constructor.
  - unfold bind at 1.
    destruct (read_file env f w) as [[[fc |] | e] w1]; [| apply IH | discriminate].
    unfold bind at 1.
    destruct (AIAgent.process_single_file env self (FileContent.file_path fc)
                user_prompt w1) as [[r | e] w2] eqn:Hr; [| discriminate].
    unfold bind at 1.
    destruct (AIAgent.process_each env self files user_prompt w2)
      as [[rs' | e] w3] eqn:Hrs; [| discriminate].
    unfold ret. intro H; inversion H; subst.
    constructor.
    + eapply process_single_file_success; eassumption.
    + eapply IH; eassumption.
Qed.

(** Whenever the batch holds a failed file, [AIAgent.batch_process_with_summary]
    raises where a summary was due. *)
Lemma batch_raises_when_a_file_failed {W} (env : Env W) (self : AIAgent.t)
    (user_prompt : option string) (w w' : W) (rs : list ProcessingResult.t) :
  AIAgent.process_all_files env self user_prompt w = (Ok rs, w') ->
  Exists (fun r => ProcessingResult.success r = false) rs ->
  exists e, AIAgent.batch_process_with_summary env self user_prompt w = (Raise e, w').
Proof.
  intros Hall Hfail.
  assert (Hnone : Exists (fun r => ProcessingResult.llm_response r = None) rs).
  { assert (Hinv : Forall (fun r => ProcessingResult.success r = false ->
                             ProcessingResult.llm_response r = None) rs).
    { revert Hall. unfold AIAgent.process_all_files, bind.
      destruct (FileReader.get_files_summary env w) as [[fsum | e] w1];
        [| discriminate].
      destruct (scan_directory env w1) as [[files | e] w2]; [| discriminate].
      apply process_each_failures. }
    rewrite Exists_exists in *. destruct Hfail as [r [Hin Hs]].
    rewrite Forall_forall in Hinv. exists r; split; auto. }
  destruct (summarize_raises env rs Hnone) as [e He].
  exists e. unfold AIAgent.batch_process_with_summary, bind, lift.
  rewrite Hall, He. reflexivity.
Qed.

(** C2 (the code departs from the claim). One readable file, a transport
    that is down: the batch has N = 1 file of which K = 1 failed, and
    [AIAgent.batch_process_with_summary] raises [AttributeError] from
    [ProcessingResult.to_dict] where the claim has it return the summary
    with [total_files = 1], [failed = 1], [successful = 0] and one error. *)
Theorem batch_summary_aborts_on_failed_file :
  let env := Examples.static_env Examples.network_down Examples.network_down
               Examples.one_file ["input/note.txt"] in
  (exists r,
      AIAgent.process_all_files env Examples.openai_agent None 0%nat = (Ok [r], 2%nat)
      /\ ProcessingResult.success r = false
      /\ ProcessingResult.error_message r
         = Some "Error processing input/note.txt: Connection refused")
  /\ AIAgent.batch_process_with_summary env Examples.openai_agent None 0%nat
     = (Raise ProcessingResult.no_response_error, 2%nat).
Proof.
  split.
  - eexists. split; [vm_compute; reflexivity | split; reflexivity].
  - vm_compute. reflexivity.
Qed.

(** When [AIAgent.summarize] returns, its counts are those of the results. *)
Lemma filter_split_length {A} (f : A -> bool) (l : list A) :
  (List.length (filter f l) + List.length (filter (fun x => negb (f x)) l)
   = List.length l)%nat.
Proof.
  induction l as [| x l IH]; simpl; [reflexivity |].
  destruct (f x); simpl; lia.
Qed.

Lemma summarize_counts {W} (env : Env W) (rs : list ProcessingResult.t)
    (s : Summary.t) :
  AIAgent.summarize env rs = Ok s ->
  Summary.total_files s = List.length rs
  /\ Summary.failed s
     = List.length (filter (fun r => negb (ProcessingResult.success r)) rs)
  /\ (Summary.successful s + Summary.failed s = Summary.total_files s)%nat
  /\ Forall (fun r => ProcessingResult.llm_response r <> None) rs.
Proof.
  intro H.
  assert (Hall : Forall (fun r => ProcessingResult.llm_response r <> None) rs).
  { rewrite Forall_forall. intros r Hin Hnone.
    destruct (summarize_raises env rs) as [e He]; [| congruence].
    rewrite Exists_exists. eauto. }
  revert H. unfold AIAgent.summarize.
  destruct (AIAgent.sum_total_tokens [] (filter ProcessingResult.success rs))
    as [tokens | e]; simpl; [| discriminate].
  destruct (rmap ProcessingResult.to_dict rs) as [ds | e]; simpl; [| discriminate].
  intro H; inversion H; subst; simpl.
  repeat split; auto. apply filter_split_length.
Qed.

(** *** The Anthropic-style payload *)

Lemma anthropic_convert_spec (messages : list Message.t) :
  forall (system_message : string) (user_messages : list string),
    AnthropicProvider.convert messages system_message user_messages
    = (match Spec.last_system messages with
       | Some s => s
       | None => system_message
       end,
       user_messages ++ Spec.turn_contents messages).
Proof.
  induction messages as [| m rest IH]; intros sys users.
  - simpl. rewrite app_nil_r. reflexivity.
  - simpl. unfold Spec.turn_contents in *. simpl.
    destruct (String.eqb (Message.role m) "system") eqn:Hsys.
    + apply String.eqb_eq in Hsys. rewrite Hsys. simpl.
      rewrite IH. destruct (Spec.last_system rest); reflexivity.
    + destruct (String.eqb (Message.role m) "user") eqn:Huser; simpl.
      * rewrite IH, <- app_assoc. simpl.
        destruct (Spec.last_system rest); reflexivity.
      * destruct (String.eqb (Message.role m) "assistant") eqn:Hasst; simpl.
        -- rewrite IH, <- app_assoc. simpl.
           destruct (Spec.last_system rest); reflexivity.
        -- rewrite IH. destruct (Spec.last_system rest); reflexivity.
Qed.

(** C3, amended. For every message list the Anthropic-style
    [generate_response] posts one request whose body holds the model, the
    two options and a [messages] list of one user turn, whose content is
    the contents of all user and assistant messages, in order, joined with
    two line feeds.  The content of the last system-role message is the
    top-level [system] field when it is non-empty; without a system-role
    message, or when the last one has empty content, the body has no
    [system] field.  For [{system,"S"}, {user,"A"}, {user,"B"}] the body
    has [system = "S"] and the one user turn ["A\n\nB"]. *)
Theorem anthropic_payload_collapses_turns :
  (forall (self : AnthropicProvider.t) (messages : list Message.t)
          (kwargs : Options),
      let user_turn :=
        JObj [("role", JStr "user");
              ("content", JStr (Py.join (nl ++ nl) (Spec.turn_contents messages)))] in
      let fixed :=
        [("model", JStr (AnthropicProvider.model self));
         ("max_tokens", get_max_tokens kwargs);
         ("temperature", get_temperature kwargs);
         ("messages", JArr [user_turn])] in
      AnthropicProvider.payload self messages kwargs
      = JObj (match Spec.last_system messages with
              | Some (String c s) => fixed ++ [("system", JStr (String c s))]
              | _ => fixed
              end))
  /\ (forall W (env : Env W) self messages kwargs,
         Spec.posts env
           (AnthropicProvider.generate_response env self messages kwargs)
           (Request.Build "https://api.anthropic.com/v1/messages"
              (AnthropicProvider.headers self)
              (AnthropicProvider.payload self messages kwargs) 30 false)
           (fun data =>
              AnthropicProvider.response data (AnthropicProvider.model self)))
  /\ (forall self kwargs,
         let payload := AnthropicProvider.payload self Examples.sab kwargs in
         Spec.json_field "system" payload = Some (JStr "S")
         /\ Spec.json_field "messages" payload
            = Some (JArr [JObj [("role", JStr "user");
                                ("content", JStr ("A" ++ nl ++ nl ++ "B"))]])).
Proof.
  split; [| split].
  - intros self messages kwargs. unfold AnthropicProvider.payload.
    rewrite anthropic_convert_spec. simpl.
    destruct (Spec.last_system messages) as [[| c s] |]; reflexivity.
  - intros W env self messages kwargs.
    exact (generate_response_posts env (Anthropic self) messages kwargs).
  - intros self kwargs. split; reflexivity.
Qed.

(** C3 as stated fails for a system-role message with empty content: the
    conversation [{system,""}, {user,"A"}] has a system-role message, and
    the body has no [system] field. *)
Lemma anthropic_empty_system_is_dropped :
  let messages := [Message.Build "system" ""; Message.Build "user" "A"] in
  Spec.last_system messages = Some ""
  /\ (forall self kwargs,
         Spec.json_field "system" (AnthropicProvider.payload self messages kwargs)
         = None)
  /\ ~ Spec.system_field_as_stated messages.
Proof.
  split; [reflexivity | split].
  - intros self kwargs. reflexivity.
  - intro H.
    specialize (H Examples.anthropic_provider no_options "" eq_refl).
    discriminate H.
Qed.

(** *** OpenAI-style streaming *)

(** The probe of one decoded payload: on a payload of the makes listed in
    [Spec.unprobeable] it raises a [TypeError], an [AttributeError] or a
    [KeyError]; on every other it gives the payload's
    [choices[0].delta.content] when there is one, and nothing otherwise. *)
Lemma sse_fragment_probe (j : json) :
  if Spec.unprobeable j
  then exists e, OpenAIProvider.sse_fragment j = Raise e /\ Spec.probe_error e
  else OpenAIProvider.sse_fragment j = Ok (Spec.delta_content j).
Proof.
  assert (Hdelta : forall delta,
             if Spec.scalar delta || Spec.holds_text "content" delta
             then exists e,
                 (has_content <~ py_in "content" delta ;;
                  if has_content
                  then (c <~ py_getitem delta "content" ;; Ok (Some c))
                  else Ok None) = Raise e /\ Spec.probe_error e
             else (has_content <~ py_in "content" delta ;;
                   if has_content
                   then (c <~ py_getitem delta "content" ;; Ok (Some c))
                   else Ok None)
                  = Ok (Spec.json_field "content" delta)).
  { intro delta. unfold Spec.probe_error.
    destruct delta as [| b | z | q | s | l | dd]; simpl;
      try (eexists; split; [reflexivity | simpl; auto]).
    - destruct (Py.contains "content" s); simpl;
        [eexists; split; [reflexivity | simpl; auto] | reflexivity].
    - destruct (existsb (is_str "content") l); simpl;
        [eexists; split; [reflexivity | simpl; auto] | reflexivity].
    - unfold Dict.mem. destruct (Dict.lookup "content" dd); reflexivity. }
  unfold Spec.probe_error.
  destruct j as [| b | z | q | s | l | d];
    try (simpl; eexists; split; [reflexivity | simpl; auto]).
  - (* a text *)
    unfold Spec.unprobeable, OpenAIProvider.sse_fragment. simpl.
    destruct (Py.contains "choices" s); simpl;
      [eexists; split; [reflexivity | simpl; auto] | reflexivity].
  - (* an array *)
    unfold Spec.unprobeable, OpenAIProvider.sse_fragment. simpl.
    destruct (existsb (is_str "choices") l); simpl;
      [eexists; split; [reflexivity | simpl; auto] | reflexivity].
  - (* an object *)
    unfold Spec.unprobeable, OpenAIProvider.sse_fragment, Spec.delta_content.
    simpl. unfold Dict.mem.
    destruct (Dict.lookup "choices" d) as [choices |]; simpl; [| reflexivity].
    destruct choices as [| b | z | q | s | l | dc]; simpl;
      try (eexists; split; [reflexivity | simpl; auto]).
    + destruct s as [| c s']; simpl;
        [reflexivity | eexists; split; [reflexivity | simpl; auto]].
    + destruct l as [| choice l']; simpl; [reflexivity |].
      unfold Spec.unprobeable_choice.
      destruct choice as [| b | z | q | s | l | c]; simpl;
        try (eexists; split; [reflexivity | simpl; auto]).
      destruct (Dict.lookup "delta" c) as [delta |]; simpl; [| reflexivity].
      exact (Hdelta delta).
    + destruct dc as [| kv dc']; simpl;
        [reflexivity | eexists; split; [reflexivity | simpl; auto]].
Qed.

(** The probe raises no [JSONDecodeError]. *)
Lemma sse_fragment_raises (j : json) (e : exn) :
  OpenAIProvider.sse_fragment j = Raise e ->
  Spec.unprobeable j = true /\ Spec.probe_error e
  /\ isinstance e JSONDecodeError = false.
Proof.
  intro H. pose proof (sse_fragment_probe j) as Hp.
  destruct (Spec.unprobeable j).
  - destruct Hp as [e' [He' Hcls]]. rewrite H in He'. inversion He'; subst.
    split; [reflexivity | split; [exact Hcls |]].
    unfold isinstance. destruct Hcls as [-> | [-> | ->]]; reflexivity.
  - rewrite H in Hp. discriminate.
Qed.

Lemma prefix_data_append (p : string) : String.prefix "data: " ("data: " ++ p) = true.
Proof.
  destruct p; reflexivity.
Qed.

(** The loop, one line at a time. *)
Lemma openai_stream_lines_step (decode : string -> string + string)
    (loads : string -> Result json) (line : string) (rest : list string)
    (iter_end : gen_end) :
  let continue := OpenAIProvider.stream_lines decode loads rest iter_end in
  OpenAIProvider.stream_lines decode loads (line :: rest) iter_end
  = if Spec.is_terminator decode line then ([], Finished)
    else if Py.truthy line then
      match decode line with
      | inr message => ([], Raised (Exn UnicodeDecodeError message))
      | inl text =>
          match Spec.data_payload text with
          | None => continue
          | Some p =>
              match loads p with
              | Raise e =>
                  if isinstance e JSONDecodeError then continue
                  else ([], Raised e)
              | Ok j =>
                  match OpenAIProvider.sse_fragment j with
                  | Raise e => ([], Raised e)
                  | Ok (Some c) => yield_then c continue
                  | Ok None => continue
                  end
              end
          end
      end
    else continue.
Proof.
  intro continue. subst continue.
  cbn [OpenAIProvider.stream_lines].
  unfold Spec.is_terminator, Spec.line_payload, Spec.line_text,
    Spec.data_payload, Py.startswith, OpenAIProvider.sse_payload.
  destruct (Py.truthy line); cbn [Spec.and_then]; [| reflexivity].
  destruct (decode line) as [text | message]; cbn [Spec.and_then];
    [| reflexivity].
  destruct (String.prefix "data: " text); cbn [Spec.and_then];
    [| reflexivity].
  destruct (String.eqb (Py.strip (Py.drop 6 text)) "[DONE]"); [reflexivity |].
  destruct (loads (Py.drop 6 text)) as [j | e]; cbn [rbind]; [| reflexivity].
  destruct (OpenAIProvider.sse_fragment j) as [[c |] | e] eqn:Hj;
    try reflexivity.
  destruct (sse_fragment_raises j e Hj) as [_ [_ ->]]. reflexivity.
Qed.

(** A line is the terminator, makes the stream raise, or adds its fragment
    and lets the stream go on. *)
Lemma openai_stream_line (decode : string -> string + string)
    (loads : string -> Result json) (line : string) :
  if Spec.is_terminator decode line then
    Spec.line_fails decode loads line = false
    /\ forall rest iter_end,
        OpenAIProvider.stream_lines decode loads (line :: rest) iter_end
        = ([], Finished)
  else if Spec.line_fails decode loads line then
    exists e,
      Spec.line_raises decode loads line e
      /\ forall rest iter_end,
          OpenAIProvider.stream_lines decode loads (line :: rest) iter_end
          = ([], Raised e)
  else
    forall rest iter_end,
      OpenAIProvider.stream_lines decode loads (line :: rest) iter_end
      = (Spec.line_fragment decode loads line
         ++ fst (OpenAIProvider.stream_lines decode loads rest iter_end),
         snd (OpenAIProvider.stream_lines decode loads rest iter_end)).
Proof.
  pose proof (openai_stream_lines_step decode loads line) as Hstep.
  cbv zeta in Hstep.
  remember (OpenAIProvider.stream_lines decode loads) as run eqn:Hrun.
  clear Hrun.
  destruct (Spec.is_terminator decode line) eqn:Hterm.
  - split; [| intros; rewrite Hstep; reflexivity].
    revert Hterm.
    unfold Spec.is_terminator, Spec.line_payload, Spec.line_text,
      Spec.line_fails.
    destruct (Py.truthy line); simpl; [| reflexivity].
    destruct (decode line) as [text | message]; simpl; [| discriminate].
    destruct (Spec.data_payload text) as [p |]; [| reflexivity].
    intros ->. reflexivity.
  - revert Hterm Hstep.
    unfold Spec.line_fails, Spec.line_fragment, Spec.line_raises,
      Spec.is_terminator, Spec.line_payload, Spec.line_text, Spec.json_value.
    destruct (Py.truthy line) eqn:Hline; simpl.
    2: { intros _ Hstep rest iter_end. rewrite Hstep.
         destruct (run rest iter_end).
         reflexivity. }
    destruct (decode line) as [text | message] eqn:Hdec; simpl.
    2: { intros _ Hstep. eexists. split; [| intros; apply Hstep].
         split; [reflexivity | left]. eauto. }
    destruct (Spec.data_payload text) as [p |] eqn:Hp; simpl.
    2: { intros _ Hstep rest iter_end. rewrite Hstep.
         destruct (run rest iter_end).
         reflexivity. }
    intros Hterm Hstep. rewrite Hterm. simpl.
    destruct (loads p) as [j | e] eqn:Hloads; simpl.
    + pose proof (sse_fragment_probe j) as Hprobe.
      destruct (Spec.unprobeable j) eqn:Hun.
      * destruct Hprobe as [e [He Hcls]]. exists e. split.
        -- split; [reflexivity | right]. exists p.
           split; [reflexivity | split; [reflexivity | right]].
           exists j. auto.
        -- intros rest iter_end. rewrite Hstep, He. reflexivity.
      * intros rest iter_end. rewrite Hstep, Hprobe.
        destruct (run rest iter_end).
        destruct (Spec.delta_content j); reflexivity.
    + destruct (isinstance e JSONDecodeError) eqn:He; simpl.
      * intros rest iter_end. rewrite Hstep.
        destruct (run rest iter_end).
        reflexivity.
      * exists e. split; [| intros; apply Hstep].
        split; [reflexivity | right]. exists p.
        split; [reflexivity | split; [reflexivity | left]]. auto.
Qed.

(** A stream that no line makes raise yields the fragments its lines stand
    for and ends at the terminator or as the transport does. *)
Lemma openai_stream_lines_safe (decode : string -> string + string)
    (loads : string -> Result json) (lines : list string)
    (iter_end : gen_end) :
  Spec.stream_safe decode loads lines = true ->
  OpenAIProvider.stream_lines decode loads lines iter_end
  = (Spec.expected_fragments decode loads lines,
     Spec.safe_end decode lines iter_end).
Proof.
  unfold Spec.stream_safe, Spec.expected_fragments, Spec.safe_end,
    Spec.terminated.
  induction lines as [| line rest IH]; intro H; [reflexivity |].
  pose proof (openai_stream_line decode loads line) as Hline.
  cbn [Spec.before_terminator existsb] in H |- *.
  destruct (Spec.is_terminator decode line);
    cbn [forallb flat_map orb] in H |- *.
  - apply Hline.
  - apply andb_prop in H. destruct H as [Hok Hrest].
    apply negb_true_iff in Hok. rewrite Hok in Hline.
    rewrite Hline, (IH Hrest). reflexivity.
Qed.

(** A stream that a line makes raise raises at the first such line, after
    the fragments of the lines ahead of it. *)
Lemma openai_stream_lines_failing (decode : string -> string + string)
    (loads : string -> Result json) (line : string) (ahead : list string) :
  Spec.stream_safe decode loads ahead = true ->
  Spec.terminated decode ahead = false ->
  Spec.line_fails decode loads line = true ->
  exists e,
    Spec.line_raises decode loads line e
    /\ forall rest iter_end,
        OpenAIProvider.stream_lines decode loads (ahead ++ line :: rest)
          iter_end
        = (Spec.expected_fragments decode loads ahead, Raised e).
Proof.
  intros Hsafe Hterm Hfail.
  pose proof (openai_stream_line decode loads line) as Hline.
  destruct (Spec.is_terminator decode line).
  { destruct Hline as [Hno _]. congruence. }
  rewrite Hfail in Hline. destruct Hline as [e [Hraises Hstream]].
  exists e. split; [exact Hraises |]. intros rest iter_end.
  revert Hsafe Hterm.
  unfold Spec.stream_safe, Spec.expected_fragments, Spec.terminated.
  induction ahead as [| a ahead IH];
    cbn [Spec.before_terminator existsb app]; intros Hsafe Hterm.
  - apply Hstream.
  - apply orb_false_iff in Hterm. destruct Hterm as [Ha Hterm].
    pose proof (openai_stream_line decode loads a) as Hstep.
    rewrite Ha in Hsafe, Hstep |- *. cbn [forallb flat_map] in Hsafe |- *.
    apply andb_prop in Hsafe. destruct Hsafe as [Hok Hsafe].
    apply negb_true_iff in Hok. rewrite Hok in Hstep.
    rewrite Hstep, (IH Hsafe Hterm). reflexivity.
Qed.

(** The lines ahead of the first line that makes an unsafe stream raise. *)
Lemma unsafe_stream_split (decode : string -> string + string)
    (loads : string -> Result json) (lines : list string) :
  Spec.stream_safe decode loads lines = false ->
  exists ahead line rest,
    lines = ahead ++ line :: rest
    /\ Spec.stream_safe decode loads ahead = true
    /\ Spec.terminated decode ahead = false
    /\ Spec.line_fails decode loads line = true.
Proof.
  unfold Spec.stream_safe, Spec.terminated.
  induction lines as [| a lines IH]; cbn [Spec.before_terminator forallb];
    [discriminate |].
  destruct (Spec.is_terminator decode a) eqn:Ha; cbn [forallb];
    [discriminate |].
  destruct (Spec.line_fails decode loads a) eqn:Hfail; cbn [negb andb].
  - intros _. exists [], a, lines. repeat split; auto.
  - intro H. destruct (IH H) as [ahead [line [rest [-> [Hs [Ht Hf]]]]]].
    exists (a :: ahead), line, rest.
    cbn [Spec.before_terminator forallb existsb app].
    rewrite Ha. cbn [forallb orb]. rewrite Hfail. cbn [negb andb].
    repeat split; auto.
Qed.

(** The clause [except RequestException: ... raise] changes nothing. *)
Lemma gen_log_and_reraise_id {W A} (g : Gen W A) (w : W) :
  gen_log_and_reraise g w = g w.
Proof.
  unfold gen_log_and_reraise.
  destruct (g w) as [[xs [| e]] w']; [reflexivity |].
  destruct (isinstance e RequestException); reflexivity.
Qed.

(** C4, amended. For every decoder of bytes, every JSON decoder and every
    sequence of lines the transport gives to the OpenAI-style
    [stream_response]:
    - when no line ahead of the terminator makes the stream raise, the
      stream yields exactly the [choices[0].delta.content] of the [data: ]
      payloads that are JSON and have one, in order, and ends at the
      terminator, or without one as the transport's iteration ends; a
      payload on which [json.loads] raises [JSONDecodeError] is skipped and
      the stream goes on; a payload [[DONE]] ends it;
    - that condition is exactly the one under which the stream is as the
      claim states;
    - a line makes the stream raise when it is not UTF-8
      ([UnicodeDecodeError]), when [json.loads] raises on its payload
      another exception than [JSONDecodeError], or when its payload is JSON
      of one of the makes of [Spec.unprobeable] ([TypeError],
      [AttributeError] or [KeyError]); the stream then raises at the first
      such line, after the fragments of the lines ahead of it;
    - every JSON payload of another make is probed without an exception.
    The lines [data: {"choices":[{"delta":{"content":"Hi"}}]}],
    [data: [DONE]] yield exactly ["Hi"]. *)
Theorem openai_stream_yields_delta_contents :
  (forall W (env : Env W) self messages kwargs w lines iter_end w',
      requests_post_lines env
        (OpenAIProvider.request self messages kwargs true) w
      = (Ok (lines, iter_end), w') ->
      OpenAIProvider.stream_response env self messages kwargs w
      = (OpenAIProvider.stream_lines (bytes_decode env) (json_loads env)
           lines iter_end, w')
      /\ (Spec.stream_safe (bytes_decode env) (json_loads env) lines = true ->
          OpenAIProvider.stream_response env self messages kwargs w
          = ((Spec.expected_fragments (bytes_decode env) (json_loads env)
                lines,
              Spec.safe_end (bytes_decode env) lines iter_end), w')))
  /\ (forall decode loads lines iter_end,
         Spec.stream_as_stated decode loads lines iter_end
         <-> Spec.stream_safe decode loads lines = true
             /\ Spec.safe_end decode lines iter_end = Finished)
  /\ (forall decode loads ahead line rest iter_end,
         Spec.stream_safe decode loads ahead = true ->
         Spec.terminated decode ahead = false ->
         Spec.line_fails decode loads line = true ->
         exists e,
           Spec.line_raises decode loads line e
           /\ OpenAIProvider.stream_lines decode loads
                (ahead ++ line :: rest) iter_end
              = (Spec.expected_fragments decode loads ahead, Raised e))
  /\ (forall j,
         if Spec.unprobeable j
         then exists e,
             OpenAIProvider.sse_fragment j = Raise e /\ Spec.probe_error e
         else OpenAIProvider.sse_fragment j = Ok (Spec.delta_content j))
  /\ (forall decode loads line p e rest iter_end,
         Py.truthy line = true ->
         decode line = inl ("data: " ++ p)%string ->
         Py.strip p <> "[DONE]" ->
         loads p = Raise e -> isinstance e JSONDecodeError = true ->
         OpenAIProvider.stream_lines decode loads (line :: rest) iter_end
         = OpenAIProvider.stream_lines decode loads rest iter_end)
  /\ (forall decode loads line p rest iter_end,
         Py.truthy line = true ->
         decode line = inl ("data: " ++ p)%string ->
         Py.strip p = "[DONE]" ->
         OpenAIProvider.stream_lines decode loads (line :: rest) iter_end
         = ([], Finished))
  /\ OpenAIProvider.stream_lines Utf8Decoder.decode JsonDecoder.json_loads
       [Examples.hi_line; Examples.done_line] Finished
     = ([JStr "Hi"], Finished).
Proof.
  split; [| split; [| split; [| split; [| split; [| split]]]]].
  - intros W env self messages kwargs w lines iter_end w' Hpost.
    assert (Hrun : OpenAIProvider.stream_response env self messages kwargs w
                   = (OpenAIProvider.stream_lines (bytes_decode env)
                        (json_loads env) lines iter_end, w')).
    { unfold OpenAIProvider.stream_response.
      rewrite gen_log_and_reraise_id, Hpost. reflexivity. }
    split; [exact Hrun |]. intro Hsafe.
    rewrite Hrun, (openai_stream_lines_safe _ _ _ _ Hsafe). reflexivity.
  - intros decode loads lines iter_end. unfold Spec.stream_as_stated. split.
    + intro H.
      destruct (Spec.stream_safe decode loads lines) eqn:Hsafe.
      * rewrite (openai_stream_lines_safe _ _ _ iter_end Hsafe) in H.
        inversion H. auto.
      * destruct (unsafe_stream_split _ _ _ Hsafe)
          as [ahead [line [rest [-> [Hs [Ht Hf]]]]]].
        destruct (openai_stream_lines_failing _ _ line ahead Hs Ht Hf)
          as [e [_ He]].
        rewrite He in H. discriminate.
    + intros [Hsafe Hend].
      rewrite (openai_stream_lines_safe _ _ _ iter_end Hsafe), Hend.
      reflexivity.
  - intros decode loads ahead line rest iter_end Hs Ht Hf.
    destruct (openai_stream_lines_failing _ _ line ahead Hs Ht Hf)
      as [e [Hraises He]].
    exists e. split; [exact Hraises | apply He].
  - exact sse_fragment_probe.
  - intros decode loads line p e rest iter_end Hline Hdec Hp Hloads He.
    rewrite openai_stream_lines_step.
    unfold Spec.is_terminator, Spec.line_payload, Spec.line_text,
      Spec.data_payload.
    rewrite Hline, Hdec. cbn [Spec.and_then]. rewrite prefix_data_append.
    cbn [Spec.and_then].
    change (Py.drop 6 ("data: " ++ p)) with p.
    apply String.eqb_neq in Hp. rewrite Hp, Hloads, He. reflexivity.
  - intros decode loads line p rest iter_end Hline Hdec Hp.
    rewrite openai_stream_lines_step.
    unfold Spec.is_terminator, Spec.line_payload, Spec.line_text,
      Spec.data_payload.
    rewrite Hline, Hdec. cbn [Spec.and_then]. rewrite prefix_data_append.
    cbn [Spec.and_then].
    change (Py.drop 6 ("data: " ++ p)) with p.
    rewrite Hp. reflexivity.
  - vm_compute. reflexivity.
Qed.

(** The specification's example with, ahead of it, a comment line, an empty
    line, a malformed payload, a chunk without content, the payloads [[]]
    and ["ping"], and after the terminator a chunk that is not read; the
    same lines ahead of a line that is not UTF-8; and the example's first
    line from a transport that then breaks. *)
Lemma openai_stream_yields_delta_contents_witness :
  let ahead := [": keep-alive"; ""; "data: {'choices': [";
                JsonDecoder.dq "data: {'choices':[{'delta':{'role':'assistant'}}]}";
                "data: []"; JsonDecoder.dq "data: 'ping'";
                Examples.hi_line] in
  let lines := ahead ++ [Examples.done_line; Examples.hi_line] in
  let env := Examples.static_env Examples.network_down (Examples.sends lines)
               Examples.one_file [] in
  let broken := String (ascii_of_nat 255) EmptyString in
  let reset := Exn RequestException "Connection broken" in
  let messages := file_messages "Spring sale starts Monday." None in
  (Spec.stream_safe (bytes_decode env) (json_loads env) lines = true
   /\ OpenAIProvider.stream_response env Examples.openai_provider messages
        no_options 0%nat
      = (([JStr "Hi"], Finished), 0%nat))
  /\ (Spec.stream_safe Utf8Decoder.decode JsonDecoder.json_loads ahead = true
      /\ Spec.terminated Utf8Decoder.decode ahead = false
      /\ Spec.line_fails Utf8Decoder.decode JsonDecoder.json_loads broken = true
      /\ (exists e,
             Spec.line_raises Utf8Decoder.decode JsonDecoder.json_loads broken e
             /\ OpenAIProvider.stream_lines Utf8Decoder.decode
                  JsonDecoder.json_loads
                  (ahead ++ broken :: [Examples.done_line]) Finished
                = (Spec.expected_fragments Utf8Decoder.decode
                     JsonDecoder.json_loads ahead, Raised e))
      /\ OpenAIProvider.stream_lines Utf8Decoder.decode JsonDecoder.json_loads
           (ahead ++ broken :: [Examples.done_line]) Finished
         = ([JStr "Hi"],
            Raised (Exn UnicodeDecodeError
                      "'utf-8' codec can't decode byte 0xff in position 0: invalid start byte")))
  /\ OpenAIProvider.stream_response
       (Examples.breaking_env [Examples.hi_line] reset)
       Examples.openai_provider messages no_options 0%nat
     = (([JStr "Hi"], Raised reset), 0%nat).
Proof.
  cbv zeta. split; [| split].
  - split; [vm_compute; reflexivity |].
    refine (eq_trans
              (proj2 (proj1 openai_stream_yields_delta_contents nat
                        (Examples.static_env Examples.network_down
                           (Examples.sends _) Examples.one_file [])
                        Examples.openai_provider _ no_options 0%nat _ Finished
                        0%nat eq_refl) _) _);
      vm_compute; reflexivity.
  - split; [vm_compute; reflexivity |].
    split; [vm_compute; reflexivity |].
    split; [vm_compute; reflexivity |].
    split; [| vm_compute; reflexivity].
    apply (proj1 (proj2 (proj2 openai_stream_yields_delta_contents))
             Utf8Decoder.decode JsonDecoder.json_loads);
      vm_compute; reflexivity.
  - refine (eq_trans
              (proj2 (proj1 openai_stream_yields_delta_contents nat
                        (Examples.breaking_env [Examples.hi_line]
                           (Exn RequestException "Connection broken"))
                        Examples.openai_provider _ no_options 0%nat _ _
                        0%nat eq_refl) _) _);
      vm_compute; reflexivity.
Defined.

(** C4 as stated fails when a payload is JSON on which the probe raises:
    after the line [data: 5] the stream raises [TypeError], and the
    fragment of the line that follows is never produced. *)
Lemma openai_stream_raises_on_scalar_payload :
  let lines := ["data: 5"; Examples.hi_line; Examples.done_line] in
  Spec.expected_fragments Utf8Decoder.decode JsonDecoder.json_loads lines
  = [JStr "Hi"]
  /\ OpenAIProvider.stream_lines Utf8Decoder.decode JsonDecoder.json_loads
       lines Finished
     = ([], Raised (Exn TypeError "argument of type 'int' is not iterable"))
  /\ ~ Spec.stream_as_stated Utf8Decoder.decode JsonDecoder.json_loads lines
         Finished.
Proof.
  split; [vm_compute; reflexivity | split; [vm_compute; reflexivity |]].
  unfold Spec.stream_as_stated. vm_compute. discriminate.
Qed.

(** *** Simulated streaming *)

Lemma no_space_append (a : string) (c : ascii) :
  Py.no_space a = true -> Py.isspace c = false ->
  Py.no_space (a ++ String c EmptyString) = true.
Proof.
  induction a as [| x a IH]; simpl; intros Ha Hc.
  - rewrite Hc. reflexivity.
  - apply andb_prop in Ha. destruct Ha as [Hx Ha].
    rewrite Hx, (IH Ha Hc). reflexivity.
Qed.

(** The tokens of [split] are non-empty and free of whitespace. *)
Lemma split_from_tokens (s : string) :
  forall cur,
    Py.no_space cur = true ->
    Forall (fun t => Py.truthy t = true /\ Py.no_space t = true)
           (Py.split_from cur s).
Proof.
  induction s as [| c s IH]; intros cur Hcur; simpl.
  - destruct (Py.truthy cur) eqn:Ht; constructor; auto.
  - destruct (Py.isspace c) eqn:Hc.
    + destruct (Py.truthy cur) eqn:Ht.
      * constructor; [auto | apply IH; reflexivity].
      * apply IH; reflexivity.
    + apply IH. apply no_space_append; assumption.
Qed.

(** Put end to end, the tokens are the text without its whitespace: no
    other character is lost or moved. *)
Lemma split_from_concat (s : string) :
  forall cur,
    String.concat "" (Py.split_from cur s) = (cur ++ Py.remove_spaces s)%string.
Proof.
  assert (Hnil : forall a : string, (a ++ "")%string = a).
  { induction a as [| x a IHa]; simpl; [| rewrite IHa]; reflexivity. }
  assert (Hassoc : forall a b c : string,
             ((a ++ b) ++ c)%string = (a ++ (b ++ c))%string).
  { induction a as [| x a IHa]; intros; simpl; [| rewrite IHa]; reflexivity. }
  assert (Hcons : forall (t : string) l,
             String.concat "" (t :: l) = (t ++ String.concat "" l)%string).
  { intros t l. destruct l; simpl; [rewrite Hnil |]; reflexivity. }
  induction s as [| c s IH]; intros cur; simpl.
  - destruct cur; simpl; [| rewrite Hnil]; reflexivity.
  - destruct (Py.isspace c) eqn:Hc.
    + destruct (Py.truthy cur) eqn:Ht.
      * rewrite Hcons, IH. reflexivity.
      * destruct cur; [| discriminate]. apply IH.
    + rewrite IH, Hassoc. reflexivity.
Qed.

(** C5. For every message list, options and environment, the
    Anthropic-style and Custom [stream_response] first run the blocking
    [generate_response]; when it returns a response whose content is the
    text [s], the stream yields exactly the tokens of [s.split()], in
    order, each with one space appended, and finishes, in the world the
    blocking call left; when it raises, the stream raises the same
    exception before any fragment.  The tokens are the non-empty,
    whitespace-free pieces of [s], and content ["Hello world"] gives
    ["Hello "], ["world "]. *)
Theorem simulated_stream_reemits_words :
  (forall W (env : Env W) p messages kwargs w response s w',
      Spec.simulated p = true ->
      provider_generate_response env p messages kwargs w = (Ok response, w') ->
      LLMResponse.content response = JStr s ->
      provider_stream_response env p messages kwargs w
      = ((map Spec.spaced (Py.split s), Finished), w'))
  /\ (forall W (env : Env W) p messages kwargs w e w',
         Spec.simulated p = true ->
         provider_generate_response env p messages kwargs w = (Raise e, w') ->
         provider_stream_response env p messages kwargs w
         = (([], Raised e), w'))
  /\ (forall s,
         Forall (fun t => Py.truthy t = true /\ Py.no_space t = true) (Py.split s)
         /\ String.concat "" (Py.split s) = Py.remove_spaces s)
  /\ map Spec.spaced (Py.split "Hello world") = [JStr "Hello "; JStr "world "].
Proof.
  split; [| split; [| split]].
  - intros W env p messages kwargs w response s w' Hp Hgen Hcontent.
    destruct p; try discriminate; simpl in *;
      unfold AnthropicProvider.stream_response, CustomProvider.stream_response,
             words_stream;
      rewrite Hgen, Hcontent; reflexivity.
  - intros W env p messages kwargs w e w' Hp Hgen.
    destruct p; try discriminate; simpl in *;
      unfold AnthropicProvider.stream_response, CustomProvider.stream_response,
             words_stream;
      rewrite Hgen; reflexivity.
  - intro s. split.
    + apply split_from_tokens. reflexivity.
    + apply (split_from_concat s EmptyString).
  - reflexivity.
Qed.

(** A Custom provider whose endpoint answers with content
    ["Hello world"]. *)
Lemma simulated_stream_reemits_words_witness :
  let env := Examples.static_env (Examples.answers (Examples.chat_body "Hello world"))
               Examples.network_down Examples.one_file [] in
  let p := LLMClient.provider Examples.custom_client in
  let messages := file_messages "Spring sale starts Monday." None in
  Spec.simulated p = true
  /\ (exists response,
         provider_generate_response env p messages no_options 0%nat
         = (Ok response, 0%nat)
         /\ LLMResponse.content response = JStr "Hello world")
  /\ provider_stream_response env p messages no_options 0%nat
     = (([JStr "Hello "; JStr "world "], Finished), 0%nat).
Proof.
  split; [reflexivity | split].
  - eexists. split; [vm_compute; reflexivity | reflexivity].
  - refine (proj1 simulated_stream_reemits_words nat _ _ _ _ _ _ "Hello world" _ _ _ _);
      [reflexivity | vm_compute; reflexivity | reflexivity].
Defined.

(** *** Malformed responses *)

Lemma py_getitem_field (j : json) (k : string) :
  match Spec.json_field k j with
  | Some v => py_getitem j k = Ok v
  | None => exists e, py_getitem j k = Raise e /\ Spec.malformed_response e
  end.
Proof.
  unfold Spec.malformed_response.
  destruct j as [| | | | | | d]; simpl; eauto 6.
  destruct (Dict.lookup k d); simpl; eauto 6.
Qed.

(** [j[0]] gives the first element of an array; on anything else it
    raises, or gives a one-character text, on which a key lookup raises. *)
Lemma py_getitem0_first (j : json) :
  match Spec.json_first j with
  | Some v => py_getitem0 j = Ok v
  | None =>
      (exists e, py_getitem0 j = Raise e /\ Spec.malformed_response e)
      \/ (exists t, py_getitem0 j = Ok (JStr t))
  end.
Proof.
  unfold Spec.malformed_response.
  destruct j as [| | | | s | l | d]; simpl; eauto 7.
  - destruct s; eauto 7.
  - destruct l; eauto 7.
Qed.

Lemma field_of_object (k : string) (j v : json) :
  Spec.json_field k j = Some v -> exists d, j = JObj d.
Proof.
  destruct j; simpl; try discriminate; eauto.
Qed.

(** The chat-completion bodies: a response exactly when
    [choices[0].message.content] is there, holding what is there. *)
Lemma chat_completion_response_path (data : json) (model provider : string) :
  match Spec.chat_content_path data with
  | Some c =>
      exists usage finish_reason,
        chat_completion_response data model provider
        = Ok (LLMResponse.Build c model usage finish_reason provider)
  | None =>
      exists e, chat_completion_response data model provider = Raise e
                /\ Spec.malformed_response e
  end.
Proof.
  unfold Spec.chat_content_path, chat_completion_response.
  pose proof (py_getitem_field data "choices") as H1.
  destruct (Spec.json_field "choices" data) as [choices |] eqn:E1; simpl;
    [rewrite H1; simpl | destruct H1 as [e [-> ?]]; simpl; eauto].
  pose proof (py_getitem0_first choices) as H2.
  destruct (Spec.json_first choices) as [choice |] eqn:E2; simpl.
  - rewrite H2; simpl.
    pose proof (py_getitem_field choice "message") as H3.
    destruct (Spec.json_field "message" choice) as [message |] eqn:E3; simpl;
      [rewrite H3; simpl | destruct H3 as [e [-> ?]]; simpl; eauto].
    pose proof (py_getitem_field message "content") as H4.
    destruct (Spec.json_field "content" message) as [content |] eqn:E4; simpl;
      [rewrite H4; simpl | destruct H4 as [e [-> ?]]; simpl; eauto].
    destruct (field_of_object _ _ _ E1) as [d ->].
    destruct (field_of_object _ _ _ E3) as [c ->].
    simpl. eauto.
  - destruct H2 as [[e [-> ?]] | [t ->]]; simpl; eauto.
    unfold Spec.malformed_response. eauto 6.
Qed.

(** The Anthropic-style bodies: a response exactly when [content[0].text]
    is there. *)
Lemma anthropic_response_path (data : json) (model : string) :
  match Spec.anthropic_content_path data with
  | Some c =>
      exists usage finish_reason,
        AnthropicProvider.response data model
        = Ok (LLMResponse.Build c model usage finish_reason "anthropic")
  | None =>
      exists e, AnthropicProvider.response data model = Raise e
                /\ Spec.malformed_response e
  end.
Proof.
  unfold Spec.anthropic_content_path, AnthropicProvider.response.
  pose proof (py_getitem_field data "content") as H1.
  destruct (Spec.json_field "content" data) as [blocks |] eqn:E1; simpl;
    [rewrite H1; simpl | destruct H1 as [e [-> ?]]; simpl; eauto].
  pose proof (py_getitem0_first blocks) as H2.
  destruct (Spec.json_first blocks) as [block |] eqn:E2; simpl.
  - rewrite H2; simpl.
    pose proof (py_getitem_field block "text") as H3.
    destruct (Spec.json_field "text" block) as [text |] eqn:E3; simpl;
      [rewrite H3; simpl | destruct H3 as [e [-> ?]]; simpl; eauto].
    destruct (field_of_object _ _ _ E1) as [d ->].
    simpl. eauto.
  - destruct H2 as [[e [-> ?]] | [t ->]]; simpl; eauto.
    unfold Spec.malformed_response. eauto 6.
Qed.

Lemma provider_response_path (p : LLMProvider) (data : json) :
  match Spec.content_path p data with
  | Some c =>
      exists r, Spec.provider_response p data = Ok r
                /\ LLMResponse.content r = c
                /\ LLMResponse.provider r = provider_tag p
  | None =>
      exists e, Spec.provider_response p data = Raise e
                /\ Spec.malformed_response e
  end.
Proof.
  destruct p as [p | p | p]; simpl.
  - pose proof (chat_completion_response_path data (OpenAIProvider.model p)
                  "openai") as H.
    destruct (Spec.chat_content_path data);
      [destruct H as [us [fr ->]]; eauto | exact H].
  - pose proof (anthropic_response_path data (AnthropicProvider.model p)) as H.
    destruct (Spec.anthropic_content_path data);
      [destruct H as [us [fr ->]]; eauto | exact H].
  - pose proof (chat_completion_response_path data (CustomProvider.model p)
                  "custom") as H.
    destruct (Spec.chat_content_path data);
      [destruct H as [us [fr ->]]; eauto | exact H].
Qed.

(** C6. For every variant, message list, options and environment: when
    the transport answers the variant's request with a JSON body [data],
    [generate_response] raises a malformed-response exception ([KeyError],
    [IndexError] or [TypeError]) if [data] lacks the variant's content path
    ([choices[0].message.content] for OpenAI-style and Custom,
    [content[0].text] for Anthropic-style), and returns an [LLMResponse]
    only if the path is there, with the path's value as content and the
    variant's tag as provider. *)
Theorem generate_response_needs_content_path {W} (env : Env W)
    (p : LLMProvider) (messages : list Message.t) (kwargs : Options)
    (w w1 : W) (data : json) :
  requests_post env (Spec.generate_request p messages kwargs) w = (Ok data, w1) ->
  (Spec.content_path p data = None ->
   exists e, provider_generate_response env p messages kwargs w = (Raise e, w1)
             /\ Spec.malformed_response e)
  /\ (forall r w',
         provider_generate_response env p messages kwargs w = (Ok r, w') ->
         Spec.content_path p data = Some (LLMResponse.content r)
         /\ LLMResponse.provider r = provider_tag p
         /\ w' = w1).
Proof.
  intro Hpost.
  pose proof (generate_response_posts env p messages kwargs w) as Hgen.
  rewrite Hpost in Hgen.
  pose proof (provider_response_path p data) as Hpath.
  split.
  - intro Hnone. rewrite Hnone in Hpath. destruct Hpath as [e [He Hm]].
    exists e. rewrite Hgen, He. auto.
  - intros r w' Hok. rewrite Hgen in Hok.
    destruct (Spec.content_path p data) as [c |].
    + destruct Hpath as [r0 [Hr0 [Hc Ht]]]. rewrite Hr0 in Hok.
      inversion Hok; subst. auto.
    + destruct Hpath as [e [He _]]. rewrite He in Hok. discriminate.
Qed.

(** An OpenAI-style body whose first choice has no [message]. *)
Lemma generate_response_needs_content_path_witness :
  let data := JObj [("choices", JArr [JObj [("finish_reason", JStr "stop")]])] in
  let env := Examples.static_env (Examples.answers data) Examples.network_down
               Examples.one_file [] in
  let p := LLMClient.provider Examples.openai_client in
  requests_post env (Spec.generate_request p Examples.sab no_options) 0%nat
  = (Ok data, 0%nat)
  /\ Spec.content_path p data = None
  /\ exists e,
      provider_generate_response env p Examples.sab no_options 0%nat
      = (Raise e, 0%nat)
      /\ Spec.malformed_response e.
Proof.
  split; [reflexivity | split; [reflexivity |]].
  refine (proj1 (generate_response_needs_content_path
                   (Examples.static_env _ _ _ _) _ _ _ 0%nat 0%nat _ _) _);
    reflexivity.
Defined.

(** *** Constructing the client *)

Lemma validate_provider_supported (v : string) :
  (In v Config.supported_providers -> Config.LLMConfig.validate_provider v = Ok v)
  /\ (~ In v Config.supported_providers ->
      exists e, Config.LLMConfig.validate_provider v = Raise e /\ exn_cls e = ValueError).
Proof.
  unfold Config.LLMConfig.validate_provider.
  destruct (existsb (String.eqb v) Config.supported_providers) eqn:E; simpl.
  - split; [reflexivity |]. intro Hn. exfalso. apply Hn.
    apply existsb_exists in E. destruct E as [x [Hin Hx]].
    apply String.eqb_eq in Hx. subst. exact Hin.
  - split; [| eauto]. intro Hin. exfalso.
    assert (existsb (String.eqb v) Config.supported_providers = true).
    { apply existsb_exists. exists v. split; [exact Hin | apply String.eqb_refl]. }
    congruence.
Qed.

(** C7. For every configuration: when the provider name is outside
    {openai, anthropic, custom}, constructing the client raises
    [ValueError("Unsupported provider: <name>")] and no provider exists
    (and [LLMConfig.validate_provider] refuses the name with a
    [ValueError] of its own);
    when the name is custom and the base URL is absent or empty, it raises
    [ValueError("base_url is required for custom provider")]; in every
    other case it returns a client that holds the configuration and one
    provider, of the variant the name asks for. *)
Theorem client_construction (config : Config.t) :
  let name := Config.LLMConfig.provider (Config.llm config) in
  let base_url := Config.LLMConfig.base_url (Config.llm config) in
  (~ In name Config.supported_providers ->
   LLMClient.__init__ config
   = Raise (Exn ValueError ("Unsupported provider: " ++ name))
   /\ exists e, Config.LLMConfig.validate_provider name = Raise e
                /\ exn_cls e = ValueError)
  /\ (name = "custom" -> Py.truthy_opt base_url = false ->
      LLMClient.__init__ config
      = Raise (Exn ValueError "base_url is required for custom provider"))
  /\ (In name Config.supported_providers ->
      (name = "custom" -> Py.truthy_opt base_url = true) ->
      exists p, LLMClient.__init__ config = Ok (LLMClient.Build config p)
                /\ provider_tag p = name).
Proof.
  destruct config as [[name key model url max_tokens temperature] files].
  unfold LLMClient.__init__, LLMClient._create_provider. simpl.
  split; [| split].
  - intro Hn. split; [| exact (proj2 (validate_provider_supported name) Hn)].
    assert (H1 : String.eqb name "openai" = false)
      by (apply String.eqb_neq; intro; subst; apply Hn; simpl; auto).
    assert (H2 : String.eqb name "anthropic" = false)
      by (apply String.eqb_neq; intro; subst; apply Hn; simpl; auto).
    assert (H3 : String.eqb name "custom" = false)
      by (apply String.eqb_neq; intro; subst; apply Hn; simpl; auto).
    rewrite H1, H2, H3. reflexivity.
  - intros -> Hurl. simpl.
    destruct url as [u |]; [| reflexivity].
    simpl in Hurl. rewrite Hurl. reflexivity.
  - intros Hin Hurl.
    destruct Hin as [<- | [<- | [<- | []]]]; simpl.
    + eexists; split; reflexivity.
    + eexists; split; reflexivity.
    + specialize (Hurl eq_refl). destruct url as [u |]; [| discriminate].
      simpl in Hurl. rewrite Hurl. simpl. eexists; split; reflexivity.
Qed.

(** The name [foo], a custom provider without base URL, and the three
    supported names. *)
Lemma client_construction_witness :
  LLMClient.__init__ (Examples.config_for "foo" None)
  = Raise (Exn ValueError "Unsupported provider: foo")
  /\ LLMClient.__init__ (Examples.config_for "custom" (Some ""))
     = Raise (Exn ValueError "base_url is required for custom provider")
  /\ exists p, LLMClient.__init__ (Examples.config_for "anthropic" None)
               = Ok (LLMClient.Build (Examples.config_for "anthropic" None) p)
               /\ provider_tag p = "anthropic".
Proof.
  split; [| split].
  - apply (proj1 (client_construction (Examples.config_for "foo" None))).
    simpl. intros [H | [H | [H | []]]]; discriminate H.
  - apply (proj1 (proj2 (client_construction
                           (Examples.config_for "custom" (Some "")))));
      reflexivity.
  - apply (proj2 (proj2 (client_construction
                           (Examples.config_for "anthropic" None)))).
    + simpl. auto.
    + simpl. discriminate.
Defined.

(** *** Streaming one file *)

(** C8. For every file path, optional prompt and environment,
    [AIAgent.stream_file_processing] finishes without raising.  When the read
    gives nothing it yields the single fragment
    ["Error: Failed to read file"]; when the read raises, the single
    fragment ["Error: <exception text>"]; when the provider's stream
    raises, at the call or between fragments, the fragments yielded so far
    are followed by the one fragment ["Error: <exception text>"], which
    ends the sequence; otherwise the provider's fragments pass through. *)
Theorem stream_file_processing_never_raises {W} (env : Env W)
    (self : AIAgent.t) (file_path : string) (user_prompt : option string)
    (w : W) :
  (exists frags w',
      AIAgent.stream_file_processing env self file_path user_prompt w
      = ((frags, Finished), w'))
  /\ (forall w1,
         read_file env file_path w = (Ok None, w1) ->
         AIAgent.stream_file_processing env self file_path user_prompt w
         = (([JStr "Error: Failed to read file"], Finished), w1))
  /\ (forall e w1,
         read_file env file_path w = (Raise e, w1) ->
         AIAgent.stream_file_processing env self file_path user_prompt w
         = (([JStr ("Error: " ++ exn_str e)], Finished), w1))
  /\ (forall fc w1 frags ending w2,
         read_file env file_path w = (Ok (Some fc), w1) ->
         LLMClient.stream_response env (AIAgent.llm_client self)
           (file_messages (FileContent.content fc) user_prompt) no_options w1
         = ((frags, ending), w2) ->
         AIAgent.stream_file_processing env self file_path user_prompt w
         = ((match ending with
             | Finished => frags
             | Raised e => frags ++ [JStr ("Error: " ++ exn_str e)]
             end, Finished), w2)).
Proof.
  unfold AIAgent.stream_file_processing, gen_try_except.
  split; [| split; [| split]].
  - destruct (read_file env file_path w) as [[[fc |] | e] w1]; eauto.
    destruct (LLMClient.stream_response env (AIAgent.llm_client self)
                (file_messages (FileContent.content fc) user_prompt)
                no_options w1) as [[frags [| e]] w2]; eauto.
  - intros w1 ->. reflexivity.
  - intros e w1 ->. reflexivity.
  - intros fc w1 frags ending w2 -> ->. destruct ending; reflexivity.
Qed.

(** A stream that breaks after its first fragment: the file is read, the
    OpenAI-style endpoint sends the ["Hi"] chunk and then the payload
    [5]. *)
Lemma stream_file_processing_never_raises_witness :
  let env := Examples.static_env Examples.network_down
               (Examples.sends [Examples.hi_line; "data: 5"; Examples.hi_line])
               Examples.one_file [] in
  read_file env "input/note.txt" 0%nat = (Ok (Some Examples.note), 0%nat)
  /\ LLMClient.stream_response env Examples.openai_client
       (file_messages "Spring sale starts Monday." None) no_options 0%nat
     = (([JStr "Hi"],
         Raised (Exn TypeError "argument of type 'int' is not iterable")), 0%nat)
  /\ AIAgent.stream_file_processing env Examples.openai_agent "input/note.txt" None 0%nat
     = (([JStr "Hi"; JStr "Error: argument of type 'int' is not iterable"],
         Finished), 0%nat).
Proof.
  split; [reflexivity | split; [vm_compute; reflexivity |]].
  refine (proj2 (proj2 (proj2 (stream_file_processing_never_raises
            (Examples.static_env _ _ _ _) Examples.openai_agent
            "input/note.txt" None 0%nat)))
            Examples.note 0%nat [JStr "Hi"]
            (Raised (Exn TypeError "argument of type 'int' is not iterable"))
            0%nat _ _);
    [reflexivity | vm_compute; reflexivity].
Defined.

(** *** The Custom request *)

(** C9, amended. For every message list and options, the Custom
    [generate_response] makes one POST to [{base_url}/chat/completions]
    (the base URL the provider holds: the caller's without trailing
    slashes) with the OpenAI-style headers, and its JSON body has exactly
    the keys {model, messages, max_tokens, temperature}: the OpenAI-style
    body, value for value, without the key [stream]. *)
Theorem custom_request_is_openai_without_stream {W} (env : Env W)
    (api_key : option string) (model base_url : string)
    (provider_kwargs : Options) (messages : list Message.t)
    (kwargs : Options) :
  let self := CustomProvider.__init__ api_key model base_url provider_kwargs in
  let url := Py.rstrip_char "/" base_url in
  let req := CustomProvider.request self messages kwargs in
  let like :=
    OpenAIProvider.request
      (OpenAIProvider.__init__ api_key model (Some url) provider_kwargs)
      messages kwargs false in
  Spec.posts env
    (CustomProvider.generate_response env self messages kwargs)
    req (fun data => chat_completion_response data model "custom")
  /\ Request.url req = (url ++ "/chat/completions")%string
  /\ (url <> "" -> Request.url req = Request.url like)
  /\ Request.headers req = Request.headers like
  /\ Spec.body_keys req = ["model"; "messages"; "max_tokens"; "temperature"]
  /\ Spec.body_keys like = Spec.body_keys req ++ ["stream"]
  /\ (forall k, In k (Spec.body_keys req) ->
                Spec.json_field k (Request.json_body req)
                = Spec.json_field k (Request.json_body like)).
Proof.
  cbv zeta. split.
  - exact (generate_response_posts env
             (Custom (CustomProvider.__init__ api_key model base_url
                        provider_kwargs))
             messages kwargs).
  - repeat split; try reflexivity.
    + intro Hurl. unfold OpenAIProvider.request, CustomProvider.request. simpl.
      destruct (Py.rstrip_char "/" base_url); [congruence | reflexivity].
    + intros k Hin. simpl in Hin.
      destruct Hin as [<- | [<- | [<- | [<- | []]]]]; reflexivity.
Qed.

(** A Custom provider for [http://localhost:8000/v1/]. *)
Lemma custom_request_is_openai_without_stream_witness :
  let req := CustomProvider.request Examples.custom_provider Examples.sab
               no_options in
  Request.url req = "http://localhost:8000/v1/chat/completions"
  /\ Request.url req
     = Request.url
         (OpenAIProvider.request
            (OpenAIProvider.__init__ (Some "sk-test") "model-1"
               (Some "http://localhost:8000/v1") Examples.configured)
            Examples.sab no_options false).
Proof.
  split; [reflexivity |].
  refine (proj1 (proj2 (proj2 (custom_request_is_openai_without_stream
            (Examples.static_env Examples.network_down Examples.network_down
               Examples.one_file [])
            (Some "sk-test") "model-1" "http://localhost:8000/v1/"
            Examples.configured Examples.sab no_options))) _).
  discriminate.
Defined.

(** C9 as stated fails: the Custom body has four keys, and [stream], which
    the OpenAI-style body has, is not among them. *)
Lemma custom_body_has_no_stream_key :
  let req := CustomProvider.request Examples.custom_provider Examples.sab
               no_options in
  let like := OpenAIProvider.request Examples.openai_provider Examples.sab
                no_options false in
  Spec.body_keys req = ["model"; "messages"; "max_tokens"; "temperature"]
  /\ Spec.body_keys like
     = ["model"; "messages"; "max_tokens"; "temperature"; "stream"]
  /\ Spec.json_field "stream" (Request.json_body req) = None
  /\ ~ In "stream" (Spec.body_keys req).
Proof.
  repeat split; try reflexivity.
  simpl. intros [H | [H | [H | [H | []]]]]; discriminate H.
Qed.

(** *** The conversation built for a file *)

(** C10. For every file text, [LLMClient.process_file_content] hands
    [generate_response] a conversation of exactly two messages, the fixed
    system instruction and the user turn that embeds the file text, when
    [user_prompt] is [None] or the empty text; a non-empty prompt, and only
    that, adds a third message: a user turn holding the prompt. *)
Theorem process_file_content_messages (file_content : string)
    (user_prompt : option string) :
  let base :=
    [Message.Build "system" system_prompt;
     Message.Build "user"
       ("Please analyze the following text content:" ++ nl ++ nl
        ++ file_content)] in
  (user_prompt = None \/ user_prompt = Some "" ->
   file_messages file_content user_prompt = base)
  /\ (forall prompt,
         user_prompt = Some prompt -> prompt <> "" ->
         file_messages file_content user_prompt
         = base ++ [Message.Build "user" prompt])
  /\ (List.length (file_messages file_content user_prompt) = 3%nat
      <-> exists prompt, user_prompt = Some prompt /\ prompt <> "")
  /\ (forall W (env : Env W) self,
         LLMClient.process_file_content env self file_content user_prompt
         = LLMClient.generate_response env self
             (file_messages file_content user_prompt) no_options).
Proof.
  cbv zeta. unfold file_messages.
  split; [| split; [| split]].
  - intros [-> | ->]; reflexivity.
  - intros prompt -> Hp. destruct prompt; [congruence | reflexivity].
  - destruct user_prompt as [[| c prompt] |]; simpl; split.
    + discriminate.
    + intros [p [H Hp]]. inversion H; subst. congruence.
    + intros _. eexists; split; [reflexivity | discriminate].
    + reflexivity.
    + discriminate.
    + intros [p [H _]]. discriminate.
  - reflexivity.
Qed.

(** No prompt, an empty prompt, and a prompt. *)
Lemma process_file_content_messages_witness :
  List.length (file_messages "Spring sale starts Monday." None) = 2%nat
  /\ List.length (file_messages "Spring sale starts Monday." (Some "")) = 2%nat
  /\ file_messages "Spring sale starts Monday." (Some "Summarise.")
     = [Message.Build "system" system_prompt;
        Message.Build "user"
          ("Please analyze the following text content:" ++ nl ++ nl
           ++ "Spring sale starts Monday.");
        Message.Build "user" "Summarise."].
Proof.
  split; [| split].
  - rewrite (proj1 (process_file_content_messages
                      "Spring sale starts Monday." None)); auto.
  - rewrite (proj1 (process_file_content_messages
                      "Spring sale starts Monday." (Some ""))); auto.
  - apply (proj1 (proj2 (process_file_content_messages
                           "Spring sale starts Monday." (Some "Summarise.")))
             "Summarise.").
    + reflexivity.
    + discriminate.
Defined.

(* ================================================================== *)
(** ** Further properties of the client *)

Lemma anthropic_payload_fields (self : AnthropicProvider.t)
    (messages : list Message.t) (kwargs : Options) :
  exists tail,
    AnthropicProvider.payload self messages kwargs
    = JObj (("model", JStr (AnthropicProvider.model self))
            :: ("max_tokens", get_max_tokens kwargs)
            :: ("temperature", get_temperature kwargs) :: tail).
Proof.
  unfold AnthropicProvider.payload. rewrite anthropic_convert_spec. simpl.
  destruct (Spec.last_system messages) as [[| c s] |]; simpl; eauto.
Qed.

(** The options each request carries are those of the call, never those
    stored in the provider. *)
Lemma request_options (p : LLMProvider) (messages : list Message.t)
    (kwargs : Options) :
  let body := Request.json_body (Spec.generate_request p messages kwargs) in
  Spec.json_field "max_tokens" body = Some (get_max_tokens kwargs)
  /\ Spec.json_field "temperature" body = Some (get_temperature kwargs).
Proof.
  destruct p as [self | self | self]; simpl; try (split; reflexivity).
  destruct (anthropic_payload_fields self messages kwargs) as [tail ->].
  split; reflexivity.
Qed.

(** X1. The [max_tokens] and [temperature] of the configuration never
    reach the provider's API: [LLMClient._create_provider] stores them in
    the provider, but [LLMClient.process_file_content] calls
    [generate_response] without keyword arguments, so for every
    configuration the one request it posts carries [max_tokens = 1000] and
    [temperature = 0.7]. *)
Theorem configured_options_are_not_sent (config : Config.t)
    (client : LLMClient.t) (file_content : string)
    (user_prompt : option string) :
  LLMClient.__init__ config = Ok client ->
  let p := LLMClient.provider client in
  let req :=
    Spec.generate_request p (file_messages file_content user_prompt)
                          no_options in
  Spec.stored_kwargs p
  = {| opt_max_tokens := Some (Config.LLMConfig.max_tokens (Config.llm config));
       opt_temperature :=
         Some (Config.LLMConfig.temperature (Config.llm config)) |}
  /\ (forall W (env : Env W),
         Spec.posts env
           (LLMClient.process_file_content env client file_content user_prompt)
           req (Spec.provider_response p))
  /\ Spec.json_field "max_tokens" (Request.json_body req) = Some (JInt 1000)
  /\ Spec.json_field "temperature" (Request.json_body req)
     = Some (JFloat (7 # 10)).
Proof.
  intro Hinit. cbv zeta.
  split; [| split; [| exact (request_options _ _ no_options)]].
  - revert Hinit. unfold LLMClient.__init__, LLMClient._create_provider.
    destruct config as [[name key model url max_tokens temperature] files].
    simpl.
    destruct (String.eqb name "openai");
      [intro H; inversion H; reflexivity |].
    destruct (String.eqb name "anthropic");
      [intro H; inversion H; reflexivity |].
    destruct (String.eqb name "custom"); [| discriminate].
    destruct url as [u |]; [| discriminate].
    destruct (Py.truthy u); simpl; [| discriminate].
    intro H; inversion H; reflexivity.
  - intros W env. unfold LLMClient.process_file_content,
      LLMClient.generate_response.
    apply generate_response_posts.
Qed.

(** A configuration asking for 5 tokens at temperature 0. *)
Lemma configured_options_are_not_sent_witness :
  let config := Examples.frugal "anthropic" None in
  exists client,
    LLMClient.__init__ config = Ok client
    /\ Spec.stored_kwargs (LLMClient.provider client)
       = {| opt_max_tokens := Some 5%Z; opt_temperature := Some 0%Q |}
    /\ Spec.json_field "max_tokens"
         (Request.json_body
            (Spec.generate_request (LLMClient.provider client)
               (file_messages "Spring sale starts Monday." None) no_options))
       = Some (JInt 1000).
Proof.
  eexists. split; [reflexivity |].
  pose proof (configured_options_are_not_sent
                (Examples.frugal "anthropic" None) _
                "Spring sale starts Monday." None eq_refl) as H.
  cbv zeta in H. destruct H as [Hk [_ [Hm _]]].
  split; [exact Hk | exact Hm].
Defined.

(** *** What a response is made of *)

Lemma chat_completion_response_exact (data : json) (model provider : string)
    (c : json) :
  Spec.chat_content_path data = Some c ->
  chat_completion_response data model provider
  = Ok (LLMResponse.Build c model (Spec.field_or_null "usage" data)
          (match Spec.and_then (Spec.json_field "choices" data) Spec.json_first with
           | Some choice => Spec.field_or_null "finish_reason" choice
           | None => JNull
           end)
          provider).
Proof.
  unfold Spec.chat_content_path, chat_completion_response, Spec.field_or_null.
  destruct data as [| | | | | | d]; try discriminate. simpl.
  destruct (Dict.lookup "choices" d) as [choices |]; try discriminate. simpl.
  destruct choices as [| | | | | l |]; try discriminate.
  destruct l as [| choice l']; try discriminate. simpl.
  destruct choice as [| | | | | | ch]; try discriminate. simpl.
  destruct (Dict.lookup "message" ch) as [message |]; try discriminate. simpl.
  destruct message as [| | | | | | m]; try discriminate. simpl.
  destruct (Dict.lookup "content" m) as [content |]; try discriminate. simpl.
  intro H; inversion H; subst. reflexivity.
Qed.

Lemma anthropic_response_exact (data : json) (model : string) (c : json) :
  Spec.anthropic_content_path data = Some c ->
  AnthropicProvider.response data model
  = Ok (LLMResponse.Build c model (Spec.field_or_null "usage" data)
          (Spec.field_or_null "stop_reason" data) "anthropic").
Proof.
  unfold Spec.anthropic_content_path, AnthropicProvider.response,
    Spec.field_or_null.
  destruct data as [| | | | | | d]; try discriminate. simpl.
  destruct (Dict.lookup "content" d) as [blocks |]; try discriminate. simpl.
  destruct blocks as [| | | | | l |]; try discriminate.
  destruct l as [| block l']; try discriminate. simpl.
  destruct block as [| | | | | | b]; try discriminate. simpl.
  destruct (Dict.lookup "text" b) as [text |]; try discriminate. simpl.
  intro H; inversion H; subst. reflexivity.
Qed.

Lemma provider_response_exact (p : LLMProvider) (data c : json) :
  Spec.content_path p data = Some c ->
  Spec.provider_response p data
  = Ok (LLMResponse.Build c (Spec.model_of p) (Spec.field_or_null "usage" data)
          (Spec.finish_reason_of p data) (provider_tag p)).
Proof.
  destruct p as [self | self | self]; simpl; intro H.
  - apply chat_completion_response_exact; exact H.
  - apply anthropic_response_exact; exact H.
  - apply chat_completion_response_exact; exact H.
Qed.

(** X2. When the transport answers with a body that has the variant's
    content path, [generate_response] returns exactly: the path's value as
    content, the model the provider was built with (not the model the body
    names), the body's [usage] as it is ([None] when the body has none),
    the finish reason read at [choices[0].finish_reason] for OpenAI-style
    and Custom and at [stop_reason] for Anthropic-style ([None] when
    absent), and the variant's tag. *)
Theorem generate_response_normalises {W} (env : Env W) (p : LLMProvider)
    (messages : list Message.t) (kwargs : Options) (w w1 : W)
    (data c : json) :
  requests_post env (Spec.generate_request p messages kwargs) w = (Ok data, w1) ->
  Spec.content_path p data = Some c ->
  provider_generate_response env p messages kwargs w
  = (Ok (LLMResponse.Build c (Spec.model_of p)
           (Spec.field_or_null "usage" data)
           (Spec.finish_reason_of p data) (provider_tag p)), w1).
Proof.
  intros Hpost Hpath.
  rewrite (generate_response_posts env p messages kwargs w), Hpost.
  rewrite (provider_response_exact p data c Hpath). reflexivity.
Qed.

(** An Anthropic-style body that names another model and stops at
    [max_tokens]. *)
Lemma generate_response_normalises_witness :
  let data :=
    JObj [("model", JStr "served-model");
          ("content", JArr [JObj [("type", JStr "text"); ("text", JStr "Hi")]]);
          ("stop_reason", JStr "max_tokens")] in
  let env := Examples.static_env (Examples.answers data) Examples.network_down
               Examples.one_file [] in
  provider_generate_response env (Anthropic Examples.anthropic_provider)
    Examples.sab no_options 0%nat
  = (Ok (LLMResponse.Build (JStr "Hi") "model-1" JNull (JStr "max_tokens")
           "anthropic"), 0%nat).
Proof.
  cbv zeta.
  apply (generate_response_normalises (Examples.static_env _ _ _ _)
           (Anthropic Examples.anthropic_provider) Examples.sab no_options
           0%nat 0%nat
           (JObj [("model", JStr "served-model");
                  ("content",
                   JArr [JObj [("type", JStr "text"); ("text", JStr "Hi")]]);
                  ("stop_reason", JStr "max_tokens")])
           (JStr "Hi")); reflexivity.
Defined.

(** *** One file, from the read to the result *)

(** X3. When a file is read and the transport then fails, the result of
    [process_single_file] is a failure whose message is
    ["Error processing <path>: <text of the transport's exception>"], whose
    processing time is the clock's difference, and whose [file_content] is
    the empty placeholder (no text, size 0, encoding utf-8): the content
    that was read is not in the result. *)
Theorem process_single_file_transport_failure {W} (env : Env W)
    (self : AIAgent.t) (file_path : string) (user_prompt : option string)
    (w w0 w1 w2 w3 : W) (t0 t1 : Q) (file_content : FileContent.t) (e : exn) :
  time_time env w = (t0, w0) ->
  read_file env file_path w0 = (Ok (Some file_content), w1) ->
  requests_post env
    (Spec.generate_request (LLMClient.provider (AIAgent.llm_client self))
       (file_messages (FileContent.content file_content) user_prompt)
       no_options) w1
  = (Raise e, w2) ->
  time_time env w2 = (t1, w3) ->
  AIAgent.process_single_file env self file_path user_prompt w
  = (Ok (ProcessingResult.Build file_path
           (FileContent.Build file_path "" 0 "utf-8") None (t1 - t0)%Q false
           (Some ("Error processing " ++ file_path ++ ": " ++ exn_str e)%string)),
     w3).
Proof.
  intros Ht0 Hread Hpost Ht1.
  unfold AIAgent.process_single_file, bind, try_except, now, ret.
  rewrite Ht0, Hread.
  unfold LLMClient.process_file_content, LLMClient.generate_response.
  rewrite (generate_response_posts env _ _ _ w1), Hpost, Ht1.
  reflexivity.
Qed.

(** The note is read, the network is down. *)
Lemma process_single_file_transport_failure_witness :
  let env := Examples.static_env Examples.network_down Examples.network_down
               Examples.one_file [] in
  AIAgent.process_single_file env Examples.openai_agent "input/note.txt"
    (Some "Summarise.") 3%nat
  = (Ok (ProcessingResult.Build "input/note.txt"
           (FileContent.Build "input/note.txt" "" 0 "utf-8") None
           (inject_Z 4 - inject_Z 3)%Q false
           (Some "Error processing input/note.txt: Connection refused")),
     5%nat).
Proof.
  cbv zeta.
  apply (process_single_file_transport_failure
           (Examples.static_env Examples.network_down Examples.network_down
              Examples.one_file [])
           Examples.openai_agent "input/note.txt" (Some "Summarise.")
           3%nat 4%nat 4%nat 4%nat 5%nat (inject_Z 3) (inject_Z 4)
           Examples.note (Exn RequestException "Connection refused"));
    reflexivity.
Defined.

(** X4. When a file is read and the transport answers with a body that has
    the provider's content path, [process_single_file] returns a success
    that holds the [FileContent] as read, the normalised response, the
    clock's difference as processing time and no error message. *)
Theorem process_single_file_success_result {W} (env : Env W)
    (self : AIAgent.t) (file_path : string) (user_prompt : option string)
    (w w0 w1 w2 w3 : W) (t0 t1 : Q) (file_content : FileContent.t)
    (data c : json) :
  let p := LLMClient.provider (AIAgent.llm_client self) in
  time_time env w = (t0, w0) ->
  read_file env file_path w0 = (Ok (Some file_content), w1) ->
  requests_post env
    (Spec.generate_request p
       (file_messages (FileContent.content file_content) user_prompt)
       no_options) w1
  = (Ok data, w2) ->
  Spec.content_path p data = Some c ->
  time_time env w2 = (t1, w3) ->
  AIAgent.process_single_file env self file_path user_prompt w
  = (Ok (ProcessingResult.Build file_path file_content
           (Some (LLMResponse.Build c (Spec.model_of p)
                    (Spec.field_or_null "usage" data)
                    (Spec.finish_reason_of p data) (provider_tag p)))
           (t1 - t0)%Q true None),
     w3).
Proof.
  intros p Ht0 Hread Hpost Hpath Ht1.
  unfold AIAgent.process_single_file, bind, try_except, now, ret.
  rewrite Ht0, Hread.
  unfold LLMClient.process_file_content, LLMClient.generate_response.
  rewrite (generate_response_posts env _ _ _ w1). fold p. rewrite Hpost.
  rewrite (provider_response_exact p data c Hpath), Ht1.
  reflexivity.
Qed.

(** The note is read and the endpoint answers ["ok"]. *)
Lemma process_single_file_success_result_witness :
  let env := Examples.static_env (Examples.answers (Examples.chat_body "ok"))
               Examples.network_down Examples.one_file [] in
  AIAgent.process_single_file env Examples.openai_agent "input/note.txt"
    None 0%nat
  = (Ok (ProcessingResult.Build "input/note.txt" Examples.note
           (Some (LLMResponse.Build (JStr "ok") "model-1"
                    (JObj [("total_tokens", JInt 12)]) (JStr "stop") "openai"))
           (inject_Z 1 - inject_Z 0)%Q true None),
     2%nat).
Proof.
  cbv zeta.
  apply (process_single_file_success_result
           (Examples.static_env (Examples.answers (Examples.chat_body "ok"))
              Examples.network_down Examples.one_file [])
           Examples.openai_agent "input/note.txt" None
           0%nat 1%nat 1%nat 1%nat 2%nat (inject_Z 0) (inject_Z 1)
           Examples.note (Examples.chat_body "ok") (JStr "ok"));
    reflexivity.
Defined.

(** *** The base URL of the Custom provider *)

Lemma rstrip_char_spec (c : ascii) (s : string) :
  exists n,
    s = (Py.rstrip_char c s ++ Spec.copies n c)%string
    /\ Spec.ends_with c (Py.rstrip_char c s) = false.
Proof.
  induction s as [| x s IH].
  - exists 0%nat. split; reflexivity.
  - destruct IH as [n [Hs Hend]]. simpl.
    destruct (Py.rstrip_char c s) as [| y r] eqn:Hr.
    + simpl in Hs. destruct (Ascii.eqb x c) eqn:Hx.
      * apply Ascii.eqb_eq in Hx. subst x.
        exists (S n). simpl. rewrite <- Hs. split; reflexivity.
      * exists n. simpl. rewrite <- Hs, Hx. split; reflexivity.
    + exists n. split.
      * simpl. simpl in Hs. rewrite <- Hs. reflexivity.
      * exact Hend.
Qed.

Lemma rstrip_char_fixed (c : ascii) (s : string) :
  Spec.ends_with c s = false -> Py.rstrip_char c s = s.
Proof.
  induction s as [| x s IH]; [reflexivity |].
  simpl. destruct s as [| y s'].
  - simpl. intros ->. reflexivity.
  - intro H. rewrite (IH H). reflexivity.
Qed.

(** X5. The Custom provider strips every trailing slash of the base URL
    and nothing else: the URL it posts to is [u ++ "/chat/completions"]
    where the caller's base URL is [u] followed by slashes only and [u]
    itself does not end with a slash; building a provider from the stored
    base URL changes nothing. *)
Theorem custom_url_has_no_trailing_slashes (api_key : option string)
    (model base_url : string) (provider_kwargs : Options)
    (messages : list Message.t) (kwargs : Options) :
  let self := CustomProvider.__init__ api_key model base_url provider_kwargs in
  exists u n,
    base_url = (u ++ Spec.copies n "/")%string
    /\ Spec.ends_with "/" u = false
    /\ Request.url (CustomProvider.request self messages kwargs)
       = (u ++ "/chat/completions")%string
    /\ CustomProvider.__init__ api_key model (CustomProvider.base_url self)
         provider_kwargs
       = self.
Proof.
  cbv zeta. destruct (rstrip_char_spec "/" base_url) as [n [Hs Hend]].
  exists (Py.rstrip_char "/" base_url), n.
  split; [exact Hs | split; [exact Hend | split; [reflexivity |]]].
  unfold CustomProvider.__init__. simpl.
  rewrite (rstrip_char_fixed _ _ Hend). reflexivity.
Qed.

(** X6. A base URL made of slashes only passes the check of
    [LLMClient._create_provider], which refuses the empty text alone; the
    Custom provider it builds holds an empty base URL and posts to the
    bare path [/chat/completions]. *)
Theorem slashes_only_base_url_is_accepted (n : nat) (api_key : option string)
    (model : string) (max_tokens : Z) (temperature : Q)
    (files : Config.FileConfig.t) (messages : list Message.t)
    (kwargs : Options) :
  let config :=
    Config.Build
      (Config.LLMConfig.Build "custom" api_key model
         (Some (Spec.copies (S n) "/")) max_tokens temperature)
      files in
  exists self,
    LLMClient.__init__ config = Ok (LLMClient.Build config (Custom self))
    /\ CustomProvider.base_url self = ""
    /\ Request.url (CustomProvider.request self messages kwargs)
       = "/chat/completions".
Proof.
  cbv zeta. unfold LLMClient.__init__, LLMClient._create_provider. simpl.
  eexists. split; [reflexivity |].
  assert (H : Py.rstrip_char "/" (String "/" (Spec.copies n "/")) = "").
  { change (String "/" (Spec.copies n "/")) with (Spec.copies (S n) "/").
    generalize (S n). intro k. induction k as [| k IH]; [reflexivity |].
    simpl. simpl in IH. rewrite IH. reflexivity. }
  unfold CustomProvider.request, CustomProvider.__init__. simpl.
  simpl in H. rewrite H. split; reflexivity.
Qed.

(** *** What the OpenAI-style stream can yield *)

Lemma expected_fragments_cons (decode : string -> string + string)
    (loads : string -> Result json) (line : string) (rest : list string) :
  Spec.expected_fragments decode loads (line :: rest)
  = if Spec.is_terminator decode line then []
    else Spec.line_fragment decode loads line
         ++ Spec.expected_fragments decode loads rest.
Proof.
  unfold Spec.expected_fragments. cbn [Spec.before_terminator].
  destruct (Spec.is_terminator decode line); reflexivity.
Qed.

(** X7. For every decoder of bytes, every JSON decoder and every sequence
    of lines, whatever the lines hold and however the transport ends, the
    fragments the OpenAI-style stream yields are a prefix of the
    [choices[0].delta.content] values of the lines ahead of the
    terminator: it never yields anything else, never out of order and
    nothing from after the terminator.  When it finishes, it has yielded
    all of them.  When it raises, either the lines are used up, all
    fragments are yielded and the exception is the one the transport's
    iteration ended with, or the exception is the one of a line of the
    sequence: the [UnicodeDecodeError] of its bytes, what [json.loads]
    raised on its payload (no [JSONDecodeError]), or the [TypeError],
    [AttributeError] or [KeyError] of probing its payload. *)
Theorem openai_stream_yields_a_prefix (decode : string -> string + string)
    (loads : string -> Result json) (lines : list string)
    (iter_end : gen_end) :
  exists rest,
    Spec.expected_fragments decode loads lines
    = fst (OpenAIProvider.stream_lines decode loads lines iter_end) ++ rest
    /\ match snd (OpenAIProvider.stream_lines decode loads lines iter_end) with
       | Finished => rest = []
       | Raised e =>
           (iter_end = Raised e /\ rest = [])
           \/ (exists line,
                  In line lines /\ Spec.line_raises decode loads line e)
       end.
Proof.
  induction lines as [| line lines IH].
  - exists []. split; [reflexivity |]. simpl.
    destruct iter_end; [reflexivity | left; split; reflexivity].
  - destruct IH as [rest [Hexp Hend]].
    pose proof (openai_stream_line decode loads line) as Hline.
    rewrite expected_fragments_cons.
    destruct (Spec.is_terminator decode line).
    + destruct Hline as [_ Hline]. rewrite Hline.
      exists []. split; reflexivity.
    + destruct (Spec.line_fails decode loads line).
      * destruct Hline as [e [Hraises Hline]]. rewrite Hline.
        eexists. split; [reflexivity |]. right. exists line.
        split; [left; reflexivity | exact Hraises].
      * rewrite Hline. cbn [fst snd].
        exists rest. split; [rewrite Hexp; apply app_assoc |].
        destruct (snd (OpenAIProvider.stream_lines decode loads lines iter_end));
          [exact Hend |].
        destruct Hend as [Hend | [l [Hin Hl]]]; [left; exact Hend |].
        right. exists l. split; [right; exact Hin | exact Hl].
Qed.

(** *** Several files *)

Lemma process_single_file_path {W} (env : Env W) (self : AIAgent.t)
    (file_path : string) (user_prompt : option string) (w : W) :
  exists r w',
    AIAgent.process_single_file env self file_path user_prompt w = (Ok r, w')
    /\ ProcessingResult.file_path r = file_path.
Proof.
  unfold AIAgent.process_single_file, bind, try_except, now, ret.
  destruct (time_time env w) as [start_time w0].
  destruct (read_file env file_path w0) as [[[fc |] | e] w1].
  - destruct (LLMClient.process_file_content env (AIAgent.llm_client self)
                (FileContent.content fc) user_prompt w1) as [[resp | e] w2];
      destruct (time_time env w2) as [t w3]; eauto.
  - destruct (time_time env w1) as [t w2]; eauto.
  - destruct (time_time env w1) as [t w2]; eauto.
Qed.

(** X8. For every list of files, [process_files_with_prompt] returns, and
    its list has exactly one result per file, in the order of the files,
    each under the path it was asked for: whatever fails for one file, the
    files after it are still processed. *)
Theorem process_files_with_prompt_covers_every_file {W} (env : Env W)
    (self : AIAgent.t) (prompt : string) (files : list string) :
  forall w,
    exists results w',
      AIAgent.process_files_with_prompt env self files prompt w
      = (Ok results, w')
      /\ map ProcessingResult.file_path results = files.
Proof.
  induction files as [| f files IH]; intro w; simpl.
  - exists [], w. split; reflexivity.
  - unfold bind at 1.
    destruct (process_single_file_path env self f (Some prompt) w)
      as [r [w1 [Hr Hp]]].
    rewrite Hr. unfold bind at 1.
    destruct (IH w1) as [rs [w2 [Hrs Hps]]]. rewrite Hrs.
    exists (r :: rs), w2. split; [reflexivity |].
    simpl. rewrite Hp, Hps. reflexivity.
Qed.

(** *** The summary of a batch without failures *)

Lemma all_ints_snoc (seen : list number) (z : Z) :
  all_ints (seen ++ [NInt z]) = all_ints seen
  /\ int_sum (seen ++ [NInt z]) = (int_sum seen + z)%Z.
Proof.
  unfold all_ints, int_sum. induction seen as [| n seen [IHa IHs]]; simpl.
  - split; [reflexivity | lia].
  - rewrite IHa. split; [reflexivity |]. destruct n; [rewrite IHs; lia | exact IHs].
Qed.

Lemma sum_total_tokens_counted (rs : list ProcessingResult.t) :
  forall seen,
    all_ints seen = true ->
    forallb Spec.counted_success rs = true ->
    exists seen',
      AIAgent.sum_total_tokens seen rs = Ok seen'
      /\ all_ints seen' = true
      /\ int_sum seen' = (int_sum seen + Spec.total_of rs)%Z.
Proof.
  induction rs as [| r rs IH]; intros seen Hseen H.
  - exists seen. simpl. repeat split; [exact Hseen | lia].
  - cbn [forallb] in H. apply andb_prop in H. destruct H as [Hr Hrs].
    unfold Spec.counted_success in Hr. apply andb_prop in Hr.
    destruct Hr as [_ Hu].
    cbn [AIAgent.sum_total_tokens Spec.total_of fold_right].
    fold (Spec.total_of rs). unfold Spec.result_tokens.
    destruct (ProcessingResult.llm_response r) as [resp |]; [| discriminate].
    unfold Spec.usage_counts in Hu. unfold Spec.counted_tokens.
    assert (Hskip : exists seen',
               AIAgent.sum_total_tokens seen rs = Ok seen'
               /\ all_ints seen' = true
               /\ int_sum seen' = (int_sum seen + (0 + Spec.total_of rs))%Z).
    { destruct (IH seen Hseen Hrs) as [seen' [H1 [H2 H3]]].
      exists seen'. repeat split; [exact H1 | exact H2 | lia]. }
    assert (Hadd : forall z, exists seen',
               AIAgent.sum_total_tokens (seen ++ [NInt z]) rs = Ok seen'
               /\ all_ints seen' = true
               /\ int_sum seen' = (int_sum seen + (z + Spec.total_of rs))%Z).
    { intro z. destruct (all_ints_snoc seen z) as [Ha Hs].
      destruct (IH (seen ++ [NInt z])) as [seen' [H1 [H2 H3]]];
        [rewrite Ha; exact Hseen | exact Hrs |].
      exists seen'. repeat split; [exact H1 | exact H2 | lia]. }
    destruct (LLMResponse.usage resp) as [| | | | | | d]; try discriminate;
      [exact Hskip |].
    destruct d as [| kv d']; [exact Hskip |].
    cbn [py_truthy py_get rbind].
    destruct (Dict.lookup "total_tokens" (kv :: d')) as [v |].
    + destruct v; try discriminate. apply Hadd.
    + apply Hadd.
Qed.

Lemma counted_success_filter (rs : list ProcessingResult.t) :
  forallb Spec.counted_success rs = true ->
  filter ProcessingResult.success rs = rs
  /\ filter (fun r => negb (ProcessingResult.success r)) rs = [].
Proof.
  induction rs as [| r rs IH]; intro H; [split; reflexivity |].
  simpl in H. apply andb_prop in H. destruct H as [Hr Hrs].
  unfold Spec.counted_success in Hr. apply andb_prop in Hr.
  destruct Hr as [Hs _]. destruct (IH Hrs) as [H1 H2].
  simpl. rewrite Hs. simpl. rewrite H1, H2. split; reflexivity.
Qed.

Lemma results_to_dict_counted (rs : list ProcessingResult.t) :
  forallb Spec.counted_success rs = true ->
  exists dicts,
    rmap ProcessingResult.to_dict rs = Ok dicts
    /\ List.length dicts = List.length rs.
Proof.
  induction rs as [| r rs IH]; intro H; simpl.
  - exists []. split; reflexivity.
  - simpl in H. apply andb_prop in H. destruct H as [Hr Hrs].
    unfold Spec.counted_success in Hr. apply andb_prop in Hr.
    destruct Hr as [_ Hu].
    destruct (ProcessingResult.llm_response r) as [resp |] eqn:Hresp;
      [| discriminate].
    destruct (to_dict_with_response r resp Hresp) as [d Hd].
    destruct (IH Hrs) as [ds [Hds Hlen]].
    rewrite Hd, Hds. simpl. exists (d :: ds). split; [reflexivity |].
    simpl. rewrite Hlen. reflexivity.
Qed.

(** X9. When every result of a batch is a success holding a response whose
    usage is absent or a mapping with an integer (or no) [total_tokens],
    the summary is returned: [total_files] and [successful] are the number
    of results, [failed] is 0, [errors] is empty, [results] has one
    dictionary per result, [total_tokens] is the exact integer sum of the
    [total_tokens] entries (a response without one counts 0), the total
    time is what the interpreter's float [sum] gives for the processing
    times, in order, and the average is the float quotient of that total
    by the number of results; an empty batch has 0 for both. *)
Theorem summary_of_successes {W} (env : Env W)
    (rs : list ProcessingResult.t) :
  forallb Spec.counted_success rs = true ->
  let total :=
    match rs with
    | [] => 0%Q
    | _ => float_sum env (map NFloat (map ProcessingResult.processing_time rs))
    end in
  exists dicts,
    List.length dicts = List.length rs
    /\ AIAgent.summarize env rs
       = Ok (Summary.Build (List.length rs) (List.length rs) 0 total
               (match rs with
                | [] => 0%Q
                | _ => float_div env total (Z.of_nat (List.length rs))
                end)
               (JInt (Spec.total_of rs)) dicts []).
Proof.
  intros H total. unfold AIAgent.summarize.
  destruct (counted_success_filter rs H) as [Hs Hf]. rewrite Hs, Hf.
  destruct (sum_total_tokens_counted rs [] eq_refl H)
    as [seen [Hsum [Hints Htotal]]].
  rewrite Hsum. cbn [rbind]. unfold py_sum_value. rewrite Hints, Htotal.
  destruct (results_to_dict_counted rs H) as [dicts [Hd Hlen]].
  rewrite Hd. cbn [rbind]. exists dicts. split; [exact Hlen |].
  subst total. unfold py_sum_floats.
  destruct rs as [| r rs']; reflexivity.
Qed.

(** Two successes of one and two seconds: one with 12 tokens, one whose
    usage has no [total_tokens]. *)
Lemma summary_of_successes_witness :
  let env := Examples.static_env Examples.network_down Examples.network_down
               Examples.one_file [] in
  forallb Spec.counted_success Examples.two_successes = true
  /\ exists dicts,
      List.length dicts = 2%nat
      /\ AIAgent.summarize env Examples.two_successes
         = Ok (Summary.Build 2 2 0 3%Q (3 # 2)%Q (JInt 12) dicts []).
Proof.
  cbv zeta. split; [reflexivity |].
  exact (summary_of_successes
           (Examples.static_env Examples.network_down Examples.network_down
              Examples.one_file [])
           Examples.two_successes eq_refl).
Defined.

(** *** Constructing the agent *)

(** X10. [AIAgent.__init__] checks the API key before anything else: with
    an absent or empty key it raises
    [ValueError("LLM API key is required. ...")] whatever the provider
    name is, and with a key it succeeds or fails exactly as
    [LLMClient.__init__] does.  [LLMClient.__init__] alone does not look at
    the key.  The OpenAI-style and Custom providers it builds format the
    key into the header [Authorization], so that without a key the header
    is the text [Bearer None]; the Anthropic-style provider stores the key
    as it is under [x-api-key], so that without a key the value of that
    header is [None] itself. *)
Theorem agent_requires_api_key (config : Config.t) :
  let key := Config.LLMConfig.api_key (Config.llm config) in
  (Py.truthy_opt key = false ->
   AIAgent.__init__ config
   = Raise (Exn ValueError
              "LLM API key is required. Set LLM_API_KEY environment variable."))
  /\ (Py.truthy_opt key = true ->
      AIAgent.__init__ config
      = match LLMClient.__init__ config with
        | Ok client => Ok (AIAgent.Build config client)
        | Raise e => Raise e
        end)
  /\ (forall client,
         LLMClient.__init__ config = Ok client ->
         let headers := Spec.headers_of (LLMClient.provider client) in
         match LLMClient.provider client with
         | Anthropic _ => Spec.header "x-api-key" headers = Some key
         | _ =>
             Spec.header "Authorization" headers
             = Some (Some (match key with
                           | Some k => "Bearer " ++ k
                           | None => "Bearer None"
                           end)%string)
         end).
Proof.
  cbv zeta. unfold AIAgent.__init__, Config.validate_api_key.
  split; [| split].
  - intros ->. reflexivity.
  - intros ->. simpl. destruct (LLMClient.__init__ config); reflexivity.
  - intros client. unfold LLMClient.__init__, LLMClient._create_provider.
    destruct config as [[name key model url max_tokens temperature] files].
    simpl in *.
    destruct (String.eqb name "openai");
      [intro H; inversion H; destruct key; reflexivity |].
    destruct (String.eqb name "anthropic");
      [intro H; inversion H; reflexivity |].
    destruct (String.eqb name "custom"); [| discriminate].
    destruct url as [u |]; [| discriminate].
    destruct (Py.truthy u); simpl; [| discriminate].
    intro H; inversion H; destruct key; reflexivity.
Qed.

(** A configuration without key: the agent refuses it, also under a
    provider name that is not supported; the client takes it, and sends
    [Bearer None] as OpenAI-style and [None] as Anthropic-style. *)
Lemma agent_requires_api_key_witness :
  AIAgent.__init__ (Examples.keyless "foo")
  = Raise (Exn ValueError
             "LLM API key is required. Set LLM_API_KEY environment variable.")
  /\ (exists client,
         LLMClient.__init__ (Examples.keyless "openai") = Ok client
         /\ Spec.header "Authorization"
              (Spec.headers_of (LLMClient.provider client))
            = Some (Some "Bearer None"))
  /\ (exists client,
         LLMClient.__init__ (Examples.keyless "anthropic") = Ok client
         /\ Spec.header "x-api-key"
              (Spec.headers_of (LLMClient.provider client))
            = Some None).
Proof.
  split; [| split].
  - apply (proj1 (agent_requires_api_key (Examples.keyless "foo"))).
    reflexivity.
  - eexists. split; [reflexivity |].
    exact (proj2 (proj2 (agent_requires_api_key (Examples.keyless "openai")))
             _ eq_refl).
  - eexists. split; [reflexivity |].
    exact (proj2 (proj2 (agent_requires_api_key (Examples.keyless "anthropic")))
             _ eq_refl).
Defined.

(** *** Counting the files *)

Lemma summary_loop_bounds {W} (env : Env W) (files : list string) :
  forall total_size successful_reads w counts w',
    FileReader.summary_loop env files total_size successful_reads w
    = (Ok counts, w') ->
    (successful_reads <= snd counts <= successful_reads + List.length files)%nat.
Proof.
  induction files as [| f files IH];
    intros total_size successful_reads w counts w'; simpl.
  - unfold ret. intro H; inversion H; subst. simpl. lia.
  - destruct (stat_size env f w) as [[size | e] w1].
    + destruct (read_file env f w1) as [[[c |] | e] w2].
      * intro H. apply IH in H. lia.
      * intro H. apply IH in H. lia.
      * destruct (isinstance e OSError); [| discriminate].
        intro H. apply IH in H. lia.
    + destruct (isinstance e OSError); [| discriminate].
      intro H. apply IH in H. lia.
Qed.

(** X11. When [get_files_summary] returns, [total_files] is the number of
    files the scan gave, with the files that cannot be read counted in,
    and [successful_reads] is at most [total_files]. *)
Theorem files_summary_counts {W} (env : Env W) (w w' : W)
    (summary : FileReader.files_summary) :
  FileReader.get_files_summary env w = (Ok summary, w') ->
  exists files w1,
    scan_directory env w = (Ok files, w1)
    /\ FileReader.total_files summary = List.length files
    /\ (FileReader.successful_reads summary
        <= FileReader.total_files summary)%nat.
Proof.
  unfold FileReader.get_files_summary, bind, ret.
  destruct (scan_directory env w) as [[files | e] w1]; [| discriminate].
  destruct (FileReader.summary_loop env files 0 0 w1)
    as [[counts | e] w2] eqn:Hloop; [| discriminate].
  intro H; inversion H; subst. simpl.
  exists files, w1. split; [reflexivity | split; [reflexivity |]].
  apply summary_loop_bounds in Hloop. lia.
Qed.

(** A scan of two paths of which one can be read. *)
Lemma files_summary_counts_witness :
  let env := Examples.static_env Examples.network_down Examples.network_down
               Examples.one_file ["input/note.txt"; "input/gone.txt"] in
  exists summary,
    FileReader.get_files_summary env 0%nat = (Ok summary, 0%nat)
    /\ FileReader.total_files summary = 2%nat
    /\ FileReader.successful_reads summary = 1%nat
    /\ (FileReader.successful_reads summary
        <= FileReader.total_files summary)%nat.
Proof.
  cbv zeta. eexists. split; [reflexivity |].
  split; [reflexivity | split; [reflexivity |]].
  destruct (files_summary_counts
              (Examples.static_env Examples.network_down Examples.network_down
                 Examples.one_file ["input/note.txt"; "input/gone.txt"])
              0%nat 0%nat _ eq_refl) as [files [w1 [_ [_ H]]]].
  exact H.
Defined.

(** *** A batch on a file system that does not change *)

Lemma process_single_file_of_readable {W} (env : Env W)
    (fs : string -> option FileContent.t) (self : AIAgent.t)
    (p : string) (user_prompt : option string) (c : FileContent.t) (w : W) :
  Spec.reads_as env fs ->
  fs p = Some c ->
  exists r w',
    AIAgent.process_single_file env self p user_prompt w = (Ok r, w')
    /\ ProcessingResult.file_path r = p
    /\ ProcessingResult.error_message r <> Some "Failed to read file".
Proof.
  intros [Hread _] Hp.
  unfold AIAgent.process_single_file, bind, try_except, now, ret.
  destruct (time_time env w) as [start_time w0].
  rewrite Hread, Hp.
  destruct (LLMClient.process_file_content env (AIAgent.llm_client self)
              (FileContent.content c) user_prompt w0) as [[resp | e] w2];
    destruct (time_time env w2) as [t w3];
    eexists; eexists; (split; [reflexivity |]); simpl;
    (split; [reflexivity | discriminate]).
Qed.

Lemma process_each_of_readable {W} (env : Env W)
    (fs : string -> option FileContent.t) (self : AIAgent.t)
    (user_prompt : option string) (files : list string) :
  Spec.reads_as env fs ->
  forall w,
    exists rs w',
      AIAgent.process_each env self files user_prompt w = (Ok rs, w')
      /\ map ProcessingResult.file_path rs = filter (Spec.readable fs) files
      /\ Forall (fun r => ProcessingResult.error_message r
                          <> Some "Failed to read file") rs.
Proof.
  intro Henv. pose proof Henv as [Hread Hpath].
  induction files as [| f files IH]; intro w; simpl.
  - exists [], w. repeat split; constructor.
  - unfold bind at 1. rewrite Hread. unfold Spec.readable at 1.
    destruct (fs f) as [c |] eqn:Hf.
    + rewrite (Hpath f c Hf).
      destruct (process_single_file_of_readable env fs self f user_prompt c w
                  Henv Hf) as [r [w1 [Hr [Hp Hm]]]].
      unfold bind at 1. rewrite Hr. unfold bind at 1.
      destruct (IH w1) as [rs [w2 [Hrs [Hps Hms]]]]. rewrite Hrs.
      exists (r :: rs), w2. split; [reflexivity |].
      split; [simpl; rewrite Hp, Hps; reflexivity | constructor; assumption].
    + apply IH.
Qed.

(** X12. On a file system that does not change under the agent,
    [process_all_files] returns one result per scanned file that can be
    read, in scan order, and none for a file that cannot: such a file is
    passed over by [read_all_files] before [process_single_file] sees it,
    so it is not in [results], is not counted as failed, and no result of
    the batch carries the message ["Failed to read file"]. *)
Theorem process_all_files_skips_unreadable {W} (env : Env W)
    (fs : string -> option FileContent.t) (self : AIAgent.t)
    (user_prompt : option string) (w w1 w2 : W)
    (summary : FileReader.files_summary) (files : list string) :
  Spec.reads_as env fs ->
  FileReader.get_files_summary env w = (Ok summary, w1) ->
  scan_directory env w1 = (Ok files, w2) ->
  exists rs w',
    AIAgent.process_all_files env self user_prompt w = (Ok rs, w')
    /\ map ProcessingResult.file_path rs = filter (Spec.readable fs) files
    /\ Forall (fun r => ProcessingResult.error_message r
                        <> Some "Failed to read file") rs.
Proof.
  intros Henv Hsum Hscan.
  unfold AIAgent.process_all_files, bind. rewrite Hsum, Hscan.
  apply (process_each_of_readable env fs self user_prompt files Henv).
Qed.

(** A scan of the note and of a path that cannot be read. *)
Lemma process_all_files_skips_unreadable_witness :
  let env := Examples.static_env (Examples.answers (Examples.chat_body "ok"))
               Examples.network_down Examples.one_file
               ["input/gone.txt"; "input/note.txt"] in
  Spec.reads_as env Examples.one_file_table
  /\ exists rs w',
      AIAgent.process_all_files env Examples.openai_agent None 0%nat
      = (Ok rs, w')
      /\ map ProcessingResult.file_path rs = ["input/note.txt"].
Proof.
  cbv zeta.
  assert (Henv : Spec.reads_as
                   (Examples.static_env
                      (Examples.answers (Examples.chat_body "ok"))
                      Examples.network_down Examples.one_file
                      ["input/gone.txt"; "input/note.txt"])
                   Examples.one_file_table).
  { split.
    - intros p w. simpl. unfold Examples.one_file, Examples.one_file_table.
      destruct (String.eqb p "input/note.txt"); reflexivity.
    - intros p c. unfold Examples.one_file_table.
      destruct (String.eqb p "input/note.txt") eqn:Hp; [| discriminate].
      intro H; inversion H; subst. apply String.eqb_eq in Hp. subst.
      reflexivity. }
  split; [exact Henv |].
  destruct (process_all_files_skips_unreadable _ _ Examples.openai_agent None
              0%nat 0%nat 0%nat _ _ Henv eq_refl eq_refl)
    as [rs [w' [Hall [Hpaths _]]]].
  exists rs, w'. split; [exact Hall | exact Hpaths].
Defined.

(* ================================================================== *)
(** ** Properties of the file reader *)

Lemma dotted_starts_with_dot (ext : string) :
  Py.startswith "." (FileReaderImpl.dotted ext) = true.
Proof.
  unfold FileReaderImpl.dotted, Py.startswith.
  destruct (String.prefix "." ext) eqn:H; [exact H |].
  simpl. destruct ext; reflexivity.
Qed.

Lemma dotted_fixed (ext : string) :
  Py.startswith "." ext = true -> FileReaderImpl.dotted ext = ext.
Proof.
  unfold FileReaderImpl.dotted. intros ->. reflexivity.
Qed.

(** X13. After [FileReader.__init__] every extension of the reader starts
    with a dot: an extension given without one gets it, one given with it
    is kept as it is (its case too); no list, or an empty list, gives
    [.txt] and [.md]; and building a reader from a reader's own extensions
    changes nothing. *)
Theorem reader_extensions_are_dotted (input_directory : string)
    (file_extensions : option (list string)) (recursive : bool)
    (max_file_size : Z) (encoding : string) :
  let self := FileReaderImpl.__init__ input_directory file_extensions
                recursive max_file_size encoding in
  Forall (fun ext => Py.startswith "." ext = true)
         (FileReaderImpl.file_extensions self)
  /\ (file_extensions = None \/ file_extensions = Some [] ->
      FileReaderImpl.file_extensions self = [".txt"; ".md"])
  /\ (forall ext rest,
         file_extensions = Some (ext :: rest) ->
         FileReaderImpl.file_extensions self
         = map (fun e => if Py.startswith "." e then e else ("." ++ e)%string)
               (ext :: rest))
  /\ FileReaderImpl.__init__ input_directory
       (Some (FileReaderImpl.file_extensions self)) recursive max_file_size
       encoding
     = self.
Proof.
  cbv zeta.
  assert (Hall : forall l, Forall (fun ext => Py.startswith "." ext = true)
                             (map FileReaderImpl.dotted l)).
  { induction l; simpl; constructor; auto using dotted_starts_with_dot. }
  assert (Hidem : forall l, map FileReaderImpl.dotted
                              (map FileReaderImpl.dotted l)
                            = map FileReaderImpl.dotted l).
  { induction l as [| e l IH]; simpl; [reflexivity |].
    rewrite IH, (dotted_fixed _ (dotted_starts_with_dot e)). reflexivity. }
  split; [apply Hall | split; [| split]].
  - intros [-> | ->]; reflexivity.
  - intros ext rest ->. reflexivity.
  - unfold FileReaderImpl.__init__.
    destruct file_extensions as [[| e l] |]; simpl; try reflexivity.
    rewrite Hidem, (dotted_fixed _ (dotted_starts_with_dot e)). reflexivity.
Qed.

(** The extensions [txt] and [.md]. *)
Lemma reader_extensions_are_dotted_witness :
  FileReaderImpl.file_extensions
    (FileReaderImpl.__init__ "input" (Some ["txt"; ".md"; "Rst"]) true 1024
       "utf-8")
  = [".txt"; ".md"; ".Rst"].
Proof.
  rewrite (proj1 (proj2 (proj2 (reader_extensions_are_dotted "input"
                                  (Some ["txt"; ".md"; "Rst"]) true 1024
                                  "utf-8")))
             "txt" [".md"; "Rst"] eq_refl).
  reflexivity.
Defined.

(** *** Reading one file *)

Lemma read_fallback_result {W} (fs : FileSystem.t W) (file_path : string)
    (file_size : Z) (encodings : list string) :
  forall w c w',
    FileReaderImpl.read_fallback fs file_path file_size encodings w
    = (Ok (Some c), w') ->
    FileContent.file_path c = file_path
    /\ FileContent.file_size c = file_size
    /\ In (FileContent.encoding c) encodings.
Proof.
  induction encodings as [| enc rest IH]; intros w c w'; simpl.
  - unfold ret. discriminate.
  - destruct (FileSystem.open_read fs file_path enc w) as [[content | e] w1].
    + intro H; inversion H; subst. simpl. auto.
    + destruct (isinstance e UnicodeDecodeError); [| discriminate].
      intro H. apply IH in H. tauto.
Qed.

Lemma read_fallback_raises {W} (fs : FileSystem.t W) (file_path : string)
    (file_size : Z) (encodings : list string) :
  forall w e w',
    FileReaderImpl.read_fallback fs file_path file_size encodings w
    = (Raise e, w') ->
    isinstance e UnicodeDecodeError = false
    /\ exists encoding w1,
        In encoding encodings
        /\ FileSystem.open_read fs file_path encoding w1 = (Raise e, w').
Proof.
  induction encodings as [| enc rest IH]; intros w e w'; simpl.
  - unfold ret. discriminate.
  - destruct (FileSystem.open_read fs file_path enc w)
      as [[content | e0] w1] eqn:Hopen; [discriminate |].
    destruct (isinstance e0 UnicodeDecodeError) eqn:Hdec.
    + intro H. apply IH in H. destruct H as [He [enc' [w2 [Hin Ho]]]].
      split; [exact He |]. exists enc', w2. auto.
    + intro H; inversion H; subst. split; [exact Hdec |].
      exists enc, w. auto.
Qed.

Lemma read_file_oversize {W} (fs : FileSystem.t W) (self : FileReaderImpl.t)
    (file_path : string) (w w1 : W) (size : Z) :
  FileSystem.stat_size fs file_path w = (inl size, w1) ->
  (size > FileReaderImpl.max_file_size self)%Z ->
  FileReaderImpl.read_file fs self file_path w = (Ok None, w1).
Proof.
  unfold FileReaderImpl.read_file. intros -> Hsize.
  destruct (size >? FileReaderImpl.max_file_size self)%Z eqn:Hgt;
    [reflexivity |].
  rewrite Z.gtb_ltb in Hgt. apply Z.ltb_ge in Hgt. lia.
Qed.

(** X14. [read_file] gives [None] without opening the file when [stat]
    fails or the size is over [max_file_size] (the world is as [stat] left
    it); and every [FileContent] it returns carries the path it was asked
    for, the size [stat] gave, which is within the limit, and as encoding
    the reader's own or one of latin-1, cp1252, iso-8859-1. *)
Theorem read_file_checks_size_first {W} (fs : FileSystem.t W)
    (self : FileReaderImpl.t) (file_path : string) (w : W) :
  (forall text w1,
      FileSystem.stat_size fs file_path w = (inr text, w1) ->
      FileReaderImpl.read_file fs self file_path w = (Ok None, w1))
  /\ (forall size w1,
         FileSystem.stat_size fs file_path w = (inl size, w1) ->
         (size > FileReaderImpl.max_file_size self)%Z ->
         FileReaderImpl.read_file fs self file_path w = (Ok None, w1))
  /\ (forall c w',
         FileReaderImpl.read_file fs self file_path w = (Ok (Some c), w') ->
         FileContent.file_path c = file_path
         /\ (FileContent.file_size c <= FileReaderImpl.max_file_size self)%Z
         /\ (exists w1, FileSystem.stat_size fs file_path w
                        = (inl (FileContent.file_size c), w1))
         /\ In (FileContent.encoding c)
               (FileReaderImpl.encoding self
                :: FileReaderImpl.fallback_encodings)).
Proof.
  unfold FileReaderImpl.read_file.
  split; [| split].
  - intros text w1 ->. reflexivity.
  - intros size w1 -> Hsize.
    destruct (size >? FileReaderImpl.max_file_size self)%Z eqn:Hgt;
      [reflexivity |].
    rewrite Z.gtb_ltb in Hgt. apply Z.ltb_ge in Hgt. lia.
  - intros c w'.
    destruct (FileSystem.stat_size fs file_path w) as [[size | text] w1];
      [| discriminate].
    destruct (size >? FileReaderImpl.max_file_size self)%Z eqn:Hgt;
      [discriminate |].
    rewrite Z.gtb_ltb in Hgt. apply Z.ltb_ge in Hgt.
    destruct (FileSystem.open_read fs file_path (FileReaderImpl.encoding self)
                w1) as [[content | e] w2].
    + intro H; inversion H; subst. simpl.
      split; [reflexivity | split; [exact Hgt | split; [eauto | auto]]].
    + destruct (isinstance e UnicodeDecodeError); [| discriminate].
      intro H. apply read_fallback_result in H.
      destruct H as [Hp [Hs Hin]]. subst size.
      split; [exact Hp | split; [exact Hgt | split; [eauto | right; exact Hin]]].
Qed.

(** The file of 5000 bytes and the Latin-1 letter, under the limit of
    1024 bytes. *)
Lemma read_file_checks_size_first_witness :
  let fs := Examples.disk_fs "input" Examples.sample_disk in
  FileReaderImpl.read_file fs Examples.small_reader "input/big.txt" tt
  = (Ok None, tt)
  /\ exists c,
      FileReaderImpl.read_file fs Examples.small_reader "input/letter.txt" tt
      = (Ok (Some c), tt)
      /\ FileContent.file_path c = "input/letter.txt"
      /\ FileContent.encoding c = "latin-1".
Proof.
  cbv zeta. split.
  - apply (proj1 (proj2 (read_file_checks_size_first
                           (Examples.disk_fs "input" Examples.sample_disk)
                           Examples.small_reader "input/big.txt" tt))
             5000%Z tt); [reflexivity | reflexivity].
  - eexists. split; [reflexivity |].
    split; [| reflexivity].
    apply (proj2 (proj2 (read_file_checks_size_first
                           (Examples.disk_fs "input" Examples.sample_disk)
                           Examples.small_reader "input/letter.txt" tt))
             _ tt eq_refl).
Defined.

(** X15. [read_file] raises only from its encoding fallback: when it
    raises [e], the first read failed with a [UnicodeDecodeError] and a
    read under one of the fallback encodings raised [e], which is no
    [UnicodeDecodeError].  A first read that fails in any other way (a
    missing file, a refused permission) gives [None], and so does a file
    that no encoding decodes. *)
Theorem read_file_raises_only_from_fallback {W} (fs : FileSystem.t W)
    (self : FileReaderImpl.t) (file_path : string) (w : W) :
  (forall e w',
      FileReaderImpl.read_file fs self file_path w = (Raise e, w') ->
      isinstance e UnicodeDecodeError = false
      /\ (exists size w1 e0 w2,
             FileSystem.stat_size fs file_path w = (inl size, w1)
             /\ FileSystem.open_read fs file_path
                  (FileReaderImpl.encoding self) w1 = (Raise e0, w2)
             /\ isinstance e0 UnicodeDecodeError = true)
      /\ exists encoding w3,
          In encoding FileReaderImpl.fallback_encodings
          /\ FileSystem.open_read fs file_path encoding w3 = (Raise e, w'))
  /\ (forall size w1 e w2,
         FileSystem.stat_size fs file_path w = (inl size, w1) ->
         (size <= FileReaderImpl.max_file_size self)%Z ->
         FileSystem.open_read fs file_path (FileReaderImpl.encoding self) w1
         = (Raise e, w2) ->
         isinstance e UnicodeDecodeError = false ->
         FileReaderImpl.read_file fs self file_path w = (Ok None, w2))
  /\ ((forall encoding w1,
          exists e w2,
            FileSystem.open_read fs file_path encoding w1 = (Raise e, w2)
            /\ isinstance e UnicodeDecodeError = true) ->
      exists w', FileReaderImpl.read_file fs self file_path w = (Ok None, w')).
Proof.
  unfold FileReaderImpl.read_file.
  split; [| split].
  - intros e w'.
    destruct (FileSystem.stat_size fs file_path w) as [[size | text] w1];
      [| discriminate].
    destruct (size >? FileReaderImpl.max_file_size self)%Z; [discriminate |].
    destruct (FileSystem.open_read fs file_path (FileReaderImpl.encoding self)
                w1) as [[content | e0] w2] eqn:Hopen; [discriminate |].
    destruct (isinstance e0 UnicodeDecodeError) eqn:Hdec; [| discriminate].
    intro H. apply read_fallback_raises in H. destruct H as [He Hin].
    split; [exact He | split; [| exact Hin]].
    exists size, w1, e0, w2. auto.
  - intros size w1 e w2 -> Hsize -> ->.
    destruct (size >? FileReaderImpl.max_file_size self)%Z eqn:Hgt;
      [| reflexivity].
    rewrite Z.gtb_ltb in Hgt. apply Z.ltb_lt in Hgt. lia.
  - intro Hall.
    destruct (FileSystem.stat_size fs file_path w) as [[size | text] w1];
      [| eauto].
    destruct (size >? FileReaderImpl.max_file_size self)%Z; [eauto |].
    destruct (Hall (FileReaderImpl.encoding self) w1) as [e [w2 [-> ->]]].
    unfold FileReaderImpl.fallback_encodings. simpl.
    destruct (Hall "latin-1" w2) as [e1 [w3 [-> ->]]].
    destruct (Hall "cp1252" w3) as [e2 [w4 [-> ->]]].
    destruct (Hall "iso-8859-1" w4) as [e3 [w5 [-> ->]]].
    unfold ret. eauto.
Qed.

(** A file that may not be opened. *)
Lemma read_file_raises_only_from_fallback_witness :
  FileReaderImpl.read_file Examples.locked_fs Examples.small_reader
    "input/secret.txt" tt
  = (Ok None, tt).
Proof.
  apply (proj1 (proj2 (read_file_raises_only_from_fallback Examples.locked_fs
                         Examples.small_reader "input/secret.txt" tt))
           10%Z tt (Exn OSError "Permission denied") tt);
    [reflexivity | discriminate | reflexivity | reflexivity].
Defined.

(** *** Scanning the directory *)

Lemma scan_loop_selects {W} (fs : FileSystem.t W) (self : FileReaderImpl.t)
    (candidates : list string) :
  forall acc w files w',
    FileReaderImpl.scan_loop fs self candidates acc w = (files, w') ->
    exists added,
      files = acc ++ added
      /\ incl added candidates
      /\ Forall (fun p => FileReaderImpl.extension_matches fs self p = true)
                added.
Proof.
  induction candidates as [| p rest IH]; intros acc w files w'; simpl.
  - intro H; inversion H; subst. exists []. rewrite app_nil_r.
    repeat split; [apply incl_refl | constructor].
  - destruct (FileSystem.is_file fs p w) as [isf w1].
    assert (Hskip : forall w0,
               FileReaderImpl.scan_loop fs self rest acc w0 = (files, w') ->
               exists added,
                 files = acc ++ added /\ incl added (p :: rest)
                 /\ Forall (fun q =>
                      FileReaderImpl.extension_matches fs self q = true) added).
    { intros w0 H. apply IH in H. destruct H as [added [Hf [Hin Hall]]].
      exists added. repeat split; auto. apply incl_tl. exact Hin. }
    destruct (isf && FileReaderImpl.extension_matches fs self p) eqn:Hsel;
      [| apply Hskip].
    apply andb_prop in Hsel. destruct Hsel as [_ Hext].
    destruct (FileSystem.stat_size fs p w1) as [[size | text] w2];
      [| apply Hskip].
    destruct (size <=? FileReaderImpl.max_file_size self)%Z; [| apply Hskip].
    intro H. apply IH in H. destruct H as [added [Hf [Hin Hall]]].
    exists (p :: added). split; [| split].
    + rewrite Hf, <- app_assoc. reflexivity.
    + intros q [<- | Hq]; [left; reflexivity | right; apply Hin; exact Hq].
    + constructor; assumption.
Qed.

(** X16. [scan_directory] gives the empty list, without listing anything,
    when the input directory does not exist or is not a directory;
    otherwise every path it gives is one of the paths [glob] listed (under
    the pattern of all descendants when the reader is recursive, of the
    children when not) and has a suffix that, in lower case, is one of the
    reader's extensions. *)
Theorem scan_directory_selects_by_extension {W} (fs : FileSystem.t W)
    (self : FileReaderImpl.t) (w : W) :
  let dir := FileReaderImpl.input_directory self in
  (forall w1,
      FileSystem.path_exists fs dir w = (false, w1) ->
      FileReaderImpl.scan_directory fs self w = ([], w1))
  /\ (forall w1 w2,
         FileSystem.path_exists fs dir w = (true, w1) ->
         FileSystem.is_dir fs dir w1 = (false, w2) ->
         FileReaderImpl.scan_directory fs self w = ([], w2))
  /\ (forall w1 w2 candidates w3 files w',
         FileSystem.path_exists fs dir w = (true, w1) ->
         FileSystem.is_dir fs dir w1 = (true, w2) ->
         FileSystem.glob fs dir (Spec.glob_pattern self) w2
         = (candidates, w3) ->
         FileReaderImpl.scan_directory fs self w = (files, w') ->
         incl files candidates
         /\ Forall (fun p =>
              In (PyCase.lower (FileSystem.suffix fs p))
                 (FileReaderImpl.file_extensions self)) files).
Proof.
  cbv zeta. unfold FileReaderImpl.scan_directory.
  split; [| split].
  - intros w1 ->. reflexivity.
  - intros w1 w2 -> ->. reflexivity.
  - intros w1 w2 candidates w3 files w' -> ->. simpl.
    unfold Spec.glob_pattern. intros -> H.
    apply scan_loop_selects in H. destruct H as [added [-> [Hin Hall]]].
    simpl. split; [exact Hin |].
    rewrite Forall_forall in *. intros p Hp. specialize (Hall p Hp).
    unfold FileReaderImpl.extension_matches in Hall.
    apply existsb_exists in Hall. destruct Hall as [ext [Hext Heq]].
    apply String.eqb_eq in Heq. rewrite Heq. exact Hext.
Qed.

(** The sample disk under [input]; and a reader of a directory that is
    not there. *)
Lemma scan_directory_selects_by_extension_witness :
  let fs := Examples.disk_fs "input" Examples.sample_disk in
  FileReaderImpl.scan_directory fs
    (FileReaderImpl.__init__ "elsewhere" None true 1024 "utf-8") tt
  = ([], tt)
  /\ Forall (fun p =>
       In (PyCase.lower (FileSystem.suffix fs p)) [".txt"; ".md"])
       (fst (FileReaderImpl.scan_directory fs Examples.small_reader tt)).
Proof.
  cbv zeta. split.
  - apply (proj1 (scan_directory_selects_by_extension
                    (Examples.disk_fs "input" Examples.sample_disk)
                    (FileReaderImpl.__init__ "elsewhere" None true 1024 "utf-8")
                    tt)).
    reflexivity.
  - apply (proj2 (proj2 (scan_directory_selects_by_extension
                           (Examples.disk_fs "input" Examples.sample_disk)
                           Examples.small_reader tt))
             tt tt (map Examples.df_path Examples.sample_disk) tt _ tt);
      reflexivity.
Defined.

Lemma lower_char_idempotent (c : ascii) :
  PyCase.lower_char (PyCase.lower_char c) = PyCase.lower_char c.
Proof.
  destruct c as [[] [] [] [] [] [] [] []]; reflexivity.
Qed.

Lemma lower_idempotent (s : string) :
  PyCase.lower (PyCase.lower s) = PyCase.lower s.
Proof.
  induction s as [| c s IH]; simpl; [reflexivity |].
  rewrite lower_char_idempotent, IH. reflexivity.
Qed.

(** X17. The scan compares the suffix in lower case with the reader's
    extensions as they were given, so an extension that holds a capital
    letter selects no file: a reader whose extensions all differ from their
    lower-case form finds nothing, on every file system. *)
Theorem capital_extensions_select_nothing {W} (fs : FileSystem.t W)
    (self : FileReaderImpl.t) (w : W) :
  Forall (fun ext => PyCase.lower ext <> ext)
         (FileReaderImpl.file_extensions self) ->
  fst (FileReaderImpl.scan_directory fs self w) = [].
Proof.
  intro Hcap. unfold FileReaderImpl.scan_directory.
  destruct (FileSystem.path_exists fs (FileReaderImpl.input_directory self) w)
    as [[] w1]; simpl; [| reflexivity].
  destruct (FileSystem.is_dir fs (FileReaderImpl.input_directory self) w1)
    as [[] w2]; simpl; [| reflexivity].
  destruct (FileSystem.glob fs (FileReaderImpl.input_directory self)
              (if FileReaderImpl.recursive self then "**/*" else "*") w2)
    as [candidates w3].
  destruct (FileReaderImpl.scan_loop fs self candidates [] w3)
    as [files w'] eqn:Hloop. simpl.
  apply scan_loop_selects in Hloop. destruct Hloop as [added [-> [_ Hall]]].
  simpl. destruct added as [| p added']; [reflexivity |].
  exfalso. inversion Hall as [| ? ? Hp _]; subst.
  unfold FileReaderImpl.extension_matches in Hp.
  apply existsb_exists in Hp. destruct Hp as [ext [Hin Heq]].
  apply String.eqb_eq in Heq.
  rewrite Forall_forall in Hcap. apply (Hcap ext Hin).
  rewrite <- Heq. apply lower_idempotent.
Qed.

(** A reader asking for [.TXT], on a disk that holds [REPORT.MD] and
    three [.txt] files. *)
Lemma capital_extensions_select_nothing_witness :
  FileReaderImpl.file_extensions Examples.capital_reader = [".TXT"]
  /\ fst (FileReaderImpl.scan_directory
            (Examples.disk_fs "input" Examples.sample_disk)
            Examples.capital_reader tt)
     = [].
Proof.
  split; [reflexivity |].
  apply (capital_extensions_select_nothing
           (Examples.disk_fs "input" Examples.sample_disk)
           Examples.capital_reader tt).
  repeat constructor. discriminate.
Defined.

Lemma scan_loop_unchanging {W} (fs : FileSystem.t W) (self : FileReaderImpl.t)
    (files : string -> bool) (sizes : string -> Z + string)
    (candidates : list string) :
  Spec.unchanging fs files sizes ->
  forall acc w,
    FileReaderImpl.scan_loop fs self candidates acc w
    = (acc ++ filter (Spec.selected fs self files sizes) candidates, w).
Proof.
  intros [Hfile Hstat].
  induction candidates as [| p rest IH]; intros acc w; simpl.
  - rewrite app_nil_r. reflexivity.
  - rewrite Hfile. unfold Spec.selected at 1, Spec.within_limit.
    destruct (files p && FileReaderImpl.extension_matches fs self p); simpl;
      [| apply IH].
    rewrite Hstat. destruct (sizes p) as [size | text]; [| apply IH].
    destruct (size <=? FileReaderImpl.max_file_size self)%Z; [| apply IH].
    rewrite IH, <- app_assoc. reflexivity.
Qed.

(** X18. On a file system whose files and sizes do not change, the scan of
    an existing directory gives exactly the paths [glob] listed that are
    files, have a matching extension and have a size within
    [max_file_size], in the order of [glob]: a file over the limit is not
    in the result, and a file at the limit is. *)
Theorem scan_directory_excludes_oversize {W} (fs : FileSystem.t W)
    (self : FileReaderImpl.t) (files : string -> bool)
    (sizes : string -> Z + string) (w w1 w2 w3 : W)
    (candidates : list string) :
  let dir := FileReaderImpl.input_directory self in
  Spec.unchanging fs files sizes ->
  FileSystem.path_exists fs dir w = (true, w1) ->
  FileSystem.is_dir fs dir w1 = (true, w2) ->
  FileSystem.glob fs dir (Spec.glob_pattern self) w2 = (candidates, w3) ->
  FileReaderImpl.scan_directory fs self w
  = (filter (Spec.selected fs self files sizes) candidates, w3)
  /\ (forall p,
         In p (fst (FileReaderImpl.scan_directory fs self w)) ->
         exists size,
           sizes p = inl size
           /\ (size <= FileReaderImpl.max_file_size self)%Z)
  /\ (forall p size,
         sizes p = inl size ->
         (size > FileReaderImpl.max_file_size self)%Z ->
         ~ In p (fst (FileReaderImpl.scan_directory fs self w))).
Proof.
  intros dir Hfs Hex Hdir Hglob.
  assert (Hscan : FileReaderImpl.scan_directory fs self w
                  = (filter (Spec.selected fs self files sizes) candidates, w3)).
  { unfold FileReaderImpl.scan_directory. fold dir. rewrite Hex. simpl.
    rewrite Hdir. simpl. unfold Spec.glob_pattern in Hglob. rewrite Hglob.
    rewrite (scan_loop_unchanging fs self files sizes candidates Hfs).
    reflexivity. }
  assert (Hlimit : forall p,
             In p (filter (Spec.selected fs self files sizes) candidates) ->
             exists size, sizes p = inl size
                          /\ (size <= FileReaderImpl.max_file_size self)%Z).
  { intros p Hp. apply filter_In in Hp. destruct Hp as [_ Hsel].
    unfold Spec.selected, Spec.within_limit in Hsel.
    apply andb_prop in Hsel. destruct Hsel as [_ Hsize].
    destruct (sizes p) as [size | text]; [| discriminate].
    exists size. split; [reflexivity | apply Z.leb_le; exact Hsize]. }
  rewrite Hscan. simpl. split; [reflexivity | split; [exact Hlimit |]].
  intros p size Hsize Hover Hin.
  destruct (Hlimit p Hin) as [size' [Hs' Hle]].
  rewrite Hsize in Hs'. inversion Hs'; subst. lia.
Qed.

(** The sample disk: the file of 5000 bytes and the picture are left out,
    [REPORT.MD] is taken for its lower-case suffix. *)
Lemma scan_directory_excludes_oversize_witness :
  let fs := Examples.disk_fs "input" Examples.sample_disk in
  Spec.unchanging fs (Examples.disk_files Examples.sample_disk)
                  (Examples.disk_sizes Examples.sample_disk)
  /\ FileReaderImpl.scan_directory fs Examples.small_reader tt
     = (["input/note.txt"; "input/REPORT.MD"; "input/letter.txt"], tt).
Proof.
  cbv zeta.
  assert (Hfs : Spec.unchanging (Examples.disk_fs "input" Examples.sample_disk)
                  (Examples.disk_files Examples.sample_disk)
                  (Examples.disk_sizes Examples.sample_disk)).
  { split; intros p w; reflexivity. }
  split; [exact Hfs |].
  rewrite (proj1 (scan_directory_excludes_oversize
                    (Examples.disk_fs "input" Examples.sample_disk)
                    Examples.small_reader _ _ tt tt tt tt
                    (map Examples.df_path Examples.sample_disk)
                    Hfs eq_refl eq_refl eq_refl)).
  reflexivity.
Defined.

(** *** The agent on the file reader *)

(** X19. With the file reader of [file_reader.py] as the agent's reader, a
    file over [max_file_size] is never sent to the provider:
    [process_single_file] returns the failure ["Failed to read file"] with
    the empty placeholder as content, and [stream_file_processing] yields
    the single fragment ["Error: Failed to read file"]; in both the world
    goes through the clock and [stat] only, whatever the transport would
    have answered. *)
Theorem oversize_file_is_not_sent {W} (fs : FileSystem.t W)
    (reader : FileReaderImpl.t) (decode : string -> string + string)
    (loads : string -> Result json) (post : Request.t -> M W json)
    (post_lines : Request.t -> M W (list string * gen_end))
    (clock : W -> Q * W) (fsum : list number -> Q) (fdiv : Q -> Z -> Q)
    (self : AIAgent.t) (file_path : string) (user_prompt : option string)
    (size : Z) :
  let env := FileReaderImpl.env fs reader decode loads post post_lines clock
               fsum fdiv in
  (size > FileReaderImpl.max_file_size reader)%Z ->
  (forall w w0 w1 w2 t0 t1,
      clock w = (t0, w0) ->
      FileSystem.stat_size fs file_path w0 = (inl size, w1) ->
      clock w1 = (t1, w2) ->
      AIAgent.process_single_file env self file_path user_prompt w
      = (Ok (ProcessingResult.Build file_path
               (FileContent.Build file_path "" 0 "utf-8") None (t1 - t0)%Q
               false (Some "Failed to read file")), w2))
  /\ (forall w w1,
         FileSystem.stat_size fs file_path w = (inl size, w1) ->
         AIAgent.stream_file_processing env self file_path user_prompt w
         = (([JStr "Error: Failed to read file"], Finished), w1)).
Proof.
  intros env Hsize.
  assert (Hread : forall w w1,
             FileSystem.stat_size fs file_path w = (inl size, w1) ->
             read_file env file_path w = (Ok None, w1)).
  { intros w w1 Hstat. simpl.
    exact (read_file_oversize fs reader file_path w w1 size Hstat Hsize). }
  split.
  - intros w w0 w1 w2 t0 t1 Ht0 Hstat Ht1.
    unfold AIAgent.process_single_file, bind, try_except, now, ret.
    change (time_time env) with clock.
    rewrite Ht0, (Hread w0 w1 Hstat), Ht1. reflexivity.
  - intros w w1 Hstat.
    unfold AIAgent.stream_file_processing, gen_try_except.
    rewrite (Hread w w1 Hstat). reflexivity.
Qed.

(** The file of 5000 bytes of the sample disk, under a transport that
    would have answered. *)
Lemma oversize_file_is_not_sent_witness :
  let env :=
    FileReaderImpl.env (Examples.disk_fs "input" Examples.sample_disk)
      Examples.small_reader Utf8Decoder.decode JsonDecoder.json_loads
      (fun _ w => (Ok (Examples.chat_body "ok"), w))
      (fun _ w => (Ok ([Examples.hi_line], Finished), w))
      (fun w => (0%Q, w)) Examples.exact_sum Examples.exact_div in
  AIAgent.stream_file_processing env Examples.openai_agent "input/big.txt"
    None tt
  = (([JStr "Error: Failed to read file"], Finished), tt).
Proof.
  cbv zeta.
  apply (proj2 (oversize_file_is_not_sent
                  (Examples.disk_fs "input" Examples.sample_disk)
                  Examples.small_reader Utf8Decoder.decode
                  JsonDecoder.json_loads _ _ _ Examples.exact_sum
                  Examples.exact_div
                  Examples.openai_agent "input/big.txt" None 5000%Z
                  eq_refl)).
  reflexivity.
Defined.
